(** * Supply-Bot: the agents' decision logic, embedded and verified

    A shallow embedding of the three agents of Supply-Bot:

    - [Strategist] (src/agents/strategist/index.ts): inventory urgency,
      consumption analysis and stockout prediction;
    - [Scout] (src/agents/scout/index.ts): supplier scans with price-change
      detection, and the single-SKU stock check;
    - [Diplomat] (src/agents/diplomat/index.ts): the negotiation state
      machine driven by [processNegotiationResponse].

    Conventions of the embedding.

    - A JavaScript [number] of the Strategist and of the Scout is an
      exact rational ([Q]): the rounding of IEEE doubles, [NaN] and the
      infinities are outside their model; the divisions of the modelled
      code are guarded in the source itself ([x > 0 ? a / x : c],
      [x || 1], [Math.max(1, x)]), and the places where a [NaN] can enter
      are noted.  A [number] of the Diplomat is a binary64 floating-point
      number with the operations of IEEE 754, because its acceptance test
      compares a rounded quotient with a threshold.
    - The Prisma tables are lists of records (insertion order is the
      order of the log) or finite maps keyed by the row id.
    - The outside world (the language model, the mail transport, the
      suppliers' endpoints, the clock) enters every operation as an explicit
      argument that records what the world answered.
    - [async] code that can throw runs in a small state-and-exception
      monad in which the writes made before a throw persist, as they do in
      the database.  The calls that throw are those to the outside world
      and the database calls that violate a key; the other database calls
      are taken to succeed. *)

From Stdlib Require Import QArith Qround Qabs ZArith Lia List String Bool.
From Stdlib Require Import Floats.
From stdpp Require Import gmap strings sorting.
Import ListNotations.

Local Open Scope Q_scope.
Local Open Scope string_scope.

Set Warnings "-inexact-float".

(** ** JavaScript numbers and operators

    The numbers of the Strategist and of the Scout are read as exact
    rationals.  What is proved of them below is stated on the values the
    code computes (orderings, thresholds, what is kept, what is written)
    and does not rest on how a quotient is rounded.  The acceptance test
    of the Diplomat does rest on it: its numbers are binary64, see
    [Number]. *)

Module Js.

(** [a < b] on numbers. *)
Definition lt (a b : Q) : bool := negb (Qle_bool b a).

(** [a <= b] on numbers. *)
Definition le (a b : Q) : bool := Qle_bool a b.

(** [a !== b] on numbers. *)
Definition strict_ne (a b : Q) : bool := negb (Qeq_bool a b).

(** Truthiness of a number: every number but [0] (and [NaN]). *)
Definition truthy (a : Q) : bool := negb (Qeq_bool a 0).

(** [a || b] where [a] is a number. *)
Definition or (a b : Q) : Q := if truthy a then a else b.

(** [a || b] where [a] may be [undefined]. *)
Definition or_undef (a : option Q) (b : Q) : Q :=
  match a with
  | Some v => or v b
  | None => b
  end.

(** [Math.max(a, b)]. *)
Definition max (a b : Q) : Q := if Qle_bool a b then b else a.

(** [Math.floor(a)]. *)
Definition floor (a : Q) : Z := Qfloor a.

(** [xs.reduce((sum, x) => sum + f(x), 0)]. *)
Definition sum {A} (f : A -> Q) (xs : list A) : Q :=
  fold_left (fun acc x => acc + f x) xs 0.

(** [xs.slice(start)]. *)
Definition slice_from {A} (start : nat) (xs : list A) : list A := skipn start xs.

(** [xs.slice(0, stop)]. *)
Definition slice_to {A} (stop : nat) (xs : list A) : list A := firstn stop xs.

End Js.

(** ** JavaScript numbers as they are: IEEE 754 binary64

    The Diplomat multiplies, adds and divides prices and compares the
    quotient with a threshold; the rounding of each operation decides on
    which side of the threshold a counter-offer falls.  Its numbers are
    therefore the binary64 floating-point numbers of the language, with
    their operations rounding to nearest, ties to even, and with [NaN] and
    the infinities.  A decimal literal stands for the nearest binary64
    number, as it does in the source. *)

Module Number.

(** [a < b], [a > b] and [a >= b]: false when either side is [NaN]. *)
Definition lt (a b : float) : bool := PrimFloat.ltb a b.
Definition gt (a b : float) : bool := PrimFloat.ltb b a.
Definition ge (a b : float) : bool := PrimFloat.leb b a.

(** Truthiness of a number: every number but [0], [-0] and [NaN]. *)
Definition truthy (a : float) : bool :=
  negb (PrimFloat.eqb a 0) && negb (PrimFloat.is_nan a).

(** [a || b] where [a] is a number. *)
Definition or (a b : float) : float := if truthy a then a else b.

(** [a || b] where [a] may be [undefined]. *)
Definition or_undef (a : option float) (b : float) : float :=
  match a with
  | Some v => or v b
  | None => b
  end.

(** [xs.reduce((sum, x) => sum + f(x), 0)]. *)
Definition sum {A} (f : A -> float) (xs : list A) : float :=
  fold_left (fun acc x => (acc + f x)%float) xs 0%float.

End Number.

(** ** Configuration (src/config/index.ts, [agents]) *)

Record Config := {
  stockoutThresholdDays : Q;
  maxNegotiationRounds : Q;
  priceImprovementTarget : float
}.

(** The zod defaults of the schema. *)
Definition defaultConfig : Config := {|
  stockoutThresholdDays := 14;
  maxNegotiationRounds := 3;
  priceImprovementTarget := 0.05%float
|}.

(** ** Effects: state with exceptions

    A computation reads and writes a store of type [S] and either returns
    or throws.  A throw keeps the store as it is at that point: what was
    written to the database before an exception stays written. *)

Module Eff.

Inductive Outcome (A : Type) :=
| Returned (a : A)
| Threw (message : string).
Arguments Returned {A} a.
Arguments Threw {A} message.

Definition M (S A : Type) : Type := S -> Outcome A * S.

Definition ret {S A} (a : A) : M S A := fun s => (Returned a, s).

Definition bind {S A B} (c : M S A) (k : A -> M S B) : M S B :=
  fun s =>
    match c s with
    | (Returned a, s') => k a s'
    | (Threw e, s') => (Threw e, s')
    end.

Definition get {S} : M S S := fun s => (Returned s, s).

Definition modify {S} (f : S -> S) : M S unit := fun s => (Returned tt, f s).

Definition throw {S A} (e : string) : M S A := fun s => (Threw e, s).

(** [try { c } catch (error) { h(error.message) }]. *)
Definition try_catch {S A} (c : M S A) (h : string -> M S A) : M S A :=
  fun s =>
    match c s with
    | (Returned a, s') => (Returned a, s')
    | (Threw e, s') => h e s'
    end.

(** [for (const x of xs) { body(x) }]. *)
Fixpoint for_each {S A} (xs : list A) (body : A -> M S unit) : M S unit :=
  match xs with
  | [] => ret tt
  | x :: rest => bind (body x) (fun _ => for_each rest body)
  end.

End Eff.

Notation "x <- c ;; k" := (Eff.bind c (fun x => k))
  (at level 100, c at next level, right associativity).
Notation "c ;;; k" := (Eff.bind c (fun _ => k))
  (at level 100, right associativity).

(** [AgentResult<T>] of src/agents/types.ts (the [metadata] is left out). *)
Inductive AgentResult (T : Type) :=
| Success (data : T)
| Failure (error : string).
Arguments Success {T} data.
Arguments Failure {T} error.

(** ** Strategist agent (src/agents/strategist/index.ts) *)

Module Strategist.

(** A row of [StockMovement] as [predictStockouts] receives it.
    [createdAt] is the timestamp in milliseconds. *)
Record StockMovement := {
  mv_type : string;
  mv_quantity : Q;
  mv_createdAt : Q
}.

(** A row of [InventoryItem] with the relations the queries include.
    [stockMovements] is the list the query returns for the item: newest
    first, at most the 90 latest. *)
Record InventoryItem := {
  item_id : string;
  item_organizationId : string;
  item_productId : string;
  item_productSku : string;
  item_productName : string;
  currentStock : Q;
  reservedStock : Q;
  reorderPoint : Q;
  item_avgDailyUsage : Q;
  stockMovements : list StockMovement
}.

Inductive Urgency := critical | warning | ok.

(** Which of the four recommendation texts was chosen. *)
Inductive Recommendation :=
| RecUrgent (days : Q)
| RecReorderSoon (days : Q)
| RecAtReorderPoint
| RecHealthy (days : Q).

Record InventoryAnalysis := {
  ia_productId : string;
  ia_productSku : string;
  ia_productName : string;
  ia_currentStock : Q;
  ia_reorderPoint : Q;
  ia_avgDailyUsage : Q;
  daysOfStock : Q;
  (** days from today, [getDate() + Math.floor(daysOfStock)] *)
  ia_predictedStockoutDate : Z;
  urgency : Urgency;
  recommendation : Recommendation
}.

(** Result of [analyzeConsumption]. *)
Record Consumption := { daily : Q; weekly : Q; trend : Q }.

(** What [simpleStockoutPrediction] and [trendBasedPrediction] return. *)
Record MethodPrediction := {
  mp_daysUntilStockout : Q;
  mp_predictedStockoutDate : Z;
  mp_confidence : Q;
  mp_factors : list string
}.

(** What [combinePredicitions] returns. *)
Record CombinedPrediction := {
  cp_daysUntilStockout : Z;
  cp_predictedStockoutDate : Z;
  cp_confidence : Q;
  cp_suggestedReorderDate : Z;
  cp_suggestedQuantity : Q;
  cp_factors : list string
}.

(** [StockPrediction] of src/agents/types.ts. *)
Record StockPrediction := {
  sp_productId : string;
  sp_currentStock : Q;
  sp_predictedStockoutDate : Z;
  daysUntilStockout : Z;
  sp_confidence : Q;
  sp_suggestedReorderDate : Z;
  sp_suggestedQuantity : Q;
  sp_factors : list string
}.

Inductive SuggestedAction := expedite | reorder.

(** A row of the [StockoutPrediction] table. *)
Record StockoutPredictionRow := {
  row_inventoryItemId : string;
  row_predictedDate : Z;
  row_confidence : Q;
  row_daysUntil : Z;
  row_suggestedAction : SuggestedAction;
  row_suggestedQty : Q
}.

(** The tables the Strategist reads and writes. *)
Record Db := {
  inventoryItems : list InventoryItem;
  stockoutPredictions : list StockoutPredictionRow
}.

Definition ms_per_day : Q := 1000 * 60 * 60 * 24.

(** [Math.abs(m.quantity)] summed over a list of movements. *)
Definition consumed (ms : list StockMovement) : Q :=
  Js.sum (fun m => Qabs (mv_quantity m)) ms.

(** [analyzeConsumption(movements)]. *)
Definition analyzeConsumption (movements : list StockMovement) : Consumption :=
  let outMovements := filter (fun m => mv_type m = "out") movements in
  match outMovements with
  | [] => {| daily := 0; weekly := 0; trend := 0 |}
  | newest :: _ =>
    let totalConsumed := consumed outMovements in
    let firstDate := mv_createdAt (List.last outMovements newest) in
    let lastDate := mv_createdAt newest in
    let daysDiff := Js.max 1 ((lastDate - firstDate) / ms_per_day) in
    let daily := totalConsumed / daysDiff in
    let weekly := daily * 7 in
    let midpoint := Nat.div (length outMovements) 2 in
    let recentConsumption := consumed (Js.slice_to midpoint outMovements) in
    let olderConsumption := consumed (Js.slice_from midpoint outMovements) in
    let trend :=
      if Js.lt 0 olderConsumption
      then (recentConsumption - olderConsumption) / olderConsumption
      else 0 in
    {| daily := daily; weekly := weekly; trend := trend |}
  end.

(** [simpleStockoutPrediction(item, consumption)]. *)
Definition simpleStockoutPrediction (item : InventoryItem) (consumption : Consumption)
  : MethodPrediction :=
  let availableStock := currentStock item - reservedStock item in
  let daysUntilStockout :=
    if Js.lt 0 (daily consumption) then availableStock / daily consumption else 365 in
  {| mp_daysUntilStockout := daysUntilStockout;
     mp_predictedStockoutDate := Js.floor daysUntilStockout;
     mp_confidence := 0.7;
     mp_factors := ["historical_average"] |}.

(** [trendBasedPrediction(item, consumption)]. *)
Definition trendBasedPrediction (item : InventoryItem) (consumption : Consumption)
  : MethodPrediction :=
  let availableStock := currentStock item - reservedStock item in
  let trendAdjustedDaily := daily consumption * (1 + trend consumption * 0.5) in
  let daysUntilStockout :=
    if Js.lt 0 trendAdjustedDaily then availableStock / trendAdjustedDaily else 365 in
  {| mp_daysUntilStockout := daysUntilStockout;
     mp_predictedStockoutDate := Js.floor daysUntilStockout;
     mp_confidence := 0.8;
     mp_factors := ["historical_average"; "trend_adjustment"] |}.

(** [[...new Set(xs)]]: first occurrences, in order. *)
Fixpoint dedupe (seen xs : list string) : list string :=
  match xs with
  | [] => []
  | x :: rest =>
    if existsb (String.eqb x) seen then dedupe seen rest
    else x :: dedupe (x :: seen) rest
  end.

(** [combinePredicitions(...predictions)] (the name is the source's). *)
Definition combinePredicitions (predictions : list MethodPrediction) : CombinedPrediction :=
  let n := inject_Z (Z.of_nat (length predictions)) in
  let avgDays := Js.sum mp_daysUntilStockout predictions / n in
  let avgConfidence := Js.sum mp_confidence predictions / n in
  {| cp_daysUntilStockout := Js.floor avgDays;
     cp_predictedStockoutDate := Js.floor avgDays;
     cp_confidence := avgConfidence;
     cp_suggestedReorderDate := Z.max 0 (Js.floor avgDays - 7);
     cp_suggestedQuantity := 0;
     cp_factors := dedupe [] (flat_map mp_factors predictions) |}.

Section WithConfig.

Variable cfg : Config.

(** [this.thresholdDays]. *)
Definition thresholdDays : Q := stockoutThresholdDays cfg.

(** The [if]/[else if] chain of [analyzeInventory] that picks the
    urgency and the recommendation of one item. *)
Definition classify (daysOfStock currentStock reorderPoint : Q)
  : Urgency * Recommendation :=
  if Js.le daysOfStock 3 then (critical, RecUrgent daysOfStock)
  else if Js.le daysOfStock thresholdDays then (warning, RecReorderSoon daysOfStock)
  else if Js.le currentStock reorderPoint then (warning, RecAtReorderPoint)
  else (ok, RecHealthy daysOfStock).

(** [prisma.inventoryItem.findMany({ where: { organizationId } })]. *)
Definition itemsOf (db : Db) (organizationId : string) : list InventoryItem :=
  filter (fun item => item_organizationId item = organizationId) (inventoryItems db).

(** The body of the loop of [analyzeInventory]. *)
Definition analyzeItem (item : InventoryItem) : InventoryAnalysis :=
  let avgDailyUsage := Js.or (item_avgDailyUsage item) 1 in
  let availableStock := currentStock item - reservedStock item in
  let daysOfStock := availableStock / avgDailyUsage in
  let '(urgency, recommendation) :=
    classify daysOfStock (currentStock item) (reorderPoint item) in
  {| ia_productId := item_productId item;
     ia_productSku := item_productSku item;
     ia_productName := item_productName item;
     ia_currentStock := currentStock item;
     ia_reorderPoint := reorderPoint item;
     ia_avgDailyUsage := avgDailyUsage;
     daysOfStock := daysOfStock;
     ia_predictedStockoutDate := Js.floor daysOfStock;
     urgency := urgency;
     recommendation := recommendation |}.

(** The body of the loop of [predictStockouts], up to the test. *)
Definition predictItem (item : InventoryItem) : CombinedPrediction :=
  let consumptionData := analyzeConsumption (stockMovements item) in
  let simplePredict := simpleStockoutPrediction item consumptionData in
  let trendPredict := trendBasedPrediction item consumptionData in
  combinePredicitions [simplePredict; trendPredict].

(** [prediction.daysUntilStockout <= this.thresholdDays * 2]. *)
Definition withinHorizon (prediction : CombinedPrediction) : bool :=
  Js.le (inject_Z (cp_daysUntilStockout prediction)) (thresholdDays * 2).

(** The row passed to [prisma.stockoutPrediction.create]. *)
Definition predictionRow (item : InventoryItem) (prediction : CombinedPrediction)
  : StockoutPredictionRow :=
  {| row_inventoryItemId := item_id item;
     row_predictedDate := cp_predictedStockoutDate prediction;
     row_confidence := cp_confidence prediction;
     row_daysUntil := cp_daysUntilStockout prediction;
     row_suggestedAction :=
       if Js.le (inject_Z (cp_daysUntilStockout prediction)) 3 then expedite else reorder;
     row_suggestedQty := cp_suggestedQuantity prediction |}.

(** The element pushed on [predictions]. *)
Definition stockPrediction (item : InventoryItem) (prediction : CombinedPrediction)
  : StockPrediction :=
  {| sp_productId := item_productId item;
     sp_currentStock := currentStock item;
     sp_predictedStockoutDate := cp_predictedStockoutDate prediction;
     daysUntilStockout := cp_daysUntilStockout prediction;
     sp_confidence := cp_confidence prediction;
     sp_suggestedReorderDate := cp_suggestedReorderDate prediction;
     sp_suggestedQuantity := cp_suggestedQuantity prediction;
     sp_factors := cp_factors prediction |}.

(** The test of the loop of [predictStockouts], on an item. *)
Definition kept (item : InventoryItem) : bool := withinHorizon (predictItem item).

(** The [for] loop of [predictStockouts]: the rows created and the
    predictions pushed, both in the order of the items. *)
Fixpoint predictLoop (items : list InventoryItem)
  (rows : list StockoutPredictionRow) (predictions : list StockPrediction)
  : list StockoutPredictionRow * list StockPrediction :=
  match items with
  | [] => (rows, predictions)
  | item :: rest =>
    let prediction := predictItem item in
    if withinHorizon prediction
    then predictLoop rest (rows ++ [predictionRow item prediction])
                     (predictions ++ [stockPrediction item prediction])
    else predictLoop rest rows predictions
  end.

(** The comparator [(a, b) => a.daysUntilStockout - b.daysUntilStockout]
    orders [a] before [b] when its result is not positive. *)
Definition byDaysUntilStockout (a b : StockPrediction) : Prop :=
  (daysUntilStockout a <= daysUntilStockout b)%Z.

#[export] Instance byDaysUntilStockout_dec a b : Decision (byDaysUntilStockout a b).
Proof. unfold byDaysUntilStockout. apply Z.le_dec. Defined.

(** [predictStockouts(payload)]: the database after the task and the
    data of the (successful) result.  [Array.prototype.sort] is a
    stable merge of runs; the model sorts with a merge sort. *)
Definition predictStockouts (db : Db) (organizationId : string)
  : Db * list StockPrediction :=
  let inventoryItems := itemsOf db organizationId in
  let '(rows, predictions) := predictLoop inventoryItems (stockoutPredictions db) [] in
  ({| inventoryItems := Strategist.inventoryItems db; stockoutPredictions := rows |},
   merge_sort byDaysUntilStockout predictions).

(** The comparator of [analyzeInventory]:
    [urgencyOrder[a] - urgencyOrder[b] || a.daysOfStock - b.daysOfStock]. *)
Definition urgencyOrder (u : Urgency) : Z :=
  match u with critical => 0 | warning => 1 | ok => 2 end.

Definition byUrgency (a b : InventoryAnalysis) : Prop :=
  Js.or (inject_Z (urgencyOrder (urgency a) - urgencyOrder (urgency b)))
        (daysOfStock a - daysOfStock b) <= 0.

#[export] Instance byUrgency_dec a b : Decision (byUrgency a b).
Proof.
  unfold byUrgency.
  destruct (Qlt_le_dec 0 (Js.or (inject_Z (urgencyOrder (urgency a) - urgencyOrder (urgency b)))
        (daysOfStock a - daysOfStock b))) as [H|H].
  - right. intros H'. exact (Qlt_not_le _ _ H H').
  - left. exact H.
Defined.

(** [analyzeInventory(payload)]: the data of the result. *)
Definition analyzeInventory (db : Db) (organizationId : string)
  : list InventoryAnalysis :=
  let inventoryItems := itemsOf db organizationId in
  merge_sort byUrgency (map analyzeItem inventoryItems).

End WithConfig.

End Strategist.

(** ** Scout agent (src/agents/scout/index.ts) *)

Module Scout.

Record Supplier := {
  sup_id : string;
  sup_name : string;
  apiEndpoint : option string;
  portalUrl : option string;
  website : option string;
  lastScrapedAt : option Z
}.

Record SupplierProduct := {
  sp_id : string;
  sp_supplierId : string;
  sp_productId : string;
  supplierSku : string;
  unitPrice : Q;
  inStock : bool;
  stockLevel : option Q;
  sp_lastUpdated : option Z
}.

(** [ScrapedProduct] of src/agents/types.ts ([url] and [rawData] are
    carried through unread and left out).  The portal and website
    adapters replace a price that does not parse by 0; the API adapter
    leaves it [NaN], which differs from every price on file, itself
    included: such a product is outside the model. *)
Record ScrapedProduct := {
  sku : string;
  name : string;
  price : Q;
  currency : string;
  scraped_inStock : bool;
  scraped_stockLevel : option Q
}.

Record PriceHistory := {
  ph_supplierId : string;
  ph_productSku : string;
  ph_price : Q;
  ph_currency : string;
  ph_source : string
}.

Inductive JobStatus := running | completed.

Record ScrapingJob := {
  job_id : nat;
  job_supplierId : string;
  job_status : JobStatus;
  job_results : option (list ScrapedProduct)
}.

Record Db := {
  suppliers : list Supplier;
  supplierProducts : list SupplierProduct;
  priceHistory : list PriceHistory;
  scrapingJobs : list ScrapingJob
}.

(** The [data] of a [prisma.supplierProduct.update].  A field that is
    [undefined] in the call is left as it is by Prisma. *)
Record ProductUpdate := {
  upd_unitPrice : option Q;
  upd_inStock : option bool;
  upd_stockLevel : option Q;
  upd_lastUpdated : option Z
}.

(** One call that writes to the database. *)
Inductive DbWrite :=
| ScrapingJobCreate (supplierId : string)
| PriceHistoryCreate (row : PriceHistory)
| SupplierProductUpdate (id : string) (data : ProductUpdate)
| SupplierUpdate (id : string) (lastScrapedAt : Z)
| ScrapingJobComplete (id : nat) (results : list ScrapedProduct).

Definition updateProduct (data : ProductUpdate) (sp : SupplierProduct) : SupplierProduct :=
  {| sp_id := sp_id sp;
     sp_supplierId := sp_supplierId sp;
     sp_productId := sp_productId sp;
     supplierSku := supplierSku sp;
     unitPrice := default (unitPrice sp) (upd_unitPrice data);
     inStock := default (inStock sp) (upd_inStock data);
     stockLevel := match upd_stockLevel data with Some l => Some l | None => stockLevel sp end;
     sp_lastUpdated :=
       match upd_lastUpdated data with Some t => Some t | None => sp_lastUpdated sp end |}.

(** What a write does to the tables. *)
Definition apply (w : DbWrite) (db : Db) : Db :=
  match w with
  | ScrapingJobCreate supplierId =>
    {| suppliers := suppliers db;
       supplierProducts := supplierProducts db;
       priceHistory := priceHistory db;
       scrapingJobs := scrapingJobs db ++
         [{| job_id := length (scrapingJobs db); job_supplierId := supplierId;
             job_status := running; job_results := None |}] |}
  | PriceHistoryCreate row =>
    {| suppliers := suppliers db;
       supplierProducts := supplierProducts db;
       priceHistory := priceHistory db ++ [row];
       scrapingJobs := scrapingJobs db |}
  | SupplierProductUpdate id data =>
    {| suppliers := suppliers db;
       supplierProducts :=
         map (fun sp => if String.eqb (sp_id sp) id then updateProduct data sp else sp)
             (supplierProducts db);
       priceHistory := priceHistory db;
       scrapingJobs := scrapingJobs db |}
  | SupplierUpdate id t =>
    {| suppliers :=
         map (fun s => if String.eqb (sup_id s) id
                       then {| sup_id := sup_id s; sup_name := sup_name s;
                               apiEndpoint := apiEndpoint s; portalUrl := portalUrl s;
                               website := website s; lastScrapedAt := Some t |}
                       else s)
             (suppliers db);
       supplierProducts := supplierProducts db;
       priceHistory := priceHistory db;
       scrapingJobs := scrapingJobs db |}
  | ScrapingJobComplete id results =>
    {| suppliers := suppliers db;
       supplierProducts := supplierProducts db;
       priceHistory := priceHistory db;
       scrapingJobs :=
         map (fun j => if Nat.eqb (job_id j) id
                       then {| job_id := job_id j; job_supplierId := job_supplierId j;
                               job_status := completed; job_results := Some results |}
                       else j)
             (scrapingJobs db) |}
  end.

(** The store of the agent: the tables, and the writes made so far in
    the order in which they were awaited. *)
Record Store := { db : Db; log : list DbWrite }.

Definition perform (w : DbWrite) : Eff.M Store unit :=
  Eff.modify (fun st => {| db := apply w (db st); log := log st ++ [w] |}).

(** What the supplier's endpoints answer during one scan: the products
    each adapter extracts, or [None] when the adapter throws. *)
Record ScanWorld := {
  scrapeViaApi : option (list ScrapedProduct);
  scrapeViaPortal : option (list ScrapedProduct);
  scrapeViaWebsite : option (list ScrapedProduct);
  now : Z
}.

(** Truthiness of a nullable string column. *)
Definition present (o : option string) : bool :=
  match o with
  | Some s => negb (String.eqb s "")
  | None => false
  end.

Definition await_adapter (answer : option (list ScrapedProduct))
  : Eff.M Store (list ScrapedProduct) :=
  match answer with
  | Some products => Eff.ret products
  | None => Eff.throw "adapter failed"
  end.

(** "Choose scraping method based on supplier configuration": the answer
    of the adapter that is called, an empty list when none is. *)
Definition adapterAnswer (w : ScanWorld) (supplier : Supplier)
  : option (list ScrapedProduct) :=
  if present (apiEndpoint supplier) then scrapeViaApi w
  else if present (portalUrl supplier) then scrapeViaPortal w
  else if present (website supplier) then scrapeViaWebsite w
  else Some [].

(** [include: { supplierProducts: ... }] of the supplier query. *)
Definition productsOf (d : Db) (supplierId : string) : list SupplierProduct :=
  filter (fun sp => sp_supplierId sp = supplierId) (supplierProducts d).

(** [supplier.supplierProducts.find(sp => sp.supplierSku === scraped.sku)]. *)
Definition findExisting (products : list SupplierProduct) (scraped : ScrapedProduct)
  : option SupplierProduct :=
  List.find (fun sp => String.eqb (supplierSku sp) (sku scraped)) products.

(** The row of [prisma.priceHistory.create] in [scanSupplier]. *)
Definition historyRow (supplier : Supplier) (scraped : ScrapedProduct) : PriceHistory :=
  {| ph_supplierId := sup_id supplier;
     ph_productSku := sku scraped;
     ph_price := price scraped;
     ph_currency := currency scraped;
     ph_source := "scraped" |}.

(** The [data] of [prisma.supplierProduct.update] in [scanSupplier]. *)
Definition scanUpdate (w : ScanWorld) (scraped : ScrapedProduct) : ProductUpdate :=
  {| upd_unitPrice := Some (price scraped);
     upd_inStock := Some (scraped_inStock scraped);
     upd_stockLevel := scraped_stockLevel scraped;
     upd_lastUpdated := Some (now w) |}.

(** The body of the loop "Update database with scraped data". *)
Definition recordScraped (w : ScanWorld) (supplier : Supplier)
  (products : list SupplierProduct) (scraped : ScrapedProduct) : Eff.M Store unit :=
  match findExisting products scraped with
  | Some existingProduct =>
    (if Js.strict_ne (unitPrice existingProduct) (price scraped)
     then perform (PriceHistoryCreate (historyRow supplier scraped))
     else Eff.ret tt) ;;;
    perform (SupplierProductUpdate (sp_id existingProduct) (scanUpdate w scraped))
  | None => Eff.ret tt
  end.

(** The database calls of one turn of that loop, in order. *)
Definition writesFor (w : ScanWorld) (supplier : Supplier)
  (products : list SupplierProduct) (scraped : ScrapedProduct) : list DbWrite :=
  match findExisting products scraped with
  | Some existingProduct =>
    (if Js.strict_ne (unitPrice existingProduct) (price scraped)
     then [PriceHistoryCreate (historyRow supplier scraped)]
     else [])
    ++ [SupplierProductUpdate (sp_id existingProduct) (scanUpdate w scraped)]
  | None => []
  end.

(** A store after a sequence of writes. *)
Definition replay (ws : list DbWrite) (st : Store) : Store :=
  fold_left (fun st w => {| db := apply w (db st); log := log st ++ [w] |}) ws st.

(** [prisma.supplierProduct.findUnique({ where: { id } })]. *)
Definition lookupProduct (id : string) (d : Db) : option SupplierProduct :=
  List.find (fun sp => String.eqb (sp_id sp) id) (supplierProducts d).

(** [prisma.supplier.findUnique({ where: { id } })]. *)
Definition lookupSupplier (id : string) (d : Db) : option Supplier :=
  List.find (fun s => String.eqb (sup_id s) id) (suppliers d).

(** The scraped products for which the loop records a price change. *)
Definition priceChanged (products : list SupplierProduct) (scraped : ScrapedProduct) : bool :=
  match findExisting products scraped with
  | Some existingProduct => Js.strict_ne (unitPrice existingProduct) (price scraped)
  | None => false
  end.

(** The database calls of a scan that completes, in order. *)
Definition scanWrites (w : ScanWorld) (supplier : Supplier)
  (products : list SupplierProduct) (job : nat) (scrapedProducts : list ScrapedProduct)
  : list DbWrite :=
  [ScrapingJobCreate (sup_id supplier)]
  ++ flat_map (writesFor w supplier products) scrapedProducts
  ++ [SupplierUpdate (sup_id supplier) (now w); ScrapingJobComplete job scrapedProducts].

(** The rows a sequence of writes adds to [PriceHistory]. *)
Definition createdRows (ws : list DbWrite) : list PriceHistory :=
  flat_map (fun w => match w with PriceHistoryCreate row => [row] | _ => [] end) ws.

(** The updates a sequence of writes makes to the product [id]. *)
Definition updatesOf (id : string) (ws : list DbWrite) : list ProductUpdate :=
  flat_map (fun w => match w with
                     | SupplierProductUpdate id' data =>
                       if String.eqb id' id then [data] else []
                     | _ => []
                     end) ws.

(** A row after a sequence of updates. *)
Definition applyUpdates (us : list ProductUpdate) (sp : SupplierProduct) : SupplierProduct :=
  fold_left (fun sp data => updateProduct data sp) us sp.

(** [scanSupplier(payload)]. *)
Definition scanSupplier (w : ScanWorld) (supplierId : string)
  : Eff.M Store (AgentResult (list ScrapedProduct)) :=
  Eff.try_catch
    (st <- Eff.get ;;
     match lookupSupplier supplierId (db st) with
     | None => Eff.ret (Failure "Supplier not found")
     | Some supplier =>
       let products := productsOf (db st) (sup_id supplier) in
       let job := length (scrapingJobs (db st)) in
       perform (ScrapingJobCreate (sup_id supplier)) ;;;
       scrapedProducts <- await_adapter (adapterAnswer w supplier) ;;
       Eff.for_each scrapedProducts (recordScraped w supplier products) ;;;
       perform (SupplierUpdate (sup_id supplier) (now w)) ;;;
       perform (ScrapingJobComplete job scrapedProducts) ;;;
       Eff.ret (Success scrapedProducts)
     end)
    (fun message => Eff.ret (Failure message)).

(** What [GET apiEndpoint/stock/sku] answers. *)
Record StockAnswer := {
  in_stock : option bool;
  quantity : option Q
}.

(** What [performStockCheck] returns. *)
Record StockData := {
  sd_inStock : bool;
  sd_stockLevel : option Q
}.

(** [performStockCheck(supplier, sku)].  [answer] is what the stock
    endpoint answers, [None] when the request throws. *)
Definition performStockCheck (answer : option StockAnswer) (supplier : Supplier)
  (sku : string) : StockData :=
  let fallback := {| sd_inStock := true; sd_stockLevel := None |} in
  if present (apiEndpoint supplier) then
    match answer with
    | Some data =>
      {| sd_inStock :=
           match in_stock data with
           | Some b => b
           | None => match quantity data with Some q => Js.lt 0 q | None => false end
           end;
         sd_stockLevel := quantity data |}
    | None => fallback
    end
  else fallback.

(** [checkStock(payload)]. *)
Definition checkStock (answer : option StockAnswer) (t : Z)
  (supplierId productSku : string) : Eff.M Store (AgentResult StockData) :=
  Eff.try_catch
    (st <- Eff.get ;;
     match List.find (fun sp => String.eqb (sp_supplierId sp) supplierId
                                && String.eqb (supplierSku sp) productSku)
                     (supplierProducts (db st)) with
     | None => Eff.ret (Failure "Supplier product not found")
     | Some supplierProduct =>
       match lookupSupplier (sp_supplierId supplierProduct) (db st) with
       | None => Eff.throw "supplier relation missing"
       | Some supplier =>
         let stockData := performStockCheck answer supplier productSku in
         perform (SupplierProductUpdate (sp_id supplierProduct)
                    {| upd_unitPrice := None;
                       upd_inStock := Some (sd_inStock stockData);
                       upd_stockLevel := sd_stockLevel stockData;
                       upd_lastUpdated := Some t |}) ;;;
         Eff.ret (Success stockData)
       end
     end)
    (fun message => Eff.ret (Failure message)).

End Scout.

(** ** Diplomat agent (src/agents/diplomat/index.ts) *)

Module Diplomat.

(** The values of [Negotiation.status] that the repository writes
    ([pending] only in the seed script) or names. *)
Inductive Status := initiated | pending | in_progress | accepted | rejected | expired.

Inductive Direction := outbound | inbound.

(** A product of a [NegotiationContext], as stored in
    [initialOffer.products]. *)
Record Product := {
  sku : string;
  name : string;
  quantity : float;
  currentPrice : float;
  targetPrice : float;
  competitorPrice : option float
}.

(** The [counterOffer] object the classification extracts: the prices
    under its [products] key and the prices at its top level, both by
    SKU.  A key that is absent, and a [products] object that is absent,
    give [undefined] on lookup. *)
Record CounterOffer := {
  co_products : gmap string float;
  co_prices : gmap string float
}.

Inductive Approach := competitive | collaborative | volume_leverage | urgency.

Inductive FallbackAction := accept | walk_away | escalate.

Inductive TalkingPoint :=
| PurchasedOver (historicalVolume : float)
| Point (text : string).

Record NegotiationStrategy := {
  approach : Approach;
  initialDiscount : float;
  maxRounds : Q;
  fallbackAction : FallbackAction;
  talkingPoints : list TalkingPoint
}.

Record NegotiationContext := {
  ctx_supplierId : string;
  supplierName : string;
  supplierEmail : string;
  organizationName : string;
  products : list Product;
  historicalVolume : option float
}.

Record InitialOffer := {
  offer_products : list Product;
  targetSavings : float;
  offer_strategy : Approach
}.

Record Negotiation := {
  neg_organizationId : string;
  neg_supplierId : string;
  status : Status;
  initialOffer : InitialOffer;
  counterOffers : list CounterOffer;
  finalTerms : option CounterOffer;
  savings : option float;
  expiresAt : Z;
  completedAt : option Z;
  metadata : option NegotiationStrategy
}.

Inductive Body :=
| Generated (text : string)
| AcceptanceLetter (supplierName : string) (terms : CounterOffer) (organizationName : string)
| Reply (responseContent : string).

Record EmailMessage := {
  to : string;
  subject : string;
  body : Body
}.

Record NegotiationMessage := {
  msg_negotiationId : string;
  direction : Direction;
  msg_subject : option string;
  content : Body;
  sentAt : option Z
}.

Record Organization := { org_name : string }.

Record SupplierProduct := {
  sp_productId : string;
  supplierSku : string;
  sp_productName : string;
  unitPrice : float
}.

Record Supplier := {
  sup_name : string;
  contactEmail : option string;
  supplierProducts : list SupplierProduct
}.

Inductive OrderStatus := draft | confirmed | shipped | received | cancelled.

(** Rows of [PurchaseOrder]; the table is kept newest first, the order
    of [orderBy: { createdAt: 'desc' }]. *)
Record PurchaseOrder := {
  po_organizationId : string;
  po_supplierId : string;
  po_status : OrderStatus;
  totalAmount : float
}.

Record Db := {
  organizations : gmap string Organization;
  suppliers : gmap string Supplier;
  purchaseOrders : list PurchaseOrder;
  negotiations : gmap string Negotiation;
  messages : list NegotiationMessage
}.

(** The tables and the mail handed to the transport so far. *)
Record Store := { db : Db; outbox : list EmailMessage }.

(** The text the model generates for an email, already cut at its
    subject line: [subjectLine] is the first line that contains
    "subject:" with the marker removed and trimmed, when there is one;
    [draftBody] is the rest, joined and trimmed. *)
Record Draft := { subjectLine : option string; draftBody : string }.

(** [JSON.parse] of the classification the model returns.  The keys are
    read for their truthiness. *)
Record Analysis := {
  an_accepted : bool;
  an_rejected : bool;
  an_counterOffer : option CounterOffer;
  an_terms : option CounterOffer;
  an_savings : option float;
  an_reason : option string
}.

(** What the model answers to the classification prompt. *)
Inductive ModelAnswer :=
| ModelFails
| Unparseable
| Parsed (result : Analysis).

(** What the world answers during one call of
    [processNegotiationResponse]. *)
Record ReplyWorld := {
  classification : ModelAnswer;
  counterDraft : option Draft;
  mailAccepted : bool;
  now : Z
}.

(** What the world answers during one call of [initiateNegotiation]:
    the id the database gives the new row, the generated email. *)
Record InitWorld := {
  newId : string;
  openingDraft : option Draft;
  init_mailAccepted : bool;
  init_now : Z
}.

(** The [data] of the results of [processNegotiationResponse]. *)
Inductive ProcessData :=
| DataAccepted (finalTerms : option CounterOffer) (savings : option float)
| DataRejected (reason : option string)
| DataCounterSent (round : nat)
| DataAcceptedFinal (savings : float)
| DataNoAgreement.

Record InitData := {
  negotiationId : string;
  strategy : Approach;
  emailSent : bool
}.

Record Evaluation := { acceptable : bool; actualSavings : float }.

(** The status of a negotiation in a store. *)
Definition statusOf (id : string) (st : Store) : option Status :=
  option_map status (negotiations (db st) !! id).

(** The terminal states. *)
Definition terminal (s : Status) : bool :=
  match s with accepted | rejected | expired => true | _ => false end.

(** What a call can do to the table of negotiations: nothing, or alter
    the row of its negotiation, either keeping the status or setting one
    of the three terminal states. *)
Definition statusStep (id : string) (before after : gmap string Negotiation) : Prop :=
  exists f : Negotiation -> Negotiation,
    (forall id', after !! id' = if decide (id = id') then f <$> before !! id' else before !! id')
    /\ ((forall m, status (f m) = status m)
        \/ exists s, terminal s = true /\ forall m, status (f m) = s).

Definition setDb (f : Db -> Db) (st : Store) : Store :=
  {| db := f (db st); outbox := outbox st |}.

(** [prisma.negotiationMessage.create]. *)
Definition createMessage (m : NegotiationMessage) : Eff.M Store unit :=
  Eff.modify (setDb (fun d =>
    {| organizations := organizations d; suppliers := suppliers d;
       purchaseOrders := purchaseOrders d; negotiations := negotiations d;
       messages := messages d ++ [m] |})).

(** [prisma.negotiation.update({ where: { id }, data })]. *)
Definition updateNegotiation (id : string) (data : Negotiation -> Negotiation)
  : Eff.M Store unit :=
  Eff.modify (setDb (fun d =>
    {| organizations := organizations d; suppliers := suppliers d;
       purchaseOrders := purchaseOrders d;
       negotiations := alter data id (negotiations d);
       messages := messages d |})).

(** [prisma.negotiation.create]; the id is the primary key. *)
Definition createNegotiation (id : string) (n : Negotiation) : Eff.M Store unit :=
  st <- Eff.get ;;
  match negotiations (db st) !! id with
  | Some _ => Eff.throw "Unique constraint failed"
  | None =>
    Eff.modify (setDb (fun d =>
      {| organizations := organizations d; suppliers := suppliers d;
         purchaseOrders := purchaseOrders d;
         negotiations := <[id := n]> (negotiations d);
         messages := messages d |}))
  end.

(** [sendEmail(email)]: [sendMail] resolves or rejects. *)
Definition sendEmail (mailAccepted : bool) (email : EmailMessage) : Eff.M Store unit :=
  if mailAccepted
  then Eff.modify (fun st => {| db := db st; outbox := outbox st ++ [email] |})
  else Eff.throw "sendMail failed".

Definition withStatus (s : Status) (n : Negotiation) : Negotiation :=
  {| neg_organizationId := neg_organizationId n; neg_supplierId := neg_supplierId n;
     status := s; initialOffer := initialOffer n; counterOffers := counterOffers n;
     finalTerms := finalTerms n; savings := savings n; expiresAt := expiresAt n;
     completedAt := completedAt n; metadata := metadata n |}.

(** The [data] of the updates that close a negotiation; [undefined]
    fields are left as they are. *)
Definition close (s : Status) (terms : option CounterOffer) (saved : option float)
  (t : Z) (extra : list CounterOffer) (n : Negotiation) : Negotiation :=
  {| neg_organizationId := neg_organizationId n; neg_supplierId := neg_supplierId n;
     status := s; initialOffer := initialOffer n;
     counterOffers := counterOffers n ++ extra;
     finalTerms := match terms with Some c => Some c | None => finalTerms n end;
     savings := match saved with Some v => Some v | None => savings n end;
     expiresAt := expiresAt n;
     completedAt := Some t; metadata := metadata n |}.

(** [data: { counterOffers: [...counterOffers, counterOffer] }]. *)
Definition pushCounterOffer (c : CounterOffer) (n : Negotiation) : Negotiation :=
  {| neg_organizationId := neg_organizationId n; neg_supplierId := neg_supplierId n;
     status := status n; initialOffer := initialOffer n;
     counterOffers := counterOffers n ++ [c];
     finalTerms := finalTerms n; savings := savings n; expiresAt := expiresAt n;
     completedAt := completedAt n; metadata := metadata n |}.

Section WithConfig.

Variable cfg : Config.

(** [this.maxRounds] and [this.targetImprovement]. *)
Definition agentMaxRounds : Q := maxNegotiationRounds cfg.
Definition targetImprovement : float := priceImprovementTarget cfg.

(** [determineStrategy(context)]. *)
Definition determineStrategy (context : NegotiationContext) : NegotiationStrategy :=
  match historicalVolume context with
  | Some v =>
    if Number.truthy v && Number.gt v 50000%float then
      {| approach := volume_leverage;
         initialDiscount := (targetImprovement + 0.02)%float;
         maxRounds := agentMaxRounds;
         fallbackAction := escalate;
         talkingPoints :=
           [PurchasedOver v;
            Point "Looking to increase our commitment with the right pricing";
            Point "Consolidating suppliers - your pricing will determine allocation"] |}
    else if existsb (fun p => match competitorPrice p with
                              | Some c => Number.truthy c | None => false end)
                    (products context) then
      {| approach := competitive;
         initialDiscount := targetImprovement;
         maxRounds := agentMaxRounds;
         fallbackAction := walk_away;
         talkingPoints :=
           [Point "We have received competitive quotes from alternative suppliers";
            Point "Prefer to maintain our relationship with you";
            Point "Need pricing to be competitive to justify the decision"] |}
    else
      {| approach := collaborative;
         initialDiscount := targetImprovement;
         maxRounds := agentMaxRounds;
         fallbackAction := accept;
         talkingPoints :=
           [Point "Looking to build a long-term partnership";
            Point "Planning significant growth in the coming year";
            Point "Value reliability and quality of service"] |}
  | None =>
    if existsb (fun p => match competitorPrice p with
                         | Some c => Number.truthy c | None => false end)
               (products context) then
      {| approach := competitive;
         initialDiscount := targetImprovement;
         maxRounds := agentMaxRounds;
         fallbackAction := walk_away;
         talkingPoints :=
           [Point "We have received competitive quotes from alternative suppliers";
            Point "Prefer to maintain our relationship with you";
            Point "Need pricing to be competitive to justify the decision"] |}
    else
      {| approach := collaborative;
         initialDiscount := targetImprovement;
         maxRounds := agentMaxRounds;
         fallbackAction := accept;
         talkingPoints :=
           [Point "Looking to build a long-term partnership";
            Point "Planning significant growth in the coming year";
            Point "Value reliability and quality of service"] |}
  end.

(** The price [evaluateCounterOffer] reads for a product:
    [counterOffer?.products?.[sku] || counterOffer?.[sku] || currentPrice]. *)
Definition counterPriceOf (counterOffer : CounterOffer) (product : Product) : float :=
  Number.or_undef (co_products counterOffer !! sku product)
    (Number.or_undef (co_prices counterOffer !! sku product) (currentPrice product)).

(** [evaluateCounterOffer(counterOffer, originalProducts, targetImprovement)]. *)
Definition evaluateCounterOffer (counterOffer : CounterOffer)
  (originalProducts : list Product) (targetImprovement : float) : Evaluation :=
  let '(totalOriginal, totalCounter) :=
    fold_left (fun '(totalOriginal, totalCounter) product =>
                 (totalOriginal + currentPrice product * quantity product,
                  totalCounter + counterPriceOf counterOffer product * quantity product)%float)
              originalProducts (0, 0)%float in
  let actualSavings := (totalOriginal - totalCounter)%float in
  let savingsPercent :=
    if Number.gt totalOriginal 0%float
    then (actualSavings / totalOriginal)%float else 0%float in
  (* Accept if we got at least half of our target improvement *)
  {| acceptable := Number.ge savingsPercent (targetImprovement * 0.5)%float;
     actualSavings := actualSavings |}.

(** The two sums of the loop of [evaluateCounterOffer], each accumulated
    from 0 in the order of the products, and the [savingsPercent] it
    compares with half the target. *)
Definition originalTotal (originalProducts : list Product) : float :=
  Number.sum (fun p => (currentPrice p * quantity p)%float) originalProducts.

Definition counterTotal (counterOffer : CounterOffer) (originalProducts : list Product)
  : float :=
  Number.sum (fun p => (counterPriceOf counterOffer p * quantity p)%float) originalProducts.

Definition savingsPercent (counterOffer : CounterOffer) (originalProducts : list Product)
  : float :=
  let totalOriginal := originalTotal originalProducts in
  let totalCounter := counterTotal counterOffer originalProducts in
  if Number.gt totalOriginal 0%float
  then ((totalOriginal - totalCounter) / totalOriginal)%float
  else 0%float.

(** [analyzeResponse(content, negotiation)]. *)
Definition analyzeResponse (answer : ModelAnswer) (negotiation : Negotiation)
  : Eff.M Store Analysis :=
  match answer with
  | ModelFails => Eff.throw "generateContent failed"
  | Unparseable =>
    Eff.ret {| an_accepted := false; an_rejected := false; an_counterOffer := None;
               an_terms := None; an_savings := None; an_reason := None |}
  | Parsed result =>
    match an_accepted result, an_counterOffer result with
    | true, Some counterOffer =>
      let totalSavings :=
        fold_left (fun totalSavings product =>
                     let counterPrice :=
                       Number.or_undef (co_prices counterOffer !! sku product)
                                       (currentPrice product) in
                     (totalSavings
                      + (currentPrice product - counterPrice) * quantity product)%float)
                  (offer_products (initialOffer negotiation)) 0%float in
      Eff.ret {| an_accepted := an_accepted result; an_rejected := an_rejected result;
                 an_counterOffer := an_counterOffer result;
                 an_terms := Some counterOffer; an_savings := Some totalSavings;
                 an_reason := an_reason result |}
    | _, _ => Eff.ret result
    end
  end.

(** [generateCounterEmail(context, strategy, counterOffer, round)]. *)
Definition generateCounterEmail (answer : option Draft) (context : NegotiationContext)
  : Eff.M Store EmailMessage :=
  match answer with
  | None => Eff.throw "generateContent failed"
  | Some d =>
    Eff.ret {| to := supplierEmail context;
               subject := default ("Re: Pricing Discussion - " ++ organizationName context)
                                  (subjectLine d);
               body := Generated (draftBody d) |}
  end.

(** [generateNegotiationEmail(context, strategy, round)]. *)
Definition generateNegotiationEmail (answer : option Draft) (context : NegotiationContext)
  : Eff.M Store EmailMessage :=
  match answer with
  | None => Eff.throw "generateContent failed"
  | Some d =>
    Eff.ret {| to := supplierEmail context;
               subject := default ("Pricing Discussion - " ++ organizationName context)
                                  (subjectLine d);
               body := Generated (draftBody d) |}
  end.

(** [generateAcceptanceEmail(context, terms)]. *)
Definition generateAcceptanceEmail (context : NegotiationContext) (terms : CounterOffer)
  : EmailMessage :=
  {| to := supplierEmail context;
     subject := "Order Confirmation - " ++ organizationName context;
     body := AcceptanceLetter (supplierName context) terms (organizationName context) |}.

(** [negotiation.messages.filter(m => m.direction === 'outbound').length]
    over the messages of the negotiation. *)
Definition outboundCount (d : Db) (id : string) : nat :=
  length (List.filter (fun m => match direction m with outbound => true | inbound => false end)
                      (List.filter (fun m => String.eqb (msg_negotiationId m) id) (messages d))).

(** The round [processNegotiationResponse] computes. *)
Definition roundOf (d : Db) (id : string) : nat := outboundCount d id + 1.

(** [include: { supplier: true, organization: true }]: both relations
    are required, the foreign keys guarantee that the rows exist. *)
Definition includedSupplier (d : Db) (n : Negotiation) : Supplier :=
  default {| sup_name := ""; contactEmail := None; supplierProducts := [] |}
          (suppliers d !! neg_supplierId n).

Definition includedOrganization (d : Db) (n : Negotiation) : Organization :=
  default {| org_name := "" |} (organizations d !! neg_organizationId n).

(** The inbound message [processNegotiationResponse] records. *)
Definition inboundMessage (negotiationId responseContent : string) : NegotiationMessage :=
  {| msg_negotiationId := negotiationId; direction := inbound;
     msg_subject := None; content := Reply responseContent; sentAt := None |}.

(** The outbound message logged for a counter-email. *)
Definition outboundMessage (w : ReplyWorld) (negotiationId : string)
  (responseEmail : EmailMessage) : NegotiationMessage :=
  {| msg_negotiationId := negotiationId; direction := outbound;
     msg_subject := Some (subject responseEmail);
     content := body responseEmail;
     sentAt := Some (now w) |}.

(** The context [processNegotiationResponse] rebuilds from the stored
    negotiation and its included supplier and organization. *)
Definition storedContext (d : Db) (negotiation : Negotiation) : NegotiationContext :=
  {| ctx_supplierId := neg_supplierId negotiation;
     supplierName := sup_name (includedSupplier d negotiation);
     supplierEmail := default "" (contactEmail (includedSupplier d negotiation));
     organizationName := org_name (includedOrganization d negotiation);
     products := offer_products (initialOffer negotiation);
     historicalVolume := None |}.

(** The branch [if (analysis.accepted)]: "Supplier accepted our terms". *)
Definition acceptTerms (w : ReplyWorld) (negotiationId : string) (analysis : Analysis)
  : Eff.M Store (AgentResult ProcessData) :=
  updateNegotiation negotiationId
    (close accepted (an_terms analysis) (an_savings analysis) (now w) []) ;;;
  Eff.ret (Success (DataAccepted (an_terms analysis) (an_savings analysis))).

(** The branch [else if (analysis.rejected)]: "Supplier rejected". *)
Definition markRejected (w : ReplyWorld) (negotiationId : string) (analysis : Analysis)
  : Eff.M Store (AgentResult ProcessData) :=
  updateNegotiation negotiationId (close rejected None None (now w) []) ;;;
  Eff.ret (Success (DataRejected (an_reason analysis))).

(** The branch [else if (analysis.counterOffer && round < this.maxRounds)]:
    "Counter-offer received - evaluate and respond". *)
Definition answerCounterOffer (w : ReplyWorld) (negotiationId : string)
  (context : NegotiationContext) (negotiation : Negotiation)
  (counterOffer : CounterOffer) (round : nat) : Eff.M Store (AgentResult ProcessData) :=
  let strategy := default (determineStrategy context) (metadata negotiation) in
  (* Decide if counter-offer is acceptable *)
  let counterOfferAnalysis :=
    evaluateCounterOffer counterOffer (offer_products (initialOffer negotiation))
                         targetImprovement in
  if acceptable counterOfferAnalysis then
    (* Accept the counter-offer *)
    updateNegotiation negotiationId
      (close accepted (Some counterOffer) (Some (actualSavings counterOfferAnalysis))
             (now w) [counterOffer]) ;;;
    sendEmail (mailAccepted w) (generateAcceptanceEmail context counterOffer) ;;;
    Eff.ret (Success (DataAccepted (Some counterOffer)
                                   (Some (actualSavings counterOfferAnalysis))))
  else
    (* Counter the counter-offer *)
    responseEmail <- generateCounterEmail (counterDraft w) context ;;
    sendEmail (mailAccepted w) responseEmail ;;;
    createMessage (outboundMessage w negotiationId responseEmail) ;;;
    updateNegotiation negotiationId (pushCounterOffer counterOffer) ;;;
    Eff.ret (Success (DataCounterSent (round + 1))).

(** The [finalDecision] of the last branch. *)
Definition finalDecision (negotiation : Negotiation) (analysis : Analysis) : Evaluation :=
  match an_counterOffer analysis with
  | Some counterOffer =>
    evaluateCounterOffer counterOffer (offer_products (initialOffer negotiation))
                         targetImprovement
  | None => {| acceptable := false; actualSavings := 0%float |}
  end.

(** The branch [else]: "Max rounds reached - make final decision". *)
Definition decideFinally (w : ReplyWorld) (negotiationId : string)
  (negotiation : Negotiation) (analysis : Analysis) : Eff.M Store (AgentResult ProcessData) :=
  if acceptable (finalDecision negotiation analysis) then
    updateNegotiation negotiationId
      (close accepted (an_counterOffer analysis)
             (Some (actualSavings (finalDecision negotiation analysis))) (now w) []) ;;;
    Eff.ret (Success (DataAcceptedFinal (actualSavings (finalDecision negotiation analysis))))
  else
    updateNegotiation negotiationId (close expired None None (now w) []) ;;;
    Eff.ret (Success DataNoAgreement).

(** [round < this.maxRounds]. *)
Definition roundsRemain (round : nat) : bool :=
  Js.lt (inject_Z (Z.of_nat round)) agentMaxRounds.

(** "Determine next action": the [if]/[else if] chain on the analysis. *)
Definition nextAction (w : ReplyWorld) (negotiationId : string)
  (context : NegotiationContext) (negotiation : Negotiation)
  (analysis : Analysis) (round : nat) : Eff.M Store (AgentResult ProcessData) :=
  if an_accepted analysis then acceptTerms w negotiationId analysis
  else if an_rejected analysis then markRejected w negotiationId analysis
  else
    match (if roundsRemain round then an_counterOffer analysis else None) with
    | Some counterOffer =>
      answerCounterOffer w negotiationId context negotiation counterOffer round
    | None => decideFinally w negotiationId negotiation analysis
    end.

(** [processNegotiationResponse(payload)].  The negotiation, its
    relations and its messages are those read at the start of the call. *)
Definition processNegotiationResponse (w : ReplyWorld)
  (negotiationId responseContent : string) : Eff.M Store (AgentResult ProcessData) :=
  Eff.try_catch
    (st <- Eff.get ;;
     match negotiations (db st) !! negotiationId with
     | None => Eff.ret (Failure "Negotiation not found")
     | Some negotiation =>
       (* Record incoming message *)
       createMessage (inboundMessage negotiationId responseContent) ;;;
       (* Analyze response using AI *)
       analysis <- analyzeResponse (classification w) negotiation ;;
       (* Determine next action *)
       let round := roundOf (db st) negotiationId in
       nextAction w negotiationId (storedContext (db st) negotiation) negotiation
                  analysis round
     end)
    (fun message => Eff.ret (Failure message)).

(** An element of [payload.products] of [initiateNegotiation]. *)
Record RequestedProduct := {
  req_productId : string;
  req_quantity : float;
  req_targetPrice : option float
}.

(** The [map] that builds the negotiation context of [initiateNegotiation]. *)
Definition contextProduct (supplier : Supplier) (p : RequestedProduct) : Product :=
  let supplierProduct :=
    List.find (fun sp => String.eqb (sp_productId sp) (req_productId p))
              (supplierProducts supplier) in
  let unit := Number.or_undef (option_map unitPrice supplierProduct) 0%float in
  {| sku := default "" (option_map supplierSku supplierProduct);
     name := default "" (option_map sp_productName supplierProduct);
     quantity := req_quantity p;
     currentPrice := unit;
     targetPrice := Number.or_undef (req_targetPrice p)
                                    (unit * (1 - targetImprovement))%float;
     competitorPrice := None |}.

Definition countsAsVolume (s : OrderStatus) : bool :=
  match s with received | shipped | confirmed => true | _ => false end.

(** [initiateNegotiation(payload)]. *)
Definition initiateNegotiation (w : InitWorld) (organizationId supplierId : string)
  (requested : list RequestedProduct) : Eff.M Store (AgentResult InitData) :=
  Eff.try_catch
    (st <- Eff.get ;;
     match organizations (db st) !! organizationId, suppliers (db st) !! supplierId with
     | Some organization, Some supplier =>
       if Scout.present (contactEmail supplier) then
         let products := map (contextProduct supplier) requested in
         let historicalOrders :=
           firstn 12 (List.filter (fun o => String.eqb (po_organizationId o) organizationId
                                           && String.eqb (po_supplierId o) supplierId
                                           && countsAsVolume (po_status o))
                                  (purchaseOrders (db st))) in
         let context :=
           {| ctx_supplierId := supplierId;
              supplierName := sup_name supplier;
              supplierEmail := default "" (contactEmail supplier);
              organizationName := org_name organization;
              products := products;
              historicalVolume := Some (Number.sum totalAmount historicalOrders) |} in
         let strategy := determineStrategy context in
         email <- generateNegotiationEmail (openingDraft w) context ;;
         createNegotiation (newId w)
           {| neg_organizationId := organizationId;
              neg_supplierId := supplierId;
              status := in_progress;
              initialOffer := {| offer_products := products;
                                 targetSavings := targetImprovement;
                                 offer_strategy := approach strategy |};
              counterOffers := [];
              finalTerms := None;
              savings := None;
              expiresAt := (init_now w + 7 * 24 * 60 * 60 * 1000)%Z;
              completedAt := None;
              metadata := Some strategy |} ;;;
         sendEmail (init_mailAccepted w) email ;;;
         createMessage {| msg_negotiationId := newId w; direction := outbound;
                          msg_subject := Some (subject email); content := body email;
                          sentAt := Some (init_now w) |} ;;;
         Eff.ret (Success {| negotiationId := newId w;
                             strategy := approach strategy;
                             emailSent := true |})
       else Eff.ret (Failure "Supplier has no contact email")
     | _, _ => Eff.ret (Failure "Organization or supplier not found")
     end)
    (fun message => Eff.ret (Failure message)).

End WithConfig.

(** The other writers of [Negotiation.status] in the repository. *)

(** [POST /api/negotiations/:id/messages] of src/api/server.ts: log a
    follow-up as an outbound message and set the status. *)
Definition sendFollowUp (id : string) (message : string) (t : Z) : Eff.M Store unit :=
  st <- Eff.get ;;
  match negotiations (db st) !! id with
  | None => Eff.throw "Foreign key constraint failed"
  | Some _ =>
    createMessage {| msg_negotiationId := id; direction := outbound;
                     msg_subject := Some "Follow-up"; content := Generated message;
                     sentAt := Some t |} ;;;
    updateNegotiation id (withStatus in_progress)
  end.

(** The start-up sweep of src/agents/diplomat/runner.ts: every
    negotiation in progress whose [expiresAt] is past becomes expired. *)
Definition expireStale (t : Z) : Eff.M Store unit :=
  Eff.modify (setDb (fun d =>
    {| organizations := organizations d; suppliers := suppliers d;
       purchaseOrders := purchaseOrders d;
       negotiations :=
         fmap (fun n =>
                 match status n with
                 | in_progress =>
                   if (expiresAt n <? t)%Z then close expired None None t [] n else n
                 | _ => n
                 end) (negotiations d);
       messages := messages d |})).

End Diplomat.

(** ** The specification's own words, for comparison with the code *)

Module SpecWords.

(** What the specification calls the result of the average-rate
    projection: a number of days, or [Infinity]. *)
Inductive Projection := Days (d : Q) | Infinity.

(** "[daysUntilStockout = availableStock / dailyRate] (→ [Infinity] when
    rate is 0)", as the specification words it. *)
Definition predictDaysUntilStockout (availableStock dailyRate : Q) : Projection :=
  if Qeq_bool dailyRate 0 then Infinity else Days (availableStock / dailyRate).


End SpecWords.

(** ** Sample data *)

Module Sample.

(** An item with stock 100 and nothing reserved. *)
Definition item100 : Strategist.InventoryItem :=
  {| Strategist.item_id := "inv-1";
     Strategist.item_organizationId := "org-1";
     Strategist.item_productId := "prod-1";
     Strategist.item_productSku := "SKU-001";
     Strategist.item_productName := "Test Product";
     Strategist.currentStock := 100;
     Strategist.reservedStock := 0;
     Strategist.reorderPoint := 10;
     Strategist.item_avgDailyUsage := 10;
     Strategist.stockMovements := [] |}.

(** A consumption of [rate] units a day with no trend. *)
Definition steady (rate : Q) : Strategist.Consumption :=
  {| Strategist.daily := rate; Strategist.weekly := rate * 7; Strategist.trend := 0 |}.

(** Two outbound movements of 10 units, ten days apart, newest first. *)
Definition twoWithdrawals : list Strategist.StockMovement :=
  [ {| Strategist.mv_type := "out"; Strategist.mv_quantity := 10;
       Strategist.mv_createdAt := 10 * Strategist.ms_per_day |};
    {| Strategist.mv_type := "in"; Strategist.mv_quantity := 500;
       Strategist.mv_createdAt := 5 * Strategist.ms_per_day |};
    {| Strategist.mv_type := "out"; Strategist.mv_quantity := -10;
       Strategist.mv_createdAt := 0 |} ].

(** An item of organization "org-1" that consumes 2 units a day. *)
Definition stocked (id : string) (stock : Q) : Strategist.InventoryItem :=
  {| Strategist.item_id := id;
     Strategist.item_organizationId := "org-1";
     Strategist.item_productId := "prod-" ++ id;
     Strategist.item_productSku := "SKU-" ++ id;
     Strategist.item_productName := "Product " ++ id;
     Strategist.currentStock := stock;
     Strategist.reservedStock := 0;
     Strategist.reorderPoint := 8;
     Strategist.item_avgDailyUsage := 2;
     Strategist.stockMovements := twoWithdrawals |}.

(** Three items: 10, 50 and 2 days of stock at 2 units a day. *)
Definition warehouse : Strategist.Db :=
  {| Strategist.inventoryItems := [stocked "b" 20; stocked "a" 100; stocked "c" 4];
     Strategist.stockoutPredictions := [] |}.

(** A supplier with a public website and two products on file. *)
Definition acme : Scout.Supplier :=
  {| Scout.sup_id := "sup-1"; Scout.sup_name := "Acme";
     Scout.apiEndpoint := None; Scout.portalUrl := None;
     Scout.website := Some "https://acme.example"; Scout.lastScrapedAt := None |}.

Definition onFile (id sku : string) (unit : Q) (stocked : bool) (level : option Q)
  : Scout.SupplierProduct :=
  {| Scout.sp_id := id; Scout.sp_supplierId := "sup-1"; Scout.sp_productId := "prod-" ++ id;
     Scout.supplierSku := sku; Scout.unitPrice := unit; Scout.inStock := stocked;
     Scout.stockLevel := level; Scout.sp_lastUpdated := None |}.

Definition catalog : Scout.Store :=
  {| Scout.db :=
       {| Scout.suppliers := [acme];
          Scout.supplierProducts :=
            [onFile "sp-1" "A" 10 true (Some 40); onFile "sp-2" "B" 5 false (Some 0)];
          Scout.priceHistory := [];
          Scout.scrapingJobs := [] |};
     Scout.log := [] |}.

Definition listed (sku : string) (unit : Q) : Scout.ScrapedProduct :=
  {| Scout.sku := sku; Scout.name := "Item " ++ sku; Scout.price := unit;
     Scout.currency := "USD"; Scout.scraped_inStock := true;
     Scout.scraped_stockLevel := None |}.

(** The website lists A at 12 (it was 10) and B at 5 (as it was). *)
Definition listing : Scout.ScanWorld :=
  {| Scout.scrapeViaApi := None; Scout.scrapeViaPortal := None;
     Scout.scrapeViaWebsite := Some [listed "A" 12; listed "B" 5];
     Scout.now := 1700000000000 |}.

(** The website lists both at the prices on file. *)
Definition sameListing : Scout.ScanWorld :=
  {| Scout.scrapeViaApi := None; Scout.scrapeViaPortal := None;
     Scout.scrapeViaWebsite := Some [listed "A" 10; listed "B" 5];
     Scout.now := 1700000000000 |}.

(** A negotiation over 100 units of A at 10 a unit (1000 in total). *)
Definition widgets : Diplomat.Product :=
  {| Diplomat.sku := "A"; Diplomat.name := "Widget"; Diplomat.quantity := 100%float;
     Diplomat.currentPrice := 10%float; Diplomat.targetPrice := 9.5%float;
     Diplomat.competitorPrice := None |}.

Definition talksWith (s : Diplomat.Status) : Diplomat.Negotiation :=
  {| Diplomat.neg_organizationId := "org-1";
     Diplomat.neg_supplierId := "sup-1";
     Diplomat.status := s;
     Diplomat.initialOffer :=
       {| Diplomat.offer_products := [widgets]; Diplomat.targetSavings := 0.05%float;
          Diplomat.offer_strategy := Diplomat.collaborative |};
     Diplomat.counterOffers := [];
     Diplomat.finalTerms := None;
     Diplomat.savings := None;
     Diplomat.expiresAt := 1700604800000;
     Diplomat.completedAt := None;
     Diplomat.metadata := None |}.

Definition sentMail (id : string) : Diplomat.NegotiationMessage :=
  {| Diplomat.msg_negotiationId := id; Diplomat.direction := Diplomat.outbound;
     Diplomat.msg_subject := Some "Pricing Discussion - Widgets Inc";
     Diplomat.content := Diplomat.Generated "Dear Acme Team";
     Diplomat.sentAt := Some 1700000000000%Z |}.

(** The store of a negotiation "neg-1" in state [s] after [sent] emails
    of ours. *)
Definition desk (s : Diplomat.Status) (sent : nat) : Diplomat.Store :=
  {| Diplomat.db :=
       {| Diplomat.organizations := {[ "org-1" := {| Diplomat.org_name := "Widgets Inc" |} ]};
          Diplomat.suppliers :=
            {[ "sup-1" := {| Diplomat.sup_name := "Acme";
                             Diplomat.contactEmail := Some "sales@acme.example";
                             Diplomat.supplierProducts :=
                               [{| Diplomat.sp_productId := "prod-1";
                                   Diplomat.supplierSku := "A";
                                   Diplomat.sp_productName := "Widget";
                                   Diplomat.unitPrice := 10%float |}] |} ]};
          Diplomat.purchaseOrders := [];
          Diplomat.negotiations := {[ "neg-1" := talksWith s ]};
          Diplomat.messages := repeat (sentMail "neg-1") sent |};
     Diplomat.outbox := [] |}.

(** A counter-offer of [unit] a unit for A. *)
Definition offers (unit : float) : Diplomat.CounterOffer :=
  {| Diplomat.co_products := ∅; Diplomat.co_prices := {[ "A" := unit ]} |}.

Definition counters (unit : float) : Diplomat.Analysis :=
  {| Diplomat.an_accepted := false; Diplomat.an_rejected := false;
     Diplomat.an_counterOffer := Some (offers unit);
     Diplomat.an_terms := None; Diplomat.an_savings := None;
     Diplomat.an_reason := Some "volume" |}.

Definition refuses : Diplomat.Analysis :=
  {| Diplomat.an_accepted := false; Diplomat.an_rejected := true;
     Diplomat.an_counterOffer := None;
     Diplomat.an_terms := None; Diplomat.an_savings := None;
     Diplomat.an_reason := Some "no discounts" |}.

(** A world in which the model classifies the reply as [answer], drafts
    a counter-email, and the mail goes out. *)
Definition replying (answer : Diplomat.ModelAnswer) : Diplomat.ReplyWorld :=
  {| Diplomat.classification := answer;
     Diplomat.counterDraft :=
       Some {| Diplomat.subjectLine := Some "Re: Pricing";
               Diplomat.draftBody := "We appreciate the offer" |};
     Diplomat.mailAccepted := true;
     Diplomat.now := 1700086400000 |}.




End Sample.

(** ** Scout agent: the batch scan and the price comparison *)

Module ScoutBatch.

Import Scout.

(** The database calls of [scanSupplier], whatever its outcome: none for
    an unknown supplier, the opening of the job when the adapter throws,
    those of [scanWrites] when the scan completes. *)
Definition writesOfScan (w : ScanWorld) (supplierId : string) (st : Store) : list DbWrite :=
  match lookupSupplier supplierId (db st) with
  | None => []
  | Some supplier =>
    match adapterAnswer w supplier with
    | None => [ScrapingJobCreate (sup_id supplier)]
    | Some scrapedProducts =>
      scanWrites w supplier (productsOf (db st) (sup_id supplier))
                 (length (scrapingJobs (db st))) scrapedProducts
    end
  end.

(** An element of [results] in [scanAllSuppliers]. *)
Record ScanOutcome := {
  so_supplierId : string;
  so_success : bool;
  so_error : option string
}.

(** The [data] and the [metadata] of the result of [scanAllSuppliers]. *)
Record ScanSummary := {
  results : list ScanOutcome;
  totalSuppliers : nat;
  successful : nat;
  failed : nat
}.

(** [{ supplierId, success: result.success, error: result.error }]. *)
Definition outcomeOf {T} (supplierId : string) (result : AgentResult T) : ScanOutcome :=
  match result with
  | Success _ => {| so_supplierId := supplierId; so_success := true; so_error := None |}
  | Failure e => {| so_supplierId := supplierId; so_success := false; so_error := Some e |}
  end.

(** The loop "Process suppliers with rate limiting" of
    [scanAllSuppliers]; [answers] is what the endpoints of each supplier
    answer during the batch.  The delay between two suppliers is time
    only and is left out. *)
Fixpoint scanEach (answers : string -> ScanWorld) (suppliers : list Supplier)
  (results : list ScanOutcome) : Eff.M Store (list ScanOutcome) :=
  match suppliers with
  | [] => Eff.ret results
  | supplier :: rest =>
    result <- scanSupplier (answers (sup_id supplier)) (sup_id supplier) ;;
    scanEach answers rest (results ++ [outcomeOf (sup_id supplier) result])
  end.

(** [scanAllSuppliers()].  [isActive] is the [isActive] column of the
    suppliers, by id. *)
Definition scanAllSuppliers (isActive : string -> bool) (answers : string -> ScanWorld)
  : Eff.M Store (AgentResult ScanSummary) :=
  Eff.try_catch
    (st <- Eff.get ;;
     let suppliers := List.filter (fun s => isActive (sup_id s)) (suppliers (db st)) in
     results <- scanEach answers suppliers [] ;;
     Eff.ret (Success {| results := results;
                         totalSuppliers := length suppliers;
                         successful := length (List.filter so_success results);
                         failed := length (List.filter (fun r => negb (so_success r))
                                                       results) |}))
    (fun message => Eff.ret (Failure message)).

(** An element of [priceComparison] in [comparePrices] (the name of the
    supplier, its tier and the lead time are carried through unread and
    left out). *)
Record PriceQuote := {
  pq_supplierId : string;
  pq_sku : string;
  pq_price : Q;
  pq_inStock : bool
}.

Record PriceComparison := {
  pc_productId : string;
  pc_suppliers : list PriceQuote;
  pc_lowestPrice : PriceQuote;
  pc_averagePrice : Q;
  pc_potentialSavings : Q
}.

(** [orderBy: { unitPrice: 'asc' }]. *)
Definition byUnitPrice (a b : SupplierProduct) : Prop := unitPrice a <= unitPrice b.

#[export] Instance byUnitPrice_dec a b : Decision (byUnitPrice a b).
Proof.
  unfold byUnitPrice.
  destruct (Qlt_le_dec (unitPrice b) (unitPrice a)) as [H|H].
  - right. intros H'. exact (Qlt_not_le _ _ H H').
  - left. exact H.
Defined.

(** The query of [comparePrices]: the offers for a product, cheapest
    first. *)
Definition offersFor (d : Db) (productId : string) : list SupplierProduct :=
  merge_sort byUnitPrice
    (filter (fun sp => sp_productId sp = productId) (supplierProducts d)).

Definition quoteOf (sp : SupplierProduct) : PriceQuote :=
  {| pq_supplierId := sp_supplierId sp;
     pq_sku := supplierSku sp;
     pq_price := unitPrice sp;
     pq_inStock := inStock sp |}.

(** [comparePrices(payload)].  With no offer, [priceComparison[0]] is
    [undefined] and reading its price throws; the handler turns the throw
    into a failed result. *)
Definition comparePrices (d : Db) (productId : string) : AgentResult PriceComparison :=
  let priceComparison := map quoteOf (offersFor d productId) in
  let averagePrice :=
    Js.sum pq_price priceComparison / inject_Z (Z.of_nat (length priceComparison)) in
  match priceComparison with
  | [] => Failure "Cannot read properties of undefined (reading 'price')"
  | lowestPrice :: _ =>
    Success {| pc_productId := productId;
               pc_suppliers := priceComparison;
               pc_lowestPrice := lowestPrice;
               pc_averagePrice := averagePrice;
               pc_potentialSavings := averagePrice - pq_price lowestPrice |}
  end.

End ScoutBatch.

(** ** More sample data *)

Module Fixtures.

(** The website of the sample supplier does not answer. *)
Definition outage : Scout.ScanWorld :=
  {| Scout.scrapeViaApi := None; Scout.scrapeViaPortal := None;
     Scout.scrapeViaWebsite := None; Scout.now := 1700000000000 |}.

(** A second supplier, with an API, offering the product of "sp-1". *)
Definition bolt : Scout.Supplier :=
  {| Scout.sup_id := "sup-2"; Scout.sup_name := "Bolt";
     Scout.apiEndpoint := Some "https://api.bolt.example"; Scout.portalUrl := None;
     Scout.website := None; Scout.lastScrapedAt := None |}.

Definition market : Scout.Store :=
  {| Scout.db :=
       {| Scout.suppliers := [Sample.acme; bolt];
          Scout.supplierProducts :=
            [Sample.onFile "sp-1" "A" 10 true (Some 40);
             Sample.onFile "sp-2" "B" 5 false (Some 0);
             {| Scout.sp_id := "sp-3"; Scout.sp_supplierId := "sup-2";
                Scout.sp_productId := "prod-sp-1"; Scout.supplierSku := "A-77";
                Scout.unitPrice := 8; Scout.inStock := true;
                Scout.stockLevel := Some 12; Scout.sp_lastUpdated := None |}];
          Scout.priceHistory := [];
          Scout.scrapingJobs := [] |};
     Scout.log := [] |}.

End Fixtures.

(** ** Sample data for the batch scan *)

Module BatchFixtures.

(** During the batch the website of "sup-1" is down and the API of
    "sup-2" lists its product at 9. *)
Definition batchAnswers (supplierId : string) : Scout.ScanWorld :=
  if String.eqb supplierId "sup-1" then Fixtures.outage
  else {| Scout.scrapeViaApi := Some [Sample.listed "A-77" 9];
          Scout.scrapeViaPortal := None; Scout.scrapeViaWebsite := None;
          Scout.now := 1700000000000 |}.

Definition allActive (supplierId : string) : bool := true.

End BatchFixtures.

(** ** Sample data for the opening of a negotiation *)

Module DiplomatFixtures.

(** The database names the new negotiation "neg-9" and the model drafts
    the opening email; the mail goes out, or the transport refuses it. *)
Definition opening (mailGoesOut : bool) : Diplomat.InitWorld :=
  {| Diplomat.newId := "neg-9";
     Diplomat.openingDraft :=
       Some {| Diplomat.subjectLine := None; Diplomat.draftBody := "Dear Acme Team" |};
     Diplomat.init_mailAccepted := mailGoesOut;
     Diplomat.init_now := 1700000000000 |}.

(** A request for 100 units of the product on file. *)
Definition request : list Diplomat.RequestedProduct :=
  [{| Diplomat.req_productId := "prod-1"; Diplomat.req_quantity := 100%float;
      Diplomat.req_targetPrice := None |}].

End DiplomatFixtures.


(** * Properties *)

(** ** JavaScript comparisons *)

Section JsFacts.

Lemma Js_lt_spec a b : Js.lt a b = true <-> a < b.
Proof.
  unfold Js.lt. rewrite negb_true_iff.
  split; intros H.
  - apply Qnot_le_lt. intros Hle. apply Qle_bool_iff in Hle. congruence.
  - destruct (Qle_bool b a) eqn:E; [|reflexivity].
    apply Qle_bool_iff in E. exfalso. exact (Qlt_not_le _ _ H E).
Qed.

Lemma Js_le_spec a b : Js.le a b = true <-> a <= b.
Proof. apply Qle_bool_iff. Qed.

Lemma Js_le_false a b : Js.le a b = false <-> b < a.
Proof.
  unfold Js.le. split; intros H.
  - apply Qnot_le_lt. intros Hle. apply Qle_bool_iff in Hle. congruence.
  - destruct (Qle_bool a b) eqn:E; [|reflexivity].
    apply Qle_bool_iff in E. exfalso. exact (Qlt_not_le _ _ H E).
Qed.

Lemma Js_strict_ne_false a b : Js.strict_ne a b = false <-> a == b.
Proof. unfold Js.strict_ne. rewrite negb_false_iff. apply Qeq_bool_iff. Qed.

Lemma Js_strict_ne_true a b : Js.strict_ne a b = true <-> ~ a == b.
Proof.
  unfold Js.strict_ne. rewrite negb_true_iff. split; intros H.
  - intros E. apply Qeq_bool_iff in E. congruence.
  - destruct (Qeq_bool a b) eqn:E; [|reflexivity].
    apply Qeq_bool_iff in E. contradiction.
Qed.

Lemma Js_lt_false a b : Js.lt a b = false <-> b <= a.
Proof.
  unfold Js.lt. rewrite negb_false_iff. apply Qle_bool_iff.
Qed.

End JsFacts.

(** ** Strategist: the average-rate projection *)

Section StockoutProjection.

Import Strategist.

(** With a positive rate the projection divides the available stock by
    the rate. *)
Lemma simpleStockoutPrediction_positive_rate item c :
  0 < daily c ->
  mp_daysUntilStockout (simpleStockoutPrediction item c)
  = (currentStock item - reservedStock item) / daily c.
Proof.
  intros Hpos. unfold simpleStockoutPrediction. cbn.
  apply Js_lt_spec in Hpos. now rewrite Hpos.
Qed.

(** Without a positive rate the projection is a year. *)
Lemma simpleStockoutPrediction_no_rate item c :
  daily c <= 0 ->
  mp_daysUntilStockout (simpleStockoutPrediction item c) = 365.
Proof.
  intros Hle. unfold simpleStockoutPrediction. cbn.
  apply Js_lt_false in Hle. now rewrite Hle.
Qed.

(** C5, as the code has it: for every inventory item the average-rate
    projection is the available stock (current minus reserved) divided by
    the daily rate when the rate is positive, and 365 days when the rate is
    0 (or negative); with stock 100 it is 10 at rate 10 and 365 at rate 0. *)
Theorem simpleStockoutPrediction_projection :
  forall (item : InventoryItem) (c : Consumption),
    (0 < daily c ->
     mp_daysUntilStockout (simpleStockoutPrediction item c)
     = (currentStock item - reservedStock item) / daily c)
    /\ (daily c <= 0 ->
        mp_daysUntilStockout (simpleStockoutPrediction item c) = 365)
    /\ mp_daysUntilStockout (simpleStockoutPrediction Sample.item100 (Sample.steady 10)) == 10
    /\ mp_daysUntilStockout (simpleStockoutPrediction Sample.item100 (Sample.steady 0)) = 365.
Proof.
  intros item c. split; [|split; [|split]].
  - apply simpleStockoutPrediction_positive_rate.
  - apply simpleStockoutPrediction_no_rate.
  - vm_compute. reflexivity.
  - reflexivity.
Qed.

(** C5, as the specification words it, fails at stock 100 and rate 0: the
    specification's projection is [Infinity], the code's is 365 days. *)
Lemma simpleStockoutPrediction_zero_rate_is_finite :
  SpecWords.predictDaysUntilStockout 100 0 = SpecWords.Infinity
  /\ mp_daysUntilStockout (simpleStockoutPrediction Sample.item100 (Sample.steady 0)) = 365
  /\ SpecWords.Days
       (mp_daysUntilStockout (simpleStockoutPrediction Sample.item100 (Sample.steady 0)))
     <> SpecWords.predictDaysUntilStockout
          (currentStock Sample.item100 - reservedStock Sample.item100) 0.
Proof.
  split; [reflexivity|]. split; [reflexivity|]. discriminate.
Qed.

(** At a positive rate the code and the specification's words agree. *)
Lemma simpleStockoutPrediction_agrees_when_positive item c :
  0 < daily c ->
  SpecWords.Days (mp_daysUntilStockout (simpleStockoutPrediction item c))
  = SpecWords.predictDaysUntilStockout (currentStock item - reservedStock item) (daily c).
Proof.
  intros Hpos. rewrite (simpleStockoutPrediction_positive_rate _ _ Hpos).
  unfold SpecWords.predictDaysUntilStockout.
  destruct (Qeq_bool (daily c) 0) eqn:E; [|reflexivity].
  apply Qeq_bool_iff in E. rewrite E in Hpos. exfalso. exact (Qlt_irrefl _ Hpos).
Qed.

End StockoutProjection.

(** ** Strategist: urgency *)

Section UrgencyMonotone.

Import Strategist.

Variable cfg : Config.

(** The urgency of [classify], case by case. *)
Lemma classify_critical d cs rp :
  d <= 3 -> fst (classify cfg d cs rp) = critical.
Proof.
  intros H. unfold classify. apply Js_le_spec in H. now rewrite H.
Qed.

Lemma classify_warning d cs rp :
  3 < d -> (d <= thresholdDays cfg \/ cs <= rp) ->
  fst (classify cfg d cs rp) = warning.
Proof.
  intros H3 H. unfold classify. apply Js_le_false in H3. rewrite H3.
  destruct (Js.le d (thresholdDays cfg)) eqn:Et; [reflexivity|].
  destruct H as [H|H].
  - apply Js_le_spec in H. congruence.
  - apply Js_le_spec in H. now rewrite H.
Qed.

Lemma classify_ok d cs rp :
  3 < d -> thresholdDays cfg < d -> rp < cs ->
  fst (classify cfg d cs rp) = ok.
Proof.
  intros H3 Ht Hr. unfold classify.
  apply Js_le_false in H3, Ht, Hr. now rewrite H3, Ht, Hr.
Qed.

(** C8: for a fixed threshold and a fixed outcome of the test
    [currentStock <= reorderPoint], fewer days of stock never give a less
    severe urgency ([urgencyOrder] is 0 for critical, 1 for warning, 2 for
    ok: the smaller, the more severe). *)
Theorem classify_monotone (d1 d2 cs1 rp1 cs2 rp2 : Q) :
  d1 <= d2 ->
  Js.le cs1 rp1 = Js.le cs2 rp2 ->
  (urgencyOrder (fst (classify cfg d1 cs1 rp1))
   <= urgencyOrder (fst (classify cfg d2 cs2 rp2)))%Z.
Proof.
  intros Hd Hrel. unfold classify. rewrite Hrel.
  destruct (Js.le d1 3) eqn:E1.
  - destruct (Js.le d2 3), (Js.le d2 (thresholdDays cfg)), (Js.le cs2 rp2); cbn; lia.
  - apply Js_le_false in E1.
    assert (E2 : Js.le d2 3 = false).
    { apply Js_le_false. eapply Qlt_le_trans; eassumption. }
    rewrite E2.
    destruct (Js.le d1 (thresholdDays cfg)) eqn:T1.
    + destruct (Js.le d2 (thresholdDays cfg)), (Js.le cs2 rp2); cbn; lia.
    + apply Js_le_false in T1.
      assert (T2 : Js.le d2 (thresholdDays cfg) = false).
      { apply Js_le_false. eapply Qlt_le_trans; eassumption. }
      rewrite T2. destruct (Js.le cs2 rp2); cbn; lia.
Qed.

(** What [analyzeItem] stores as days of stock and as urgency. *)
Lemma analyzeItem_daysOfStock (i : InventoryItem) :
  daysOfStock (analyzeItem cfg i)
  = (currentStock i - reservedStock i) / Js.or (item_avgDailyUsage i) 1.
Proof.
  unfold analyzeItem. now destruct (classify cfg _ _ _).
Qed.

Lemma analyzeItem_urgency (i : InventoryItem) :
  urgency (analyzeItem cfg i)
  = fst (classify cfg (daysOfStock (analyzeItem cfg i)) (currentStock i) (reorderPoint i)).
Proof.
  rewrite analyzeItem_daysOfStock. unfold analyzeItem.
  now destruct (classify cfg _ _ _).
Qed.

End UrgencyMonotone.

(** C8 at the default threshold of 14 days: 20 days of stock above the
    reorder point are ok, 10 days are a warning. *)
Lemma classify_monotone_witness :
  (10 <= 20)
  /\ (Strategist.urgencyOrder (fst (Strategist.classify defaultConfig 10 50 8))
      <= Strategist.urgencyOrder (fst (Strategist.classify defaultConfig 20 50 8)))%Z.
Proof.
  split.
  - discriminate.
  - apply (classify_monotone defaultConfig 10 20 50 8 50 8).
    + discriminate.
    + reflexivity.
Defined.

(** ** Strategist: the stockout predictions that are kept *)

Section PredictStockouts.

Import Strategist.

Variable cfg : Config.

Lemma predictLoop_spec items rows predictions :
  predictLoop cfg items rows predictions
  = ((rows ++ map (fun i => predictionRow i (predictItem i))
                  (List.filter (kept cfg) items))%list,
     (predictions ++ map (fun i => stockPrediction i (predictItem i))
                         (List.filter (kept cfg) items))%list).
Proof.
  revert rows predictions.
  induction items as [|item rest IH]; intros rows predictions; cbn.
  - now rewrite !app_nil_r.
  - change (withinHorizon cfg (predictItem item)) with (kept cfg item).
    destruct (kept cfg item) eqn:E.
    + rewrite IH. cbn. now rewrite <- !app_assoc.
    + apply IH.
Qed.

#[local] Instance byDaysUntilStockout_total : Total byDaysUntilStockout.
Proof. intros a b. unfold byDaysUntilStockout. lia. Qed.

#[local] Instance byDaysUntilStockout_trans : Transitive byDaysUntilStockout.
Proof. intros a b c. unfold byDaysUntilStockout. lia. Qed.

Lemma predictStockouts_rows db organizationId :
  stockoutPredictions (fst (predictStockouts cfg db organizationId))
  = (stockoutPredictions db
     ++ map (fun i => predictionRow i (predictItem i))
            (List.filter (kept cfg) (itemsOf db organizationId)))%list.
Proof.
  unfold predictStockouts, itemsOf. rewrite predictLoop_spec. reflexivity.
Qed.

Lemma predictStockouts_data db organizationId :
  snd (predictStockouts cfg db organizationId)
  = merge_sort byDaysUntilStockout
      (map (fun i => stockPrediction i (predictItem i))
           (List.filter (kept cfg) (itemsOf db organizationId))).
Proof.
  unfold predictStockouts, itemsOf. rewrite predictLoop_spec. reflexivity.
Qed.

(** C10: [predictStockouts] creates a [StockoutPrediction] row for an item
    of the organization, and returns a prediction for it, exactly when the
    combined days until stockout of the item are at most twice the
    threshold; the other items leave no row and no prediction; the
    predictions returned are sorted by days until stockout, ascending. *)
Theorem predictStockouts_keeps_within_horizon (db : Db) (organizationId : string) :
  let items := itemsOf db organizationId in
  let within item :=
    Js.le (inject_Z (cp_daysUntilStockout (predictItem item)))
          (stockoutThresholdDays cfg * 2) in
  let '(db', data) := predictStockouts cfg db organizationId in
  stockoutPredictions db'
  = (stockoutPredictions db
     ++ map (fun i => predictionRow i (predictItem i)) (List.filter within items))%list
  /\ data ≡ₚ map (fun i => stockPrediction i (predictItem i)) (List.filter within items)
  /\ StronglySorted (fun a b => (daysUntilStockout a <= daysUntilStockout b)%Z) data
  /\ Forall (fun p => inject_Z (daysUntilStockout p) <= stockoutThresholdDays cfg * 2) data
  /\ Forall (fun r => inject_Z (row_daysUntil r) <= stockoutThresholdDays cfg * 2)
            (skipn (length (stockoutPredictions db)) (stockoutPredictions db'))
  /\ stockoutThresholdDays defaultConfig * 2 == 28.
Proof.
  cbn zeta.
  pose proof (predictStockouts_rows db organizationId) as Hrows.
  pose proof (predictStockouts_data db organizationId) as Hdata.
  destruct (predictStockouts cfg db organizationId) as [db' data]. cbn in Hrows, Hdata.
  assert (Hperm : data ≡ₚ map (fun i => stockPrediction i (predictItem i))
                            (List.filter (kept cfg) (itemsOf db organizationId))).
  { rewrite Hdata. apply merge_sort_Permutation. }
  assert (Hall : forall l, Forall (fun i => inject_Z (cp_daysUntilStockout (predictItem i))
                                  <= stockoutThresholdDays cfg * 2) (List.filter (kept cfg) l)).
  { intros l. apply List.Forall_forall. intros i Hi. apply filter_In in Hi as [_ Hi].
    apply Js_le_spec. exact Hi. }
  split; [exact Hrows|]. split; [exact Hperm|]. split; [|split; [|split; [|reflexivity]]].
  - rewrite Hdata. apply (StronglySorted_merge_sort byDaysUntilStockout).
  - rewrite Hperm. apply Forall_map. cbn. apply Hall.
  - rewrite Hrows. rewrite skipn_app, Nat.sub_diag, skipn_all. cbn.
    apply Forall_map. cbn. apply Hall.
Qed.

End PredictStockouts.

(** At the default threshold the horizon is 28 days: of three items with
    10, 50 and 2 days of stock, the one with 50 days leaves no row and no
    prediction, and the two others come back most urgent first. *)
Example predictStockouts_default_horizon :
  let '(db', data) := Strategist.predictStockouts defaultConfig Sample.warehouse "org-1" in
  map Strategist.row_inventoryItemId (Strategist.stockoutPredictions db') = ["b"; "c"]
  /\ map Strategist.row_daysUntil (Strategist.stockoutPredictions db') = [10; 2]%Z
  /\ map Strategist.row_suggestedAction (Strategist.stockoutPredictions db')
     = [Strategist.reorder; Strategist.expedite]
  /\ map Strategist.sp_productId data = ["prod-c"; "prod-b"]
  /\ map Strategist.daysUntilStockout data = [2; 10]%Z.
Proof. vm_compute. repeat split. Qed.

(** ** Scout: what a scan writes *)

Section ScanSupplier.

Import Scout.

Lemma replay_app ws1 ws2 st : replay (ws1 ++ ws2) st = replay ws2 (replay ws1 st).
Proof. apply fold_left_app. Qed.

Lemma log_replay ws st : log (replay ws st) = (log st ++ ws)%list.
Proof.
  revert st. induction ws as [|w ws IH]; intros st; cbn.
  - now rewrite app_nil_r.
  - rewrite IH. cbn. now rewrite <- app_assoc.
Qed.

Lemma priceHistory_apply w d :
  priceHistory (apply w d) = (priceHistory d ++ createdRows [w])%list.
Proof. destruct w; cbn; now rewrite ?app_nil_r. Qed.

Lemma createdRows_app ws1 ws2 :
  createdRows (ws1 ++ ws2) = (createdRows ws1 ++ createdRows ws2)%list.
Proof. apply flat_map_app. Qed.

Lemma priceHistory_replay ws st :
  priceHistory (db (replay ws st)) = (priceHistory (db st) ++ createdRows ws)%list.
Proof.
  revert st. induction ws as [|w ws IH]; intros st; cbn.
  - now rewrite app_nil_r.
  - change (fold_left _ ws ?s) with (replay ws s). rewrite IH. cbn [db].
    rewrite priceHistory_apply. rewrite <- app_assoc. f_equal.
    unfold createdRows. cbn. now rewrite app_nil_r.
Qed.

Lemma recordScraped_run w supplier products s st :
  recordScraped w supplier products s st
  = (Eff.Returned tt, replay (writesFor w supplier products s) st).
Proof.
  unfold recordScraped, writesFor.
  destruct (findExisting products s) as [e|]; [|reflexivity].
  destruct (Js.strict_ne (unitPrice e) (price s)); reflexivity.
Qed.

Lemma for_each_recordScraped w supplier products xs st :
  Eff.for_each xs (recordScraped w supplier products) st
  = (Eff.Returned tt, replay (flat_map (writesFor w supplier products) xs) st).
Proof.
  revert st. induction xs as [|x xs IH]; intros st; [reflexivity|].
  cbn [Eff.for_each flat_map]. unfold Eff.bind at 1.
  rewrite recordScraped_run, IH, replay_app. reflexivity.
Qed.

(** A scan whose supplier exists and whose adapter answers completes, and
    its database calls are those of [scanWrites]. *)
Lemma scanSupplier_completes w id st supplier scraped :
  lookupSupplier id (db st) = Some supplier ->
  adapterAnswer w supplier = Some scraped ->
  scanSupplier w id st
  = (Eff.Returned (Success scraped),
     replay (scanWrites w supplier (productsOf (db st) (sup_id supplier))
                        (length (scrapingJobs (db st))) scraped) st).
Proof.
  intros Hs Ha. unfold scanSupplier, Eff.try_catch, Eff.bind at 1. cbn [Eff.get].
  rewrite Hs. unfold Eff.bind at 1. cbn [perform Eff.modify].
  unfold Eff.bind at 1. rewrite Ha. cbn [await_adapter Eff.ret].
  unfold Eff.bind at 1. rewrite for_each_recordScraped.
  unfold scanWrites. rewrite !replay_app. reflexivity.
Qed.

(** A scan whose adapter throws fails after opening its job, and writes
    nothing else. *)
Lemma scanSupplier_adapter_throws w id st supplier :
  lookupSupplier id (db st) = Some supplier ->
  adapterAnswer w supplier = None ->
  scanSupplier w id st
  = (Eff.Returned (Failure "adapter failed"),
     replay [ScrapingJobCreate (sup_id supplier)] st).
Proof.
  intros Hs Ha. unfold scanSupplier, Eff.try_catch, Eff.bind at 1. cbn [Eff.get].
  rewrite Hs. unfold Eff.bind at 1. cbn [perform Eff.modify].
  unfold Eff.bind at 1. rewrite Ha. reflexivity.
Qed.

Lemma scanSupplier_unknown_supplier w id st :
  lookupSupplier id (db st) = None ->
  scanSupplier w id st = (Eff.Returned (Failure "Supplier not found"), st).
Proof.
  intros Hs. unfold scanSupplier, Eff.try_catch, Eff.bind at 1. cbn [Eff.get].
  now rewrite Hs.
Qed.

Lemma createdRows_writesFor w supplier products s :
  createdRows (writesFor w supplier products s)
  = if priceChanged products s then [historyRow supplier s] else [].
Proof.
  unfold writesFor, priceChanged.
  destruct (findExisting products s) as [e|]; [|reflexivity].
  destruct (Js.strict_ne (unitPrice e) (price s)); reflexivity.
Qed.

Lemma createdRows_flat_map w supplier products xs :
  createdRows (flat_map (writesFor w supplier products) xs)
  = map (historyRow supplier) (List.filter (priceChanged products) xs).
Proof.
  induction xs as [|x xs IH]; [reflexivity|].
  cbn [flat_map List.filter]. rewrite createdRows_app, createdRows_writesFor, IH.
  destruct (priceChanged products x); reflexivity.
Qed.

(** The rows a completed scan adds to the price history: one for every
    scraped product whose price differs from the one on file, in the
    order scraped. *)
Lemma createdRows_scanWrites w supplier products job scraped :
  createdRows (scanWrites w supplier products job scraped)
  = map (historyRow supplier) (List.filter (priceChanged products) scraped).
Proof.
  unfold scanWrites. rewrite !createdRows_app, createdRows_flat_map. cbn.
  now rewrite app_nil_r.
Qed.

Lemma find_map_same_key {A} (p : A -> bool) (f : A -> A) (l : list A) :
  (forall x, p (f x) = p x) ->
  List.find p (map f l) = option_map f (List.find p l).
Proof.
  intros Hp. induction l as [|x l IH]; [reflexivity|].
  cbn. rewrite Hp. destruct (p x); [reflexivity|exact IH].
Qed.

Lemma lookupProduct_apply w d id :
  lookupProduct id (apply w d)
  = option_map (applyUpdates (updatesOf id [w])) (lookupProduct id d).
Proof.
  unfold lookupProduct.
  destruct w as [sid|row|id' data|sid t|job results]; cbn;
    try (now destruct (List.find _ (supplierProducts d))).
  rewrite find_map_same_key.
  - destruct (List.find _ (supplierProducts d)) as [sp|] eqn:E; [|reflexivity].
    cbn. apply find_some in E as [_ E]. apply String.eqb_eq in E. rewrite E.
    rewrite String.eqb_sym. destruct (String.eqb id' id); reflexivity.
  - intros x. now destruct (String.eqb (sp_id x) id').
Qed.

Lemma updatesOf_app id ws1 ws2 :
  updatesOf id (ws1 ++ ws2) = (updatesOf id ws1 ++ updatesOf id ws2)%list.
Proof. apply flat_map_app. Qed.

Lemma lookupProduct_replay ws st id :
  lookupProduct id (db (replay ws st))
  = option_map (applyUpdates (updatesOf id ws)) (lookupProduct id (db st)).
Proof.
  revert st. induction ws as [|w ws IH]; intros st.
  - cbn. now destruct (lookupProduct id (db st)).
  - change (replay (w :: ws) st)
      with (replay ws {| db := apply w (db st); log := (log st ++ [w])%list |}).
    rewrite IH. cbn [db]. rewrite lookupProduct_apply.
    change (w :: ws) with ([w] ++ ws)%list. rewrite updatesOf_app.
    destruct (lookupProduct id (db st)) as [sp|]; [|reflexivity].
    cbn [option_map]. f_equal. unfold applyUpdates. now rewrite fold_left_app.
Qed.

(** The price of a row after updates that end with one that sets it. *)
Lemma unitPrice_applyUpdates_last us u sp q :
  upd_unitPrice u = Some q ->
  unitPrice (applyUpdates (us ++ [u]) sp) = q.
Proof.
  intros Hu. unfold applyUpdates. rewrite fold_left_app. cbn. now rewrite Hu.
Qed.

Lemma findExisting_some products s e :
  findExisting products s = Some e -> In e products /\ supplierSku e = sku s.
Proof.
  intros H. apply find_some in H as [Hin H]. split; [exact Hin|].
  now apply String.eqb_eq.
Qed.

Lemma productsOf_In d supplierId sp :
  In sp (productsOf d supplierId) -> In sp (supplierProducts d).
Proof.
  unfold productsOf. intros H. apply list_elem_of_In in H.
  apply list_elem_of_In. now apply list_elem_of_filter in H as [_ H].
Qed.

Lemma NoDup_map_inj {A B} (f : A -> B) (l : list A) x y :
  List.NoDup (map f l) -> In x l -> In y l -> f x = f y -> x = y.
Proof.
  induction l as [|a l IH]; cbn; [tauto|].
  intros Hnd Hx Hy Hf. inversion Hnd as [|? ? Hnotin Hnd']; subst.
  destruct Hx as [<-|Hx], Hy as [<-|Hy]; try reflexivity.
  - exfalso. apply Hnotin. rewrite Hf. now apply in_map.
  - exfalso. apply Hnotin. rewrite <- Hf. now apply in_map.
  - now apply IH.
Qed.

(** The updates one turn of the loop makes to a row it did not find. *)
Lemma updatesOf_writesFor_other w supplier products s id :
  (forall e, findExisting products s = Some e -> sp_id e <> id) ->
  updatesOf id (writesFor w supplier products s) = [].
Proof.
  intros Hne. unfold writesFor.
  destruct (findExisting products s) as [e|] eqn:E; [|reflexivity].
  specialize (Hne e eq_refl). apply String.eqb_neq in Hne.
  destruct (Js.strict_ne (unitPrice e) (price s)); cbn; now rewrite Hne.
Qed.

(** The updates one turn of the loop makes to the row it found: the
    last of them is the update with the scraped data. *)
Lemma updatesOf_writesFor_found w supplier products s e :
  findExisting products s = Some e ->
  updatesOf (sp_id e) (writesFor w supplier products s) = [scanUpdate w s].
Proof.
  intros E. unfold writesFor. rewrite E.
  destruct (Js.strict_ne (unitPrice e) (price s)); cbn; now rewrite String.eqb_refl.
Qed.

Lemma updatesOf_later_skus w supplier products later s e :
  (forall x y, In x products -> In y products -> sp_id x = sp_id y -> x = y) ->
  findExisting products s = Some e ->
  Forall (fun s' => sku s' <> sku s) later ->
  updatesOf (sp_id e) (flat_map (writesFor w supplier products) later) = [].
Proof.
  intros Hnd E Hlater. induction Hlater as [|s' later Hs' _ IH]; [reflexivity|].
  cbn [flat_map]. rewrite updatesOf_app, IH, app_nil_r.
  apply updatesOf_writesFor_other. intros e' E' Hid.
  apply findExisting_some in E as [Hin Hsku], E' as [Hin' Hsku'].
  assert (e' = e) by (now apply Hnd).
  subst e'. congruence.
Qed.

(** After a completed scan, the row found for a scraped product that is
    the last one with its SKU holds the scraped price. *)
Lemma scanWrites_final_price w supplier products job earlier s later e st stored :
  (forall x y, In x products -> In y products -> sp_id x = sp_id y -> x = y) ->
  findExisting products s = Some e ->
  Forall (fun s' => sku s' <> sku s) later ->
  lookupProduct (sp_id e) (db st) = Some stored ->
  exists row,
    lookupProduct (sp_id e)
      (db (replay (scanWrites w supplier products job (earlier ++ s :: later)) st))
    = Some row
    /\ unitPrice row = price s.
Proof.
  intros Hnd E Hlater Hstored.
  rewrite lookupProduct_replay, Hstored. cbn [option_map].
  eexists. split; [reflexivity|].
  unfold scanWrites. rewrite !updatesOf_app, flat_map_app. cbn [flat_map].
  rewrite !updatesOf_app.
  rewrite (updatesOf_writesFor_found _ _ _ _ _ E).
  rewrite (updatesOf_later_skus _ _ _ _ _ _ Hnd E Hlater).
  cbn [updatesOf flat_map]. rewrite !app_nil_r. cbn [app].
  apply unitPrice_applyUpdates_last. reflexivity.
Qed.

(** The calls of one turn of the loop for a product whose price changed:
    the history row is created first, the product is updated next. *)
Lemma writesFor_changed w supplier products s e :
  findExisting products s = Some e ->
  ~ unitPrice e == price s ->
  writesFor w supplier products s
  = [PriceHistoryCreate (historyRow supplier s);
     SupplierProductUpdate (sp_id e) (scanUpdate w s)].
Proof.
  intros E Hne. unfold writesFor. rewrite E.
  apply Js_strict_ne_true in Hne. now rewrite Hne.
Qed.

(** The calls of one turn of the loop for a product whose price is the
    one on file: the product is updated, no history row is created. *)
Lemma writesFor_unchanged w supplier products s e :
  findExisting products s = Some e ->
  unitPrice e == price s ->
  writesFor w supplier products s
  = [SupplierProductUpdate (sp_id e) (scanUpdate w s)].
Proof.
  intros E Heq. unfold writesFor. rewrite E.
  apply Js_strict_ne_false in Heq. now rewrite Heq.
Qed.

(** The id is the primary key: looking a row of the table up by its id
    finds that row. *)
Lemma lookupProduct_primary_key d e :
  List.NoDup (map sp_id (supplierProducts d)) ->
  In e (supplierProducts d) ->
  lookupProduct (sp_id e) d = Some e.
Proof.
  intros Hnd Hin. unfold lookupProduct.
  destruct (List.find _ (supplierProducts d)) as [x|] eqn:E.
  - apply find_some in E as [Hx E]. apply String.eqb_eq in E.
    f_equal. eapply NoDup_map_inj; eassumption.
  - exfalso. apply (find_none _ _ E) in Hin. now rewrite String.eqb_refl in Hin.
Qed.

(** C6, as the code has it: when the price a scan scrapes for a product
    differs from the price on file, the scan creates a [PriceHistory] row
    that holds the scraped (new) price, and it does so immediately before
    it updates the [SupplierProduct]; when the scan has completed, the row
    is in the price history and the [SupplierProduct] holds the scraped
    price (of the last scraped entry with that SKU). *)
Theorem scanSupplier_records_price_change
  (w : ScanWorld) (id : string) (st : Store) (supplier : Supplier)
  (earlier later : list ScrapedProduct) (s : ScrapedProduct) (e : SupplierProduct) :
  lookupSupplier id (db st) = Some supplier ->
  adapterAnswer w supplier = Some (earlier ++ s :: later)%list ->
  findExisting (productsOf (db st) (sup_id supplier)) s = Some e ->
  ~ unitPrice e == price s ->
  let st' := snd (scanSupplier w id st) in
  fst (scanSupplier w id st) = Eff.Returned (Success (earlier ++ s :: later)%list)
  /\ (exists before after : list DbWrite,
        log st' = (log st ++ before
                   ++ [PriceHistoryCreate (historyRow supplier s);
                       SupplierProductUpdate (sp_id e) (scanUpdate w s)]
                   ++ after)%list)
  /\ ph_price (historyRow supplier s) = price s
  /\ ph_productSku (historyRow supplier s) = sku s
  /\ upd_unitPrice (scanUpdate w s) = Some (price s)
  /\ In (historyRow supplier s) (priceHistory (db st'))
  /\ (List.NoDup (map sp_id (supplierProducts (db st))) ->
      Forall (fun s' => sku s' <> sku s) later ->
      exists row, lookupProduct (sp_id e) (db st') = Some row /\ unitPrice row = price s).
Proof.
  intros Hs Ha E Hne st'. subst st'.
  rewrite (scanSupplier_completes _ _ _ _ _ Hs Ha). cbn [fst snd].
  split; [reflexivity|]. split; [|split; [reflexivity|split; [reflexivity|split; [reflexivity|split]]]].
  - rewrite log_replay. unfold scanWrites. rewrite flat_map_app. cbn [flat_map].
    rewrite (writesFor_changed _ _ _ _ _ E Hne).
    eexists (_ :: flat_map _ earlier), _. cbn [app]. rewrite <- !app_assoc. reflexivity.
  - rewrite priceHistory_replay, createdRows_scanWrites.
    apply in_or_app. right. apply in_map. apply filter_In. split.
    + apply in_or_app. right. now left.
    + unfold priceChanged. rewrite E. now apply Js_strict_ne_true.
  - intros Hnd Hlater.
    pose proof (findExisting_some _ _ _ E) as [Hin _].
    apply productsOf_In in Hin.
    eapply scanWrites_final_price; try eassumption.
    + intros x y Hx Hy. apply productsOf_In in Hx, Hy.
      eapply NoDup_map_inj; eassumption.
    + now apply lookupProduct_primary_key.
Qed.

(** A scan that does not complete (unknown supplier, or an adapter that
    throws) leaves the price history as it was. *)
Lemma scanSupplier_failure_keeps_history w id st message :
  fst (scanSupplier w id st) = Eff.Returned (Failure message) ->
  priceHistory (db (snd (scanSupplier w id st))) = priceHistory (db st).
Proof.
  destruct (lookupSupplier id (db st)) as [supplier|] eqn:Hs.
  - destruct (adapterAnswer w supplier) as [scraped|] eqn:Ha.
    + rewrite (scanSupplier_completes _ _ _ _ _ Hs Ha). discriminate.
    + rewrite (scanSupplier_adapter_throws _ _ _ _ Hs Ha). intros _. cbn [snd].
      rewrite priceHistory_replay. cbn. now rewrite app_nil_r.
  - now rewrite (scanSupplier_unknown_supplier _ _ _ Hs).
Qed.

(** *** Scanning again *)

Lemma applyUpdates_keeps_keys us sp :
  sp_id (applyUpdates us sp) = sp_id sp
  /\ sp_supplierId (applyUpdates us sp) = sp_supplierId sp
  /\ supplierSku (applyUpdates us sp) = supplierSku sp.
Proof.
  revert sp. induction us as [|u us IH]; intros sp; [now repeat split|].
  change (applyUpdates (u :: us) sp) with (applyUpdates us (updateProduct u sp)).
  destruct (IH (updateProduct u sp)) as (H1 & H2 & H3).
  now rewrite H1, H2, H3.
Qed.

Lemma supplierProducts_apply w d :
  supplierProducts (apply w d)
  = map (fun sp => applyUpdates (updatesOf (sp_id sp) [w]) sp) (supplierProducts d).
Proof.
  destruct w as [sid|row|id data|sid t|job results]; cbn;
    try (now rewrite map_id).
  apply map_ext. intros sp. rewrite String.eqb_sym.
  now destruct (String.eqb id (sp_id sp)).
Qed.

(** The table of products after a sequence of writes: every row with the
    updates made to its id, in order. *)
Lemma supplierProducts_replay ws st :
  supplierProducts (db (replay ws st))
  = map (fun sp => applyUpdates (updatesOf (sp_id sp) ws) sp) (supplierProducts (db st)).
Proof.
  revert st. induction ws as [|w ws IH]; intros st.
  - cbn. now rewrite map_id.
  - change (replay (w :: ws) st)
      with (replay ws {| db := apply w (db st); log := (log st ++ [w])%list |}).
    rewrite IH. cbn [db]. rewrite supplierProducts_apply, map_map.
    apply map_ext. intros sp.
    destruct (applyUpdates_keeps_keys (updatesOf (sp_id sp) [w]) sp) as (-> & _).
    change (w :: ws) with ([w] ++ ws)%list. rewrite updatesOf_app.
    unfold applyUpdates. now rewrite fold_left_app.
Qed.

Lemma filter_map_same_key {A} (P : A -> Prop) `{forall x, Decision (P x)}
  (f : A -> A) (l : list A) :
  (forall x, P (f x) <-> P x) ->
  filter P (map f l) = map f (filter P l).
Proof.
  intros HP. induction l as [|x l IH]; [reflexivity|].
  cbn [map]. rewrite !filter_cons.
  destruct (decide (P (f x))) as [Hf|Hf], (decide (P x)) as [Hx|Hx].
  - cbn. now rewrite IH.
  - exfalso. now apply Hx, HP.
  - exfalso. now apply Hf, HP.
  - exact IH.
Qed.

Lemma productsOf_replay ws st supplierId :
  productsOf (db (replay ws st)) supplierId
  = map (fun sp => applyUpdates (updatesOf (sp_id sp) ws) sp)
        (productsOf (db st) supplierId).
Proof.
  unfold productsOf. rewrite supplierProducts_replay.
  apply filter_map_same_key. intros sp.
  destruct (applyUpdates_keeps_keys (updatesOf (sp_id sp) ws) sp) as (_ & -> & _).
  reflexivity.
Qed.

Lemma findExisting_map_same_key (f : SupplierProduct -> SupplierProduct) products s :
  (forall sp, supplierSku (f sp) = supplierSku sp) ->
  findExisting (map f products) s = option_map f (findExisting products s).
Proof.
  intros Hf. unfold findExisting. apply find_map_same_key.
  intros sp. now rewrite Hf.
Qed.

(** The updates a completed scan makes to the row found for a scraped
    product that is the last with its SKU end with the scraped data. *)
Lemma updatesOf_scanWrites w supplier products job earlier s later e :
  (forall x y, In x products -> In y products -> sp_id x = sp_id y -> x = y) ->
  findExisting products s = Some e ->
  Forall (fun s' => sku s' <> sku s) later ->
  updatesOf (sp_id e) (scanWrites w supplier products job (earlier ++ s :: later))
  = (updatesOf (sp_id e) (flat_map (writesFor w supplier products) earlier)
     ++ [scanUpdate w s])%list.
Proof.
  intros Hinj E Hlater.
  unfold scanWrites. rewrite !updatesOf_app, flat_map_app. cbn [flat_map].
  rewrite !updatesOf_app.
  rewrite (updatesOf_writesFor_found _ _ _ _ _ E).
  rewrite (updatesOf_later_skus _ _ _ _ _ _ Hinj E Hlater).
  cbn [updatesOf flat_map]. now rewrite !app_nil_r.
Qed.

Lemma NoDup_map_split {A B} (f : A -> B) (l : list A) x :
  List.NoDup (map f l) -> In x l ->
  exists earlier later,
    l = (earlier ++ x :: later)%list /\ Forall (fun y => f y <> f x) later.
Proof.
  intros Hnd Hin. apply in_split in Hin as (earlier & later & ->).
  exists earlier, later. split; [reflexivity|].
  rewrite map_app in Hnd. cbn in Hnd. apply NoDup_remove_2 in Hnd.
  apply List.Forall_forall. intros y Hy Heq. apply Hnd.
  apply in_or_app. right. rewrite <- Heq. now apply in_map.
Qed.

(** After a completed scan of products with distinct SKUs, every scraped
    product that has a row on file finds it holding the scraped price. *)
Lemma scan_leaves_scraped_prices w supplier st job scraped :
  List.NoDup (map sp_id (supplierProducts (db st))) ->
  List.NoDup (map sku scraped) ->
  let products := productsOf (db st) (sup_id supplier) in
  let st' := replay (scanWrites w supplier products job scraped) st in
  Forall (fun s => forall e, findExisting (productsOf (db st') (sup_id supplier)) s = Some e ->
                             unitPrice e == price s) scraped.
Proof.
  intros Hids Hskus products st'. apply List.Forall_forall. intros s Hs e' E'.
  subst st'. rewrite productsOf_replay in E'. fold products in E'.
  rewrite findExisting_map_same_key in E'
    by (intros sp; now destruct (applyUpdates_keeps_keys
                                   (updatesOf (sp_id sp)
                                      (scanWrites w supplier products job scraped)) sp)
                     as (_ & _ & ->)).
  destruct (findExisting products s) as [e|] eqn:E; [|discriminate].
  assert (He' : e' = applyUpdates
                       (updatesOf (sp_id e) (scanWrites w supplier products job scraped)) e)
    by (cbn [option_map] in E'; congruence).
  subst e'. clear E'.
  destruct (NoDup_map_split sku scraped s Hskus Hs) as (earlier & later & -> & Hlater).
  rewrite (updatesOf_scanWrites w supplier products job earlier s later e).
  - rewrite (unitPrice_applyUpdates_last _ (scanUpdate w s) e (price s) eq_refl).
    reflexivity.
  - intros x y Hx Hy. apply productsOf_In in Hx, Hy. eapply NoDup_map_inj; eassumption.
  - exact E.
  - exact Hlater.
Qed.

Lemma priceChanged_none products scraped :
  Forall (fun s => forall e, findExisting products s = Some e -> unitPrice e == price s)
         scraped ->
  List.filter (priceChanged products) scraped = [].
Proof.
  induction 1 as [|s l Hs _ IH]; [reflexivity|].
  cbn. unfold priceChanged at 1.
  destruct (findExisting products s) as [e|] eqn:E; [|exact IH].
  specialize (Hs e eq_refl). apply Js_strict_ne_false in Hs. now rewrite Hs.
Qed.

(** A scan changes nothing in a supplier but the time of its last scan. *)
Lemma lookupSupplier_replay ws st id before :
  lookupSupplier id (db st) = Some before ->
  exists supplier,
    lookupSupplier id (db (replay ws st)) = Some supplier
    /\ sup_id supplier = sup_id before
    /\ apiEndpoint supplier = apiEndpoint before
    /\ portalUrl supplier = portalUrl before
    /\ website supplier = website before.
Proof.
  revert st before. induction ws as [|w ws IH]; intros st before Hb.
  - exists before. now repeat split.
  - change (replay (w :: ws) st)
      with (replay ws {| db := apply w (db st); log := (log st ++ [w])%list |}).
    assert (Hstep : exists mid,
               lookupSupplier id (apply w (db st)) = Some mid
               /\ sup_id mid = sup_id before
               /\ apiEndpoint mid = apiEndpoint before
               /\ portalUrl mid = portalUrl before
               /\ website mid = website before).
    { unfold lookupSupplier in *.
      destruct w as [sid|row|pid data|sid t|job results]; cbn;
        try (exists before; now repeat split).
      rewrite find_map_same_key by (intros x; now destruct (String.eqb (sup_id x) sid)).
      rewrite Hb. cbn. eexists. split; [reflexivity|].
      now destruct (String.eqb (sup_id before) sid). }
    destruct Hstep as (mid & Hmid & H1 & H2 & H3 & H4).
    destruct (IH {| db := apply w (db st); log := (log st ++ [w])%list |} mid Hmid)
      as (supplier & Hs & G1 & G2 & G3 & G4).
    exists supplier. split; [exact Hs|]. repeat split; congruence.
Qed.

Lemma adapterAnswer_same_config w supplier before :
  apiEndpoint supplier = apiEndpoint before ->
  portalUrl supplier = portalUrl before ->
  website supplier = website before ->
  adapterAnswer w supplier = adapterAnswer w before.
Proof. intros H1 H2 H3. unfold adapterAnswer. now rewrite H1, H2, H3. Qed.

(** Scanning again is idempotent on the price history: when a scan has
    completed on products with distinct SKUs and the next scan scrapes the
    same products at the same prices, the second scan adds no row. *)
Lemma rescan_adds_no_history w w' id st supplier scraped :
  lookupSupplier id (db st) = Some supplier ->
  adapterAnswer w supplier = Some scraped ->
  adapterAnswer w' supplier = Some scraped ->
  List.NoDup (map sp_id (supplierProducts (db st))) ->
  List.NoDup (map sku scraped) ->
  let st1 := snd (scanSupplier w id st) in
  let st2 := snd (scanSupplier w' id st1) in
  fst (scanSupplier w' id st1) = Eff.Returned (Success scraped)
  /\ priceHistory (db st2) = priceHistory (db st1).
Proof.
  intros Hs Ha Ha' Hids Hskus st1 st2. subst st2 st1.
  rewrite (scanSupplier_completes _ _ _ _ _ Hs Ha). cbn [snd].
  set (products := productsOf (db st) (sup_id supplier)).
  set (ws := scanWrites w supplier products (length (scrapingJobs (db st))) scraped).
  destruct (lookupSupplier_replay ws st id supplier Hs)
    as (supplier' & Hs' & Hid & Hapi & Hportal & Hweb).
  assert (Ha2 : adapterAnswer w' supplier' = Some scraped).
  { now rewrite (adapterAnswer_same_config w' supplier' supplier Hapi Hportal Hweb). }
  rewrite (scanSupplier_completes _ _ _ _ _ Hs' Ha2). cbn [fst snd].
  split; [reflexivity|].
  rewrite priceHistory_replay, createdRows_scanWrites.
  rewrite priceChanged_none; [cbn; now rewrite app_nil_r|].
  rewrite Hid. subst ws products.
  now apply scan_leaves_scraped_prices.
Qed.

(** C7: a scraped product whose price is the price on file adds no row
    to the price history; the rows a completed scan adds are those of the
    products whose price differs, so a scan that finds every price as it
    is on file leaves the price history as it was; and scanning again, with
    the same products scraped at the same prices, adds no row. *)
Theorem scanSupplier_unchanged_price_no_history
  (w : ScanWorld) (id : string) (st : Store) (supplier : Supplier)
  (scraped : list ScrapedProduct) :
  lookupSupplier id (db st) = Some supplier ->
  adapterAnswer w supplier = Some scraped ->
  let products := productsOf (db st) (sup_id supplier) in
  let st' := snd (scanSupplier w id st) in
  priceHistory (db st')
  = (priceHistory (db st)
     ++ map (historyRow supplier) (List.filter (priceChanged products) scraped))%list
  /\ (forall s e,
        In s scraped -> findExisting products s = Some e -> unitPrice e == price s ->
        priceChanged products s = false
        /\ createdRows (writesFor w supplier products s) = [])
  /\ (Forall (fun s => forall e, findExisting products s = Some e -> unitPrice e == price s)
             scraped ->
      priceHistory (db st') = priceHistory (db st))
  /\ (forall w',
        adapterAnswer w' supplier = Some scraped ->
        List.NoDup (map sp_id (supplierProducts (db st))) ->
        List.NoDup (map sku scraped) ->
        priceHistory (db (snd (scanSupplier w' id st'))) = priceHistory (db st')).
Proof.
  intros Hs Ha products st'.
  split; [|split; [|split]].
  - subst st'. rewrite (scanSupplier_completes _ _ _ _ _ Hs Ha). cbn [snd].
    now rewrite priceHistory_replay, createdRows_scanWrites.
  - intros s e _ E Heq.
    assert (Hc : priceChanged products s = false).
    { unfold priceChanged. rewrite E. now apply Js_strict_ne_false. }
    split; [exact Hc|]. rewrite createdRows_writesFor. now rewrite Hc.
  - intros Hall. subst st'.
    rewrite (scanSupplier_completes _ _ _ _ _ Hs Ha). cbn [snd].
    rewrite priceHistory_replay, createdRows_scanWrites.
    fold products. rewrite (priceChanged_none _ _ Hall). cbn. now rewrite app_nil_r.
  - intros w' Ha' Hids Hskus.
    exact (proj2 (rescan_adds_no_history w w' id st supplier scraped Hs Ha Ha' Hids Hskus)).
Qed.

End ScanSupplier.

(** C6 on the sample catalog: the website lists A at 12 where 10 is on
    file; the scan logs the history row for 12 and then the update, and
    leaves A at 12. *)
Lemma scanSupplier_records_price_change_witness :
  (Scout.lookupSupplier "sup-1" (Scout.db Sample.catalog) = Some Sample.acme
   /\ Scout.adapterAnswer Sample.listing Sample.acme
      = Some ([] ++ Sample.listed "A" 12 :: [Sample.listed "B" 5])%list
   /\ ~ Scout.unitPrice (Sample.onFile "sp-1" "A" 10 true (Some 40)) == 12)
  /\ In (Scout.historyRow Sample.acme (Sample.listed "A" 12))
        (Scout.priceHistory
           (Scout.db (snd (Scout.scanSupplier Sample.listing "sup-1" Sample.catalog)))).
Proof.
  assert (Hne : ~ Scout.unitPrice (Sample.onFile "sp-1" "A" 10 true (Some 40))
                  == Scout.price (Sample.listed "A" 12)).
  { intros H. vm_compute in H. discriminate H. }
  split; [split; [reflexivity|split; [reflexivity|exact Hne]]|].
  apply (scanSupplier_records_price_change Sample.listing "sup-1" Sample.catalog Sample.acme
           [] [Sample.listed "B" 5] (Sample.listed "A" 12)
           (Sample.onFile "sp-1" "A" 10 true (Some 40))).
  - reflexivity.
  - reflexivity.
  - reflexivity.
  - exact Hne.
Defined.

(** C6, as it is stated, fails on the sample catalog: the price on file
    for A is 10 and the scan scrapes 12; the one history row the scan
    creates holds 12, and no row of the history holds the previous price. *)
Lemma scanSupplier_history_holds_scraped_price :
  let st' := snd (Scout.scanSupplier Sample.listing "sup-1" Sample.catalog) in
  option_map Scout.unitPrice (Scout.lookupProduct "sp-1" (Scout.db Sample.catalog)) = Some 10
  /\ map Scout.ph_productSku (Scout.priceHistory (Scout.db st')) = ["A"]
  /\ map Scout.ph_price (Scout.priceHistory (Scout.db st')) = [12]
  /\ existsb (fun row => Qeq_bool (Scout.ph_price row) 10)
             (Scout.priceHistory (Scout.db st')) = false
  /\ option_map Scout.unitPrice (Scout.lookupProduct "sp-1" (Scout.db st')) = Some 12.
Proof. vm_compute. repeat split. Qed.

(** C7 on the sample catalog: the website lists both products at the
    prices on file, and the price history stays empty. *)
Lemma scanSupplier_unchanged_price_no_history_witness :
  (Scout.lookupSupplier "sup-1" (Scout.db Sample.catalog) = Some Sample.acme
   /\ Scout.adapterAnswer Sample.sameListing Sample.acme
      = Some [Sample.listed "A" 10; Sample.listed "B" 5])
  /\ Scout.priceHistory
       (Scout.db (snd (Scout.scanSupplier Sample.sameListing "sup-1" Sample.catalog)))
     = Scout.priceHistory (Scout.db Sample.catalog).
Proof.
  split; [split; reflexivity|].
  apply (scanSupplier_unchanged_price_no_history Sample.sameListing "sup-1" Sample.catalog
           Sample.acme [Sample.listed "A" 10; Sample.listed "B" 5] eq_refl eq_refl).
  repeat constructor; intros e E; vm_compute in E; injection E as <-; reflexivity.
Defined.

(** ** Scout: the single-SKU stock check *)

Section StockCheck.

Import Scout.

(** Without an API endpoint, or when the request to it throws, the stock
    check answers "in stock", whatever is on file. *)
Lemma performStockCheck_fallback answer supplier sku :
  present (apiEndpoint supplier) = false \/ answer = None ->
  performStockCheck answer supplier sku = {| sd_inStock := true; sd_stockLevel := None |}.
Proof.
  intros [H|H]; unfold performStockCheck.
  - now rewrite H.
  - subst answer. now destruct (present (apiEndpoint supplier)).
Qed.

(** C9 fails on the sample catalog: product B is on file as out of stock
    with level 0, its supplier has no API endpoint; the stock check reports
    it in stock and writes that to the row, and the level stays 0. *)
Theorem checkStock_ignores_last_known_state :
  let '(result, st') := checkStock None 1700000000000 "sup-1" "B" Sample.catalog in
  apiEndpoint Sample.acme = None
  /\ option_map inStock (lookupProduct "sp-2" (db Sample.catalog)) = Some false
  /\ option_map stockLevel (lookupProduct "sp-2" (db Sample.catalog)) = Some (Some 0)
  /\ result = Eff.Returned (Success {| sd_inStock := true; sd_stockLevel := None |})
  /\ option_map inStock (lookupProduct "sp-2" (db st')) = Some true
  /\ option_map stockLevel (lookupProduct "sp-2" (db st')) = Some (Some 0).
Proof. vm_compute. repeat split. Qed.

End StockCheck.

(** ** Diplomat: the negotiation state machine *)

Section Negotiation.

Import Diplomat.

Variable cfg : Config.

(** *** What the database calls do to the status of a negotiation *)

Lemma statusOf_createMessage id m st :
  statusOf id (snd (createMessage m st)) = statusOf id st.
Proof. reflexivity. Qed.

Lemma statusOf_sendEmail id ok email st :
  statusOf id (snd (sendEmail ok email st)) = statusOf id st.
Proof. now destruct ok. Qed.

Lemma statusOf_updateNegotiation id f st :
  statusOf id (snd (updateNegotiation id f st))
  = option_map (fun n => status (f n)) (negotiations (db st) !! id).
Proof.
  unfold statusOf, updateNegotiation, Eff.modify, setDb. cbn [snd db negotiations].
  rewrite lookup_alter_eq. now destruct (negotiations (db st) !! id).
Qed.

Lemma statusOf_updateNegotiation_other id id' f st :
  id <> id' ->
  statusOf id' (snd (updateNegotiation id f st)) = statusOf id' st.
Proof.
  intros Hne. unfold statusOf, updateNegotiation, Eff.modify, setDb.
  cbn [snd db negotiations]. now rewrite lookup_alter_ne.
Qed.

Lemma statusOf_close id s terms saved t extra st :
  is_Some (negotiations (db st) !! id) ->
  statusOf id (snd (updateNegotiation id (close s terms saved t extra) st)) = Some s.
Proof.
  intros [n Hn]. rewrite statusOf_updateNegotiation, Hn. reflexivity.
Qed.

Lemma statusOf_pushCounterOffer id c st :
  statusOf id (snd (updateNegotiation id (pushCounterOffer c) st)) = statusOf id st.
Proof.
  rewrite statusOf_updateNegotiation. unfold statusOf.
  now destruct (negotiations (db st) !! id).
Qed.

(** The handler of [processNegotiationResponse] turns a throw into a
    failed result and leaves the store as the throw left it. *)
Lemma snd_try_catch_failure {A} (c : Eff.M Store (AgentResult A)) st :
  snd (Eff.try_catch c (fun message => Eff.ret (Failure message)) st) = snd (c st).
Proof.
  unfold Eff.try_catch. destruct (c st) as [[r|e] s]; reflexivity.
Qed.

(** *** The analysis of a reply *)

(** The safe default of [analyzeResponse]. *)
Lemma analyzeResponse_unparseable n st :
  analyzeResponse Unparseable n st
  = (Eff.Returned {| an_accepted := false; an_rejected := false; an_counterOffer := None;
                     an_terms := None; an_savings := None; an_reason := None |}, st).
Proof. reflexivity. Qed.

Lemma analyzeResponse_not_accepted a n st :
  an_accepted a = false ->
  analyzeResponse (Parsed a) n st = (Eff.Returned a, st).
Proof. intros H. unfold analyzeResponse. now rewrite H. Qed.

(** A parsed classification is analysed without a throw, and the
    analysis keeps its three verdicts. *)
Lemma analyzeResponse_parsed a n st :
  exists a',
    analyzeResponse (Parsed a) n st = (Eff.Returned a', st)
    /\ an_accepted a' = an_accepted a
    /\ an_rejected a' = an_rejected a
    /\ an_counterOffer a' = an_counterOffer a.
Proof.
  unfold analyzeResponse.
  destruct (an_accepted a) eqn:Ha; [destruct (an_counterOffer a) as [c|] eqn:Hc|].
  - eexists. split; [reflexivity|]. cbn. repeat split; congruence.
  - now exists a.
  - now exists a.
Qed.

(** *** The call as a whole *)

Lemma process_unknown_negotiation w id content st :
  negotiations (db st) !! id = None ->
  processNegotiationResponse cfg w id content st
  = (Eff.Returned (Failure "Negotiation not found"), st).
Proof.
  intros Hn. unfold processNegotiationResponse, Eff.try_catch, Eff.bind, Eff.get.
  now rewrite Hn.
Qed.

Lemma process_model_fails w id content st n :
  negotiations (db st) !! id = Some n ->
  classification w = ModelFails ->
  processNegotiationResponse cfg w id content st
  = (Eff.Returned (Failure "generateContent failed"),
     snd (createMessage (inboundMessage id content) st)).
Proof.
  intros Hn Hc. unfold processNegotiationResponse, Eff.try_catch, Eff.bind, Eff.get.
  now rewrite Hn, Hc.
Qed.

(** Once the negotiation is found and the reply analysed, the call is
    the next action, run on the store that holds the inbound message, with
    a throw turned into a failed result. *)
Lemma process_next_action w id content st n a :
  negotiations (db st) !! id = Some n ->
  analyzeResponse (classification w) n (snd (createMessage (inboundMessage id content) st))
  = (Eff.Returned a, snd (createMessage (inboundMessage id content) st)) ->
  processNegotiationResponse cfg w id content st
  = Eff.try_catch
      (nextAction cfg w id (storedContext (db st) n) n a (roundOf (db st) id))
      (fun message => Eff.ret (Failure message))
      (snd (createMessage (inboundMessage id content) st)).
Proof.
  intros Hn Ha. unfold processNegotiationResponse, Eff.try_catch at 1.
  unfold Eff.bind at 1. cbn [Eff.get]. rewrite Hn.
  unfold Eff.bind at 1. cbn [createMessage Eff.modify snd] in *.
  unfold Eff.bind at 1. rewrite Ha. unfold Eff.try_catch. reflexivity.
Qed.

Lemma inbound_keeps_negotiations id content st :
  negotiations (db (snd (createMessage (inboundMessage id content) st)))
  = negotiations (db st).
Proof. reflexivity. Qed.

(** *** The branches *)

Lemma acceptTerms_run w id a st :
  acceptTerms w id a st
  = (Eff.Returned (Success (DataAccepted (an_terms a) (an_savings a))),
     snd (updateNegotiation id (close accepted (an_terms a) (an_savings a) (now w) []) st)).
Proof. reflexivity. Qed.

Lemma markRejected_run w id a st :
  markRejected w id a st
  = (Eff.Returned (Success (DataRejected (an_reason a))),
     snd (updateNegotiation id (close rejected None None (now w) []) st)).
Proof. reflexivity. Qed.

Lemma decideFinally_run w id n a st :
  decideFinally cfg w id n a st
  = if acceptable (finalDecision cfg n a)
    then (Eff.Returned (Success (DataAcceptedFinal (actualSavings (finalDecision cfg n a)))),
          snd (updateNegotiation id
                 (close accepted (an_counterOffer a)
                        (Some (actualSavings (finalDecision cfg n a))) (now w) []) st))
    else (Eff.Returned (Success DataNoAgreement),
          snd (updateNegotiation id (close expired None None (now w) []) st)).
Proof.
  unfold decideFinally. now destruct (acceptable (finalDecision cfg n a)).
Qed.


(** A counter-offer that is not acceptable is countered: the email goes
    out, it is logged as an outbound message, the counter-offer is added to
    the history, and the status stays as it is. *)
Lemma answerCounterOffer_countered w id ctx n c round st d :
  acceptable (evaluateCounterOffer c (offer_products (initialOffer n))
                                   (targetImprovement cfg)) = false ->
  counterDraft w = Some d ->
  mailAccepted w = true ->
  exists responseEmail st',
    answerCounterOffer cfg w id ctx n c round st
    = (Eff.Returned (Success (DataCounterSent (round + 1))), st')
    /\ generateCounterEmail (counterDraft w) ctx st = (Eff.Returned responseEmail, st)
    /\ to responseEmail = supplierEmail ctx
    /\ outbox st' = (outbox st ++ [responseEmail])%list
    /\ messages (db st') = (messages (db st) ++ [outboundMessage w id responseEmail])%list
    /\ negotiations (db st') = alter (pushCounterOffer c) id (negotiations (db st))
    /\ statusOf id st' = statusOf id st.
Proof.
  intros Hacc Hd Hm. unfold answerCounterOffer. rewrite Hacc, Hd, Hm.
  eexists _, _. split; [reflexivity|]. split; [reflexivity|].
  split; [reflexivity|]. split; [reflexivity|]. split; [reflexivity|].
  split; [reflexivity|].
  cbn [snd]. unfold statusOf. cbn [db negotiations setDb].
  rewrite lookup_alter_eq. now destruct (negotiations (db st) !! id).
Qed.


(** *** A reply that cannot be classified *)

(** Whatever the round, the next action on the safe default is the final
    decision, and the final decision without a counter-offer is "expired". *)
Lemma nextAction_default_expires w id ctx n round st :
  nextAction cfg w id ctx n
    {| an_accepted := false; an_rejected := false; an_counterOffer := None;
       an_terms := None; an_savings := None; an_reason := None |} round st
  = (Eff.Returned (Success DataNoAgreement),
     snd (updateNegotiation id (close expired None None (now w) []) st)).
Proof.
  unfold nextAction. cbn [an_accepted an_rejected an_counterOffer].
  destruct (roundsRemain cfg round); reflexivity.
Qed.

(** C1, as the code has it at the last round: when the classification of
    a reply is unparseable and the round (one more than the outbound
    messages) has reached the maximum, the call makes the final decision on
    the safe default, which holds no counter-offer: the negotiation becomes
    'expired' and the caller is told that there is no agreement. *)
Theorem unparseable_reply_at_max_rounds_expires
  (w : ReplyWorld) (id content : string) (st : Store) (n : Negotiation) :
  negotiations (db st) !! id = Some n ->
  classification w = Unparseable ->
  maxNegotiationRounds cfg <= inject_Z (Z.of_nat (roundOf (db st) id)) ->
  processNegotiationResponse cfg w id content st
  = (Eff.Returned (Success DataNoAgreement),
     snd (updateNegotiation id (close expired None None (now w) [])
            (snd (createMessage (inboundMessage id content) st))))
  /\ statusOf id (snd (processNegotiationResponse cfg w id content st)) = Some expired.
Proof.
  intros Hn Hc Hround.
  assert (Hrun : processNegotiationResponse cfg w id content st
                 = (Eff.Returned (Success DataNoAgreement),
                    snd (updateNegotiation id (close expired None None (now w) [])
                           (snd (createMessage (inboundMessage id content) st))))).
  { erewrite process_next_action; [|exact Hn|rewrite Hc; apply analyzeResponse_unparseable].
    unfold Eff.try_catch, nextAction. cbn [an_accepted an_rejected an_counterOffer].
    assert (Hlast : roundsRemain cfg (roundOf (db st) id) = false).
    { apply Js_lt_false. exact Hround. }
    rewrite Hlast. reflexivity. }
  split; [exact Hrun|]. rewrite Hrun. cbn [snd].
  apply statusOf_close. rewrite inbound_keeps_negotiations, Hn. now eexists.
Qed.

(** Whatever the round, a reply that cannot be classified ends the
    negotiation as 'expired'. *)
Lemma unparseable_reply_expires w id content st n :
  negotiations (db st) !! id = Some n ->
  classification w = Unparseable ->
  statusOf id (snd (processNegotiationResponse cfg w id content st)) = Some expired.
Proof.
  intros Hn Hc.
  erewrite process_next_action; [|exact Hn|rewrite Hc; apply analyzeResponse_unparseable].
  rewrite snd_try_catch_failure, nextAction_default_expires. cbn [snd].
  apply statusOf_close. rewrite inbound_keeps_negotiations, Hn. now eexists.
Qed.

(** *** The evaluation of a counter-offer *)




(** *** A reply that makes a counter-offer *)

(** On a counter-offer the next action depends on the round alone: the
    offer is answered while rounds remain and decided finally otherwise. *)
Lemma nextAction_counter_offer w id ctx n a c round :
  an_accepted a = false -> an_rejected a = false -> an_counterOffer a = Some c ->
  nextAction cfg w id ctx n a round
  = if roundsRemain cfg round
    then answerCounterOffer cfg w id ctx n c round
    else decideFinally cfg w id n a.
Proof.
  intros Ha Hr Hc. unfold nextAction. rewrite Ha, Hr, Hc.
  now destruct (roundsRemain cfg round).
Qed.

Lemma process_counter_offer w id content st n a c :
  negotiations (db st) !! id = Some n ->
  classification w = Parsed a ->
  an_accepted a = false -> an_rejected a = false -> an_counterOffer a = Some c ->
  processNegotiationResponse cfg w id content st
  = Eff.try_catch
      (if roundsRemain cfg (roundOf (db st) id)
       then answerCounterOffer cfg w id (storedContext (db st) n) n c (roundOf (db st) id)
       else decideFinally cfg w id n a)
      (fun message => Eff.ret (Failure message))
      (snd (createMessage (inboundMessage id content) st)).
Proof.
  intros Hn Hw Ha Hr Hc.
  erewrite process_next_action;
    [|exact Hn|rewrite Hw; now apply analyzeResponse_not_accepted].
  now rewrite (nextAction_counter_offer _ _ _ _ _ c _ Ha Hr Hc).
Qed.


(** *** The round *)

(** A counter-email that is logged moves the next call one round on. *)
Lemma outboundCount_after_outbound d id m :
  msg_negotiationId m = id -> direction m = outbound ->
  outboundCount
    {| organizations := organizations d; suppliers := suppliers d;
       purchaseOrders := purchaseOrders d; negotiations := negotiations d;
       messages := (messages d ++ [m])%list |} id
  = S (outboundCount d id).
Proof.
  intros Hid Hdir. unfold outboundCount. cbn [messages].
  rewrite !List.filter_app, length_app. cbn [List.filter].
  rewrite Hid, String.eqb_refl. cbn [List.filter]. rewrite Hdir. cbn. lia.
Qed.

(** An inbound message leaves the round as it is. *)
Lemma outboundCount_after_inbound d id m :
  direction m = inbound ->
  outboundCount
    {| organizations := organizations d; suppliers := suppliers d;
       purchaseOrders := purchaseOrders d; negotiations := negotiations d;
       messages := (messages d ++ [m])%list |} id
  = outboundCount d id.
Proof.
  intros Hdir. unfold outboundCount. cbn [messages].
  rewrite !List.filter_app, length_app. cbn [List.filter].
  destruct (String.eqb (msg_negotiationId m) id); cbn [List.filter];
    [rewrite Hdir|]; cbn; lia.
Qed.

(** The round after a reply has been countered: the inbound message
    does not count, the counter-email does. *)
Lemma outboundCount_after_exchange d id content w email ms :
  ms = (messages d ++ [inboundMessage id content; outboundMessage w id email])%list ->
  length (List.filter (fun m => match direction m with
                                | outbound => true | inbound => false end)
            (List.filter (fun m => String.eqb (msg_negotiationId m) id) ms))
  = S (outboundCount d id).
Proof.
  intros ->. unfold outboundCount.
  rewrite !List.filter_app, length_app. cbn [List.filter inboundMessage outboundMessage
    msg_negotiationId direction]. rewrite String.eqb_refl. cbn. lia.
Qed.

(** C4, as the code has it: the round that decides between countering
    and the final decision is one more than the number of outbound messages
    stored for the negotiation; it is computed from the message log on
    every call, and the negotiation holds no counter of its own.  On a
    reply classified as a counter-offer the call answers the offer when
    that number plus one is below the maximum of rounds, and makes the
    final decision otherwise: a counter-offer that is not acceptable is
    countered in the first case (the result names the next round, and the
    round computed from the log is then one higher), and ends the
    negotiation without agreement in the second. *)
Theorem round_is_outbound_count_plus_one
  (w : ReplyWorld) (id content : string) (st : Store) (n : Negotiation)
  (a : Analysis) (c : CounterOffer) :
  negotiations (db st) !! id = Some n ->
  classification w = Parsed a ->
  an_accepted a = false -> an_rejected a = false -> an_counterOffer a = Some c ->
  let sent :=
    length (List.filter (fun m => match direction m with
                                  | outbound => true | inbound => false end)
              (List.filter (fun m => String.eqb (msg_negotiationId m) id)
                           (messages (db st)))) in
  let run := processNegotiationResponse cfg w id content st in
  let unacceptable :=
    acceptable (evaluateCounterOffer c (offer_products (initialOffer n))
                                     (priceImprovementTarget cfg)) = false in
  roundOf (db st) id = (sent + 1)%nat
  /\ run
     = Eff.try_catch
         (if Js.lt (inject_Z (Z.of_nat (sent + 1))) (maxNegotiationRounds cfg)
          then answerCounterOffer cfg w id (storedContext (db st) n) n c (sent + 1)
          else decideFinally cfg w id n a)
         (fun message => Eff.ret (Failure message))
         (snd (createMessage (inboundMessage id content) st))
  /\ (unacceptable ->
      inject_Z (Z.of_nat (sent + 1)) < maxNegotiationRounds cfg ->
      forall d, counterDraft w = Some d -> mailAccepted w = true ->
      fst run = Eff.Returned (Success (DataCounterSent (sent + 2)))
      /\ roundOf (db (snd run)) id = (sent + 2)%nat)
  /\ (unacceptable ->
      maxNegotiationRounds cfg <= inject_Z (Z.of_nat (sent + 1)) ->
      fst run = Eff.Returned (Success DataNoAgreement)).
Proof.
  intros Hn Hw Ha Hr Hc sent run unacceptable.
  assert (Hrun := process_counter_offer w id content st n a c Hn Hw Ha Hr Hc).
  fold run in Hrun.
  change (roundOf (db st) id) with (sent + 1)%nat in Hrun.
  split; [reflexivity|]. split; [exact Hrun|]. split.
  - intros Hun Hround d Hd Hm.
    assert (Hleft : roundsRemain cfg (sent + 1) = true) by (apply Js_lt_spec; exact Hround).
    rewrite Hleft in Hrun.
    destruct (answerCounterOffer_countered w id (storedContext (db st) n) n c (sent + 1)
                (snd (createMessage (inboundMessage id content) st)) d Hun Hd Hm)
      as (email & st' & Hans & _ & _ & _ & Hmsgs & _ & _).
    rewrite Hrun. unfold Eff.try_catch. rewrite Hans. cbn [fst snd].
    split; [f_equal; f_equal; f_equal; lia|].
    unfold roundOf, outboundCount.
    rewrite (outboundCount_after_exchange (db st) id content w email).
    + fold sent. unfold outboundCount. fold sent. lia.
    + rewrite Hmsgs. cbn [createMessage Eff.modify snd setDb db messages].
      now rewrite <- app_assoc.
  - intros Hun Hround.
    assert (Hlast : roundsRemain cfg (sent + 1) = false)
      by (apply Js_lt_false; exact Hround).
    rewrite Hlast in Hrun. rewrite Hrun. unfold Eff.try_catch.
    rewrite decideFinally_run. unfold finalDecision. rewrite Hc.
    unfold targetImprovement. unfold unacceptable in Hun. rewrite Hun. reflexivity.
Qed.

(** *** The statuses a negotiation takes *)

Lemma statusStep_refl id negs : statusStep id negs negs.
Proof.
  exists (fun m => m). split; [|now left].
  intros id'. destruct (decide (id = id')); [|reflexivity].
  now destruct (negs !! id').
Qed.

Lemma statusStep_alter_close id negs s terms saved t extra :
  terminal s = true ->
  statusStep id negs (alter (close s terms saved t extra) id negs).
Proof.
  intros Hs. exists (close s terms saved t extra). split.
  - intros id'. rewrite lookup_alter. now destruct (decide (id = id')) as [->|].
  - right. now exists s.
Qed.

Lemma statusStep_alter_push id negs c :
  statusStep id negs (alter (pushCounterOffer c) id negs).
Proof.
  exists (pushCounterOffer c). split.
  - intros id'. rewrite lookup_alter. now destruct (decide (id = id')) as [->|].
  - now left.
Qed.

Lemma nextAction_statusStep w id ctx n a round st :
  statusStep id (negotiations (db st))
             (negotiations (db (snd (nextAction cfg w id ctx n a round st)))).
Proof.
  unfold nextAction.
  destruct (an_accepted a); [apply statusStep_alter_close; reflexivity|].
  destruct (an_rejected a); [apply statusStep_alter_close; reflexivity|].
  destruct (if roundsRemain cfg round then an_counterOffer a else None) as [c|].
  - unfold answerCounterOffer.
    destruct (acceptable (evaluateCounterOffer c _ _)).
    + unfold Eff.bind. cbn [updateNegotiation Eff.modify].
      destruct (mailAccepted w); cbn; apply statusStep_alter_close; reflexivity.
    + destruct (counterDraft w) as [d|]; [|apply statusStep_refl].
      destruct (mailAccepted w); [|apply statusStep_refl].
      apply statusStep_alter_push.
  - rewrite decideFinally_run.
    destruct (acceptable (finalDecision cfg n a));
      apply statusStep_alter_close; reflexivity.
Qed.

Lemma process_statusStep w id content st :
  statusStep id (negotiations (db st))
             (negotiations (db (snd (processNegotiationResponse cfg w id content st)))).
Proof.
  destruct (negotiations (db st) !! id) as [n|] eqn:Hn.
  - destruct (classification w) as [| |a] eqn:Hw.
    + rewrite (process_model_fails _ _ _ _ _ Hn Hw). apply statusStep_refl.
    + erewrite process_next_action;
        [|exact Hn|rewrite Hw; apply analyzeResponse_unparseable].
      rewrite snd_try_catch_failure.
      exact (nextAction_statusStep w id _ n _ _
               (snd (createMessage (inboundMessage id content) st))).
    + destruct (analyzeResponse_parsed a n
                  (snd (createMessage (inboundMessage id content) st)))
        as (a' & Ha' & _).
      erewrite process_next_action; [|exact Hn|rewrite Hw; exact Ha'].
      rewrite snd_try_catch_failure.
      exact (nextAction_statusStep w id _ n _ _
               (snd (createMessage (inboundMessage id content) st))).
  - rewrite (process_unknown_negotiation _ _ _ _ Hn). apply statusStep_refl.
Qed.

(** Every change of status that [processNegotiationResponse] makes is a
    move of its own negotiation to 'accepted', 'rejected' or 'expired'. *)
Lemma process_status_change w id content st id' :
  statusOf id' (snd (processNegotiationResponse cfg w id content st)) = statusOf id' st
  \/ (id' = id
      /\ exists s, terminal s = true
         /\ statusOf id' (snd (processNegotiationResponse cfg w id content st)) = Some s).
Proof.
  destruct (process_statusStep w id content st) as (f & Hlook & Hf).
  unfold statusOf. rewrite (Hlook id').
  destruct (decide (id = id')) as [<-|Hne]; [|now left].
  destruct (negotiations (db st) !! id) as [n|] eqn:Hn; [|now left].
  destruct Hf as [Hkeep|(s & Hs & Hset)].
  - left. cbn. now rewrite Hkeep.
  - right. split; [reflexivity|]. exists s. split; [exact Hs|]. cbn. now rewrite Hset.
Qed.

(** The current status is not consulted: a reply classified as accepted,
    or as rejected, sets that state on any negotiation that exists. *)
Lemma process_accepted_reply w id content st n a :
  negotiations (db st) !! id = Some n ->
  classification w = Parsed a ->
  an_accepted a = true ->
  statusOf id (snd (processNegotiationResponse cfg w id content st)) = Some accepted.
Proof.
  intros Hn Hw Ha.
  destruct (analyzeResponse_parsed a n
              (snd (createMessage (inboundMessage id content) st)))
    as (a' & Ha' & Hacc & _).
  erewrite process_next_action; [|exact Hn|rewrite Hw; exact Ha'].
  rewrite snd_try_catch_failure. unfold nextAction. rewrite Hacc, Ha.
  rewrite acceptTerms_run. cbn [snd].
  apply statusOf_close. rewrite inbound_keeps_negotiations, Hn. now eexists.
Qed.

Lemma process_rejected_reply w id content st n a :
  negotiations (db st) !! id = Some n ->
  classification w = Parsed a ->
  an_accepted a = false -> an_rejected a = true ->
  statusOf id (snd (processNegotiationResponse cfg w id content st)) = Some rejected.
Proof.
  intros Hn Hw Ha Hr.
  erewrite process_next_action;
    [|exact Hn|rewrite Hw; now apply analyzeResponse_not_accepted].
  rewrite snd_try_catch_failure. unfold nextAction. rewrite Ha, Hr.
  rewrite markRejected_run. cbn [snd].
  apply statusOf_close. rewrite inbound_keeps_negotiations, Hn. now eexists.
Qed.

(** [initiateNegotiation] either creates no negotiation, or creates the
    one with the new id, in progress. *)
Lemma initiateNegotiation_negotiations w organizationId supplierId requested st :
  let st' := snd (initiateNegotiation cfg w organizationId supplierId requested st) in
  negotiations (db st') = negotiations (db st)
  \/ (negotiations (db st) !! newId w = None
      /\ exists n, status n = in_progress
                   /\ negotiations (db st') = <[newId w := n]> (negotiations (db st))).
Proof.
  intros st'. subst st'.
  remember (initiateNegotiation cfg w organizationId supplierId requested st) as run
    eqn:Hrun.
  unfold initiateNegotiation, Eff.try_catch, Eff.bind at 1 in Hrun. cbn [Eff.get] in Hrun.
  destruct (organizations (db st) !! organizationId) as [organization|];
    [|subst run; now left].
  destruct (suppliers (db st) !! supplierId) as [supplier|]; [|subst run; now left].
  destruct (Scout.present (contactEmail supplier)); [|subst run; now left].
  unfold Eff.bind at 1 in Hrun.
  destruct (openingDraft w) as [d|]; [|subst run; now left].
  cbn [generateNegotiationEmail Eff.ret] in Hrun.
  unfold Eff.bind at 1 in Hrun. unfold createNegotiation at 1 in Hrun.
  unfold Eff.bind at 1 in Hrun. cbn [Eff.get] in Hrun.
  destruct (negotiations (db st) !! newId w) eqn:Hfresh; [subst run; now left|].
  right. split; [reflexivity|].
  cbn [Eff.modify] in Hrun. unfold Eff.bind in Hrun.
  destruct (init_mailAccepted w); subst run; cbn;
    eexists; (split; [|reflexivity]); reflexivity.
Qed.

Lemma initiateNegotiation_success w organizationId supplierId requested st data :
  fst (initiateNegotiation cfg w organizationId supplierId requested st)
  = Eff.Returned (Success data) ->
  negotiationId data = newId w
  /\ negotiations (db st) !! newId w = None
  /\ statusOf (newId w)
       (snd (initiateNegotiation cfg w organizationId supplierId requested st))
     = Some in_progress.
Proof.
  remember (initiateNegotiation cfg w organizationId supplierId requested st) as run
    eqn:Hrun.
  unfold initiateNegotiation, Eff.try_catch, Eff.bind at 1 in Hrun. cbn [Eff.get] in Hrun.
  destruct (organizations (db st) !! organizationId) as [organization|];
    [|subst run; discriminate].
  destruct (suppliers (db st) !! supplierId) as [supplier|]; [|subst run; discriminate].
  destruct (Scout.present (contactEmail supplier)); [|subst run; discriminate].
  unfold Eff.bind at 1 in Hrun.
  destruct (openingDraft w) as [d|]; [|subst run; discriminate].
  cbn [generateNegotiationEmail Eff.ret] in Hrun.
  unfold Eff.bind at 1 in Hrun. unfold createNegotiation at 1 in Hrun.
  unfold Eff.bind at 1 in Hrun. cbn [Eff.get] in Hrun.
  destruct (negotiations (db st) !! newId w) eqn:Hfresh; [subst run; discriminate|].
  cbn [Eff.modify] in Hrun. unfold Eff.bind in Hrun.
  destruct (init_mailAccepted w); subst run; cbn [fst snd sendEmail Eff.throw Eff.ret];
    [|discriminate].
  intros H. injection H as <-. cbn [negotiationId]. split; [reflexivity|].
  split; [reflexivity|].
  unfold statusOf. cbn. now rewrite lookup_insert_eq.
Qed.

(** The follow-up route sets 'in_progress' on any negotiation that exists. *)
Lemma sendFollowUp_status id message t st :
  is_Some (negotiations (db st) !! id) ->
  statusOf id (snd (sendFollowUp id message t st)) = Some in_progress.
Proof.
  intros [n Hn]. unfold sendFollowUp, Eff.bind at 1. cbn [Eff.get]. rewrite Hn.
  unfold Eff.bind. cbn [createMessage Eff.modify snd].
  rewrite statusOf_updateNegotiation. cbn. now rewrite Hn.
Qed.

(** The sweep of the runner moves negotiations in progress to 'expired',
    and no other. *)
Lemma expireStale_status t st id :
  statusOf id (snd (expireStale t st)) = statusOf id st
  \/ (statusOf id st = Some in_progress
      /\ statusOf id (snd (expireStale t st)) = Some expired).
Proof.
  unfold statusOf, expireStale. cbn [Eff.modify snd setDb db negotiations].
  rewrite lookup_fmap.
  destruct (negotiations (db st) !! id) as [n|]; [|now left]. cbn.
  destruct (status n) eqn:Hs; try (left; now rewrite Hs).
  destruct (expiresAt n <? t)%Z; [right; now split|left; now rewrite Hs].
Qed.

(** C3, as the code has it: a negotiation that [initiateNegotiation]
    creates is 'in_progress' from its creation; a call of
    [processNegotiationResponse] leaves every status as it is or moves its
    own negotiation to 'accepted', 'rejected' or 'expired', and to no other
    value.  The call does not consult the current status: on any
    negotiation that exists, a terminal one included, a reply classified as
    accepted sets 'accepted' and one classified as rejected sets
    'rejected'; the follow-up route of the API sets 'in_progress' on any
    negotiation that exists, and the sweep of the runner moves only
    negotiations in progress, to 'expired'. *)
Theorem negotiation_status_transitions :
  (forall w organizationId supplierId requested st data,
      fst (initiateNegotiation cfg w organizationId supplierId requested st)
      = Eff.Returned (Success data) ->
      statusOf (negotiationId data)
        (snd (initiateNegotiation cfg w organizationId supplierId requested st))
      = Some in_progress)
  /\ (forall w organizationId supplierId requested st,
        let st' := snd (initiateNegotiation cfg w organizationId supplierId requested st) in
        negotiations (db st') = negotiations (db st)
        \/ (negotiations (db st) !! newId w = None
            /\ exists n, status n = in_progress
                 /\ negotiations (db st') = <[newId w := n]> (negotiations (db st))))
  /\ (forall w id content st id',
        let st' := snd (processNegotiationResponse cfg w id content st) in
        statusOf id' st' = statusOf id' st
        \/ (id' = id
            /\ (statusOf id' st' = Some accepted
                \/ statusOf id' st' = Some rejected
                \/ statusOf id' st' = Some expired)))
  /\ (forall w id content st n a,
        negotiations (db st) !! id = Some n ->
        classification w = Parsed a ->
        (an_accepted a = true ->
         statusOf id (snd (processNegotiationResponse cfg w id content st)) = Some accepted)
        /\ (an_accepted a = false -> an_rejected a = true ->
            statusOf id (snd (processNegotiationResponse cfg w id content st))
            = Some rejected))
  /\ (forall id message t st,
        is_Some (negotiations (db st) !! id) ->
        statusOf id (snd (sendFollowUp id message t st)) = Some in_progress)
  /\ (forall t st id,
        statusOf id (snd (expireStale t st)) = statusOf id st
        \/ (statusOf id st = Some in_progress
            /\ statusOf id (snd (expireStale t st)) = Some expired)).
Proof.
  split; [|split; [|split; [|split; [|split]]]].
  - intros w organizationId supplierId requested st data Hok.
    destruct (initiateNegotiation_success _ _ _ _ _ _ Hok) as (-> & _ & Hstatus).
    exact Hstatus.
  - intros. apply initiateNegotiation_negotiations.
  - intros w id content st id' st'. subst st'.
    destruct (process_status_change w id content st id') as [H|(Hid & s & Hs & H)];
      [now left|right]. split; [exact Hid|].
    destruct s; try discriminate Hs; auto.
  - intros w id content st n a Hn Hw. split.
    + now apply process_accepted_reply with (n := n) (a := a).
    + now apply process_rejected_reply with (n := n) (a := a).
  - apply sendFollowUp_status.
  - apply expireStale_status.
Qed.

End Negotiation.

(** ** Diplomat: the claims on the sample negotiation *)

(** C1 at the last round of the sample negotiation: two emails of ours
    are out, the round is 3 of 3, the reply cannot be classified. *)
Lemma unparseable_reply_at_max_rounds_expires_witness :
  (Diplomat.negotiations (Diplomat.db (Sample.desk Diplomat.in_progress 2)) !! "neg-1"
   = Some (Sample.talksWith Diplomat.in_progress)
   /\ maxNegotiationRounds defaultConfig
      <= inject_Z (Z.of_nat (Diplomat.roundOf
                               (Diplomat.db (Sample.desk Diplomat.in_progress 2)) "neg-1")))
  /\ Diplomat.statusOf "neg-1"
       (snd (Diplomat.processNegotiationResponse defaultConfig
               (Sample.replying Diplomat.Unparseable) "neg-1" "We will get back to you"
               (Sample.desk Diplomat.in_progress 2)))
     = Some Diplomat.expired.
Proof.
  assert (Hround : maxNegotiationRounds defaultConfig
                   <= inject_Z (Z.of_nat (Diplomat.roundOf
                        (Diplomat.db (Sample.desk Diplomat.in_progress 2)) "neg-1"))).
  { vm_compute. discriminate. }
  split; [split; [reflexivity|exact Hround]|].
  apply (unparseable_reply_at_max_rounds_expires defaultConfig
           (Sample.replying Diplomat.Unparseable) "neg-1" "We will get back to you"
           (Sample.desk Diplomat.in_progress 2) (Sample.talksWith Diplomat.in_progress)
           eq_refl eq_refl Hround).
Defined.

(** C1, as it is stated, fails on the sample negotiation, at the last
    round (3 of 3) and also with a round to go (2 of 3): the negotiation is
    in progress, the reply cannot be classified, and the call leaves the
    negotiation 'expired', not 'in_progress'. *)
Lemma unparseable_reply_does_not_stall :
  (Diplomat.statusOf "neg-1" (Sample.desk Diplomat.in_progress 2) = Some Diplomat.in_progress
   /\ Diplomat.roundOf (Diplomat.db (Sample.desk Diplomat.in_progress 2)) "neg-1" = 3%nat
   /\ Diplomat.processNegotiationResponse defaultConfig
        (Sample.replying Diplomat.Unparseable) "neg-1" "We will get back to you"
        (Sample.desk Diplomat.in_progress 2)
      = (Eff.Returned (Success Diplomat.DataNoAgreement),
         snd (Diplomat.processNegotiationResponse defaultConfig
                (Sample.replying Diplomat.Unparseable) "neg-1" "We will get back to you"
                (Sample.desk Diplomat.in_progress 2)))
   /\ Diplomat.statusOf "neg-1"
        (snd (Diplomat.processNegotiationResponse defaultConfig
                (Sample.replying Diplomat.Unparseable) "neg-1" "We will get back to you"
                (Sample.desk Diplomat.in_progress 2)))
      = Some Diplomat.expired)
  /\ (Diplomat.statusOf "neg-1" (Sample.desk Diplomat.in_progress 1)
      = Some Diplomat.in_progress
      /\ Diplomat.roundOf (Diplomat.db (Sample.desk Diplomat.in_progress 1)) "neg-1" = 2%nat
      /\ Diplomat.statusOf "neg-1"
           (snd (Diplomat.processNegotiationResponse defaultConfig
                   (Sample.replying Diplomat.Unparseable) "neg-1" "We will get back to you"
                   (Sample.desk Diplomat.in_progress 1)))
         = Some Diplomat.expired).
Proof. vm_compute. repeat split. Qed.



(** The three outcomes of C2 on the sample negotiation: 9.70 a unit (3%)
    is accepted; 9.90 a unit (1%) is countered at round 2 of 3, with one
    email out and the status as it was; 9.90 a unit at round 3 of 3 ends the
    negotiation as expired, with no email. *)
Example counter_offer_outcomes :
  let run unit sent :=
    Diplomat.processNegotiationResponse defaultConfig
      (Sample.replying (Diplomat.Parsed (Sample.counters unit))) "neg-1" "Our best price"
      (Sample.desk Diplomat.in_progress sent) in
  (Diplomat.statusOf "neg-1" (snd (run 9.7%float 1%nat)) = Some Diplomat.accepted
   /\ Diplomat.statusOf "neg-1" (snd (run 9.7%float 2%nat)) = Some Diplomat.accepted)
  /\ (fst (run 9.9%float 1%nat) = Eff.Returned (Success (Diplomat.DataCounterSent 3))
      /\ Diplomat.statusOf "neg-1" (snd (run 9.9%float 1%nat)) = Some Diplomat.in_progress
      /\ map Diplomat.to (Diplomat.outbox (snd (run 9.9%float 1%nat))) = ["sales@acme.example"]
      /\ Diplomat.roundOf (Diplomat.db (snd (run 9.9%float 1%nat))) "neg-1" = 3%nat)
  /\ (fst (run 9.9%float 2%nat) = Eff.Returned (Success Diplomat.DataNoAgreement)
      /\ Diplomat.statusOf "neg-1" (snd (run 9.9%float 2%nat)) = Some Diplomat.expired
      /\ Diplomat.outbox (snd (run 9.9%float 2%nat)) = []).
Proof. vm_compute. repeat split. Qed.

(** C3, as it is stated, fails on the sample negotiation: once accepted,
    a reply classified as rejected moves it to 'rejected', and a follow-up
    through the API moves it back to 'in_progress'. *)
Lemma terminal_state_is_left :
  Diplomat.terminal Diplomat.accepted = true
  /\ Diplomat.statusOf "neg-1" (Sample.desk Diplomat.accepted 1) = Some Diplomat.accepted
  /\ Diplomat.statusOf "neg-1"
       (snd (Diplomat.processNegotiationResponse defaultConfig
               (Sample.replying (Diplomat.Parsed Sample.refuses)) "neg-1"
               "On reflection we cannot offer this" (Sample.desk Diplomat.accepted 1)))
     = Some Diplomat.rejected
  /\ Diplomat.statusOf "neg-1"
       (snd (Diplomat.sendFollowUp "neg-1" "Any news?" 1700086400000
               (Sample.desk Diplomat.accepted 1)))
     = Some Diplomat.in_progress.
Proof. vm_compute. repeat split. Qed.

(** C4 on the sample negotiation with two emails of ours out: the round
    is 3. *)
Lemma round_is_outbound_count_plus_one_witness :
  Diplomat.negotiations (Diplomat.db (Sample.desk Diplomat.in_progress 2)) !! "neg-1"
  = Some (Sample.talksWith Diplomat.in_progress)
  /\ Diplomat.roundOf (Diplomat.db (Sample.desk Diplomat.in_progress 2)) "neg-1"
     = (length (List.filter (fun m => match Diplomat.direction m with
                                      | Diplomat.outbound => true
                                      | Diplomat.inbound => false end)
                  (List.filter (fun m => String.eqb (Diplomat.msg_negotiationId m) "neg-1")
                     (Diplomat.messages (Diplomat.db (Sample.desk Diplomat.in_progress 2)))))
        + 1)%nat.
Proof.
  split; [reflexivity|].
  exact (proj1 (round_is_outbound_count_plus_one defaultConfig
                  (Sample.replying (Diplomat.Parsed (Sample.counters 9.9)))
                  "neg-1" "Our best price" (Sample.desk Diplomat.in_progress 2)
                  (Sample.talksWith Diplomat.in_progress) (Sample.counters 9.9)
                  (Sample.offers 9.9) eq_refl eq_refl eq_refl eq_refl eq_refl)).
Defined.

(** C4, as it is stated, fails on the sample negotiation: with two
    outbound messages stored and a maximum of three rounds, a round equal
    to the count (2) would leave a round to go; the call computes round 3,
    makes the final decision on the counter-offer of 9.90 and ends the
    negotiation as expired without a counter-email. *)
Lemma round_is_not_the_outbound_count :
  Diplomat.outboundCount (Diplomat.db (Sample.desk Diplomat.in_progress 2)) "neg-1" = 2%nat
  /\ Diplomat.roundOf (Diplomat.db (Sample.desk Diplomat.in_progress 2)) "neg-1" = 3%nat
  /\ Diplomat.roundsRemain defaultConfig 2 = true
  /\ Diplomat.roundsRemain defaultConfig 3 = false
  /\ fst (Diplomat.processNegotiationResponse defaultConfig
            (Sample.replying (Diplomat.Parsed (Sample.counters 9.9)))
            "neg-1" "Our best price" (Sample.desk Diplomat.in_progress 2))
     = Eff.Returned (Success Diplomat.DataNoAgreement)
  /\ Diplomat.outbox
       (snd (Diplomat.processNegotiationResponse defaultConfig
               (Sample.replying (Diplomat.Parsed (Sample.counters 9.9)))
               "neg-1" "Our best price" (Sample.desk Diplomat.in_progress 2)))
     = [].
Proof. vm_compute. repeat split. Qed.

(** * Further properties of the agents *)

From Stdlib Require Import Lqa.

(** ** Strategist: the inventory report *)

Section InventoryReport.

Import Strategist.

Variable cfg : Config.

Lemma truthy_inject_Z z : Js.truthy (inject_Z z) = negb (z =? 0)%Z.
Proof.
  unfold Js.truthy. f_equal.
  destruct (z =? 0)%Z eqn:E.
  - apply Z.eqb_eq in E. subst z. reflexivity.
  - apply Z.eqb_neq in E.
    destruct (Qeq_bool (inject_Z z) 0) eqn:Q; [|reflexivity].
    apply Qeq_bool_iff in Q. unfold Qeq in Q. cbn in Q. lia.
Qed.

(** The comparator of [analyzeInventory] orders by urgency first and by
    days of stock among equals. *)
Lemma byUrgency_lexicographic (a b : InventoryAnalysis) :
  byUrgency a b
  <-> (urgencyOrder (urgency a) < urgencyOrder (urgency b))%Z
      \/ (urgencyOrder (urgency a) = urgencyOrder (urgency b)
          /\ daysOfStock a <= daysOfStock b).
Proof.
  unfold byUrgency, Js.or. rewrite truthy_inject_Z.
  set (d := (urgencyOrder (urgency a) - urgencyOrder (urgency b))%Z).
  destruct (d =? 0)%Z eqn:E; cbn [negb].
  - apply Z.eqb_eq in E. split.
    + intros H. right. split; [lia|lra].
    + intros [H|[_ H]]; [lia|lra].
  - apply Z.eqb_neq in E. split.
    + intros H. left. change 0 with (inject_Z 0) in H. rewrite <- Zle_Qle in H. lia.
    + intros [H|[H _]]; [|lia]. change 0 with (inject_Z 0). rewrite <- Zle_Qle. lia.
Qed.

#[local] Instance byUrgency_total : Total byUrgency.
Proof.
  intros a b. rewrite !byUrgency_lexicographic.
  destruct (Z.lt_trichotomy (urgencyOrder (urgency a)) (urgencyOrder (urgency b)))
    as [H|[H|H]]; [now left; left| |now right; left].
  destruct (Qlt_le_dec (daysOfStock b) (daysOfStock a)) as [Hd|Hd].
  - right. right. split; [now symmetry|]. now apply Qlt_le_weak.
  - left. right. now split.
Qed.

#[local] Instance byUrgency_transitive : Transitive byUrgency.
Proof.
  intros a b c. rewrite !byUrgency_lexicographic.
  intros [H1|[H1 D1]] [H2|[H2 D2]]; try (left; lia).
  right. split; [lia|]. eapply Qle_trans; eassumption.
Qed.

Lemma StronglySorted_weaken {A} (R R' : A -> A -> Prop) (l : list A) :
  (forall a b, R a b -> R' a b) -> StronglySorted R l -> StronglySorted R' l.
Proof.
  intros HR. induction 1 as [|a l Hl IH Ha]; constructor; [exact IH|].
  eapply List.Forall_impl; [|exact Ha]. apply HR.
Qed.

(** X1: [analyzeInventory] reports every inventory item of the
    organization exactly once, the critical items first, then the
    warnings, then the items that are ok, and within each of the three by
    ascending days of stock. *)
Theorem analyzeInventory_sorted_report (db : Db) (organizationId : string) :
  analyzeInventory cfg db organizationId
  ≡ₚ map (analyzeItem cfg) (itemsOf db organizationId)
  /\ StronglySorted
       (fun a b => (urgencyOrder (urgency a) < urgencyOrder (urgency b))%Z
                   \/ (urgencyOrder (urgency a) = urgencyOrder (urgency b)
                       /\ daysOfStock a <= daysOfStock b))
       (analyzeInventory cfg db organizationId).
Proof.
  unfold analyzeInventory. split.
  - apply merge_sort_Permutation.
  - eapply StronglySorted_weaken;
      [|apply (StronglySorted_merge_sort byUrgency)].
    intros a b. apply byUrgency_lexicographic.
Qed.

End InventoryReport.

(** ** Strategist: consumption and the two projections *)

Section Projections.

Import Strategist.

Lemma filter_out_idempotent (movements : list StockMovement) :
  filter (fun m => mv_type m = "out") (filter (fun m => mv_type m = "out") movements)
  = filter (fun m => mv_type m = "out") movements.
Proof.
  induction movements as [|m ms IH]; [reflexivity|].
  rewrite filter_cons. destruct (decide (mv_type m = "out")) as [Hm|Hm]; [|exact IH].
  rewrite filter_cons. destruct (decide (mv_type m = "out")); [|contradiction].
  now rewrite IH.
Qed.

Lemma fold_left_sum_nonneg {A} (f : A -> Q) (xs : list A) (a : Q) :
  0 <= a -> List.Forall (fun p => 0 <= f p) xs ->
  0 <= fold_left (fun x p => x + f p) xs a.
Proof.
  intros Ha Hxs. revert a Ha. induction Hxs as [|p xs Hp _ IH]; intros a Ha; [exact Ha|].
  cbn. apply IH. rewrite <- (Qplus_0_r 0). now apply Qplus_le_compat.
Qed.

Lemma consumed_nonneg (ms : list StockMovement) : 0 <= consumed ms.
Proof.
  unfold consumed, Js.sum. apply fold_left_sum_nonneg; [apply Qle_refl|].
  apply List.Forall_forall. intros m _. apply Qabs_nonneg.
Qed.

Lemma Js_max_lower a b : a <= Js.max a b.
Proof.
  unfold Js.max. destruct (Qle_bool a b) eqn:E; [now apply Qle_bool_iff|apply Qle_refl].
Qed.

(** X2: the consumption analysis reads the outbound movements only; with
    none it reports a rate of 0; otherwise the daily rate is never negative
    and never more than the total consumed (the span counts as at least one
    day). *)
Theorem analyzeConsumption_rate_bounds (movements : list StockMovement) :
  let outMovements := filter (fun m => mv_type m = "out") movements in
  analyzeConsumption outMovements = analyzeConsumption movements
  /\ (outMovements = [] ->
      analyzeConsumption movements = {| daily := 0; weekly := 0; trend := 0 |})
  /\ 0 <= daily (analyzeConsumption movements)
  /\ daily (analyzeConsumption movements) <= consumed outMovements.
Proof.
  intros outMovements. split; [|split].
  - unfold analyzeConsumption, outMovements. now rewrite filter_out_idempotent.
  - intros Hnone. unfold analyzeConsumption. fold outMovements. now rewrite Hnone.
  - unfold analyzeConsumption. fold outMovements.
    pose proof (consumed_nonneg outMovements) as Htotal.
    destruct outMovements as [|newest rest] eqn:Hout.
    + cbn [daily]. split; [apply Qle_refl|exact Htotal].
    + cbn [daily].
      set (span := Js.max 1 _).
      assert (Hspan : 1 <= span) by apply Js_max_lower.
      assert (Hpos : 0 < span) by lra.
      split.
      * apply Qle_shift_div_l; [exact Hpos|lra].
      * apply Qle_shift_div_r; [exact Hpos|nra].
Qed.

(** X3: when stock is consumed at a positive daily rate and the trend is
    not negative, the trend-adjusted projection runs out no later than the
    average-rate projection; with no trend the two agree. *)
Theorem trendBasedPrediction_not_later (item : InventoryItem) (c : Consumption) :
  0 < daily c ->
  0 <= trend c ->
  0 <= currentStock item - reservedStock item ->
  mp_daysUntilStockout (trendBasedPrediction item c)
  <= mp_daysUntilStockout (simpleStockoutPrediction item c)
  /\ (trend c == 0 ->
      mp_daysUntilStockout (trendBasedPrediction item c)
      == mp_daysUntilStockout (simpleStockoutPrediction item c)).
Proof.
  intros Hd Ht Ha.
  rewrite (simpleStockoutPrediction_positive_rate item c Hd).
  unfold trendBasedPrediction. cbn [mp_daysUntilStockout].
  set (available := currentStock item - reservedStock item) in *.
  set (adjusted := daily c * (1 + trend c * 0.5)).
  assert (Hadj : daily c <= adjusted) by (unfold adjusted; nra).
  assert (Hpos : 0 < adjusted) by lra.
  assert (Hlt : Js.lt 0 adjusted = true) by now apply Js_lt_spec.
  rewrite Hlt. split.
  - apply Qle_shift_div_l; [exact Hd|].
    assert (Heq : available / adjusted * daily c == available * daily c / adjusted)
      by (field; lra).
    rewrite Heq. apply Qle_shift_div_r; [exact Hpos|]. nra.
  - intros H0. unfold adjusted. rewrite H0. field. lra.
Qed.

(** X4: an item with no outbound movement is projected at a year by both
    methods, so its combined days until stockout are 365; it is kept by
    [predictStockouts] only under a threshold of at least 182.5 days, and
    never under the default threshold. *)
Theorem predictItem_without_consumption (cfg : Config) (item : InventoryItem) :
  filter (fun m => mv_type m = "out") (stockMovements item) = [] ->
  cp_daysUntilStockout (predictItem item) = 365%Z
  /\ kept cfg item = Js.le 365 (stockoutThresholdDays cfg * 2)
  /\ kept defaultConfig item = false.
Proof.
  intros Hnone.
  assert (Hc : analyzeConsumption (stockMovements item)
               = {| daily := 0; weekly := 0; trend := 0 |}).
  { unfold analyzeConsumption. now rewrite Hnone. }
  assert (Hdays : cp_daysUntilStockout (predictItem item) = 365%Z).
  { unfold predictItem. rewrite Hc. reflexivity. }
  split; [exact Hdays|].
  unfold kept, withinHorizon, thresholdDays. rewrite Hdays. split; reflexivity.
Qed.

End Projections.

(** X3 on the sample item at 10 units a day: a trend of one half brings
    the projection from 10 days down to 8. *)
Lemma trendBasedPrediction_not_later_witness :
  (0 < 10 /\ 0 <= 1 # 2)
  /\ Strategist.mp_daysUntilStockout
       (Strategist.trendBasedPrediction Sample.item100
          {| Strategist.daily := 10; Strategist.weekly := 70; Strategist.trend := 1 # 2 |})
     <= Strategist.mp_daysUntilStockout
          (Strategist.simpleStockoutPrediction Sample.item100
             {| Strategist.daily := 10; Strategist.weekly := 70;
                Strategist.trend := 1 # 2 |}).
Proof.
  split; [split; [reflexivity|discriminate]|].
  apply (trendBasedPrediction_not_later Sample.item100
           {| Strategist.daily := 10; Strategist.weekly := 70; Strategist.trend := 1 # 2 |}).
  - reflexivity.
  - discriminate.
  - discriminate.
Defined.

(** X4 on the sample item, which has no movement at all. *)
Lemma predictItem_without_consumption_witness :
  filter (fun m => Strategist.mv_type m = "out") (Strategist.stockMovements Sample.item100)
  = []
  /\ Strategist.cp_daysUntilStockout (Strategist.predictItem Sample.item100) = 365%Z.
Proof.
  split; [reflexivity|].
  apply (predictItem_without_consumption defaultConfig Sample.item100 eq_refl).
Defined.

(** ** Scout: what a scan leaves behind *)

Section ScanFrame.

Import Scout ScoutBatch.

(** Every scan, whatever its outcome, is the replay of its database
    calls. *)
Lemma scanSupplier_replays w id st :
  snd (scanSupplier w id st) = replay (writesOfScan w id st) st.
Proof.
  unfold writesOfScan.
  destruct (lookupSupplier id (db st)) as [supplier|] eqn:Hs.
  - destruct (adapterAnswer w supplier) as [scraped|] eqn:Ha.
    + now rewrite (scanSupplier_completes _ _ _ _ _ Hs Ha).
    + now rewrite (scanSupplier_adapter_throws _ _ _ _ Hs Ha).
  - now rewrite (scanSupplier_unknown_supplier _ _ _ Hs).
Qed.

Lemma lookupSupplier_id id d supplier :
  lookupSupplier id d = Some supplier -> sup_id supplier = id.
Proof.
  unfold lookupSupplier. intros H. apply find_some in H as [_ H].
  now apply String.eqb_eq.
Qed.

(** X5: when the adapter of a scan throws, the scan fails and leaves its
    scraping job open: the job stays 'running' with no results, no later
    call closes it or marks it failed, and the supplier, its products and
    the price history are as they were. *)
Theorem scanSupplier_failed_scan_leaves_job_running
  (w : ScanWorld) (id : string) (st : Store) (supplier : Supplier) :
  lookupSupplier id (db st) = Some supplier ->
  adapterAnswer w supplier = None ->
  let st' := snd (scanSupplier w id st) in
  fst (scanSupplier w id st) = Eff.Returned (Failure "adapter failed")
  /\ scrapingJobs (db st')
     = (scrapingJobs (db st)
        ++ [{| job_id := length (scrapingJobs (db st)); job_supplierId := id;
               job_status := running; job_results := None |}])%list
  /\ suppliers (db st') = suppliers (db st)
  /\ supplierProducts (db st') = supplierProducts (db st)
  /\ priceHistory (db st') = priceHistory (db st).
Proof.
  intros Hs Ha st'. subst st'.
  rewrite (scanSupplier_adapter_throws _ _ _ _ Hs Ha). cbn [fst snd].
  rewrite (lookupSupplier_id _ _ _ Hs). now repeat split.
Qed.

Lemma updatesOf_flat_map_writesFor w supplier products scraped id :
  (forall e, In e products -> sp_id e <> id) ->
  updatesOf id (flat_map (writesFor w supplier products) scraped) = [].
Proof.
  intros Hne. induction scraped as [|s l IH]; [reflexivity|].
  cbn [flat_map]. rewrite updatesOf_app, IH, app_nil_r.
  apply updatesOf_writesFor_other. intros e E.
  apply Hne. now apply findExisting_some in E as [Hin _].
Qed.

Lemma updatesOf_writesOfScan_other w id st rowId :
  (forall e, In e (productsOf (db st) id) -> sp_id e <> rowId) ->
  updatesOf rowId (writesOfScan w id st) = [].
Proof.
  intros Hne. unfold writesOfScan.
  destruct (lookupSupplier id (db st)) as [supplier|] eqn:Hs; [|reflexivity].
  destruct (adapterAnswer w supplier) as [scraped|]; [|reflexivity].
  unfold scanWrites. rewrite !updatesOf_app.
  rewrite (lookupSupplier_id _ _ _ Hs).
  rewrite (updatesOf_flat_map_writesFor _ _ _ _ _ Hne). reflexivity.
Qed.

Lemma productsOf_supplier d supplierId sp :
  In sp (productsOf d supplierId) -> sp_supplierId sp = supplierId.
Proof.
  unfold productsOf. intros H. apply list_elem_of_In in H.
  now apply list_elem_of_filter in H as [H _].
Qed.

(** X6: a scan, whatever its outcome, adds and removes no supplier
    product and changes no id, supplier or SKU of a row; when the row ids
    are distinct, the rows of every other supplier are exactly as they
    were. *)
Theorem scanSupplier_keeps_other_products (w : ScanWorld) (id : string) (st : Store) :
  let st' := snd (scanSupplier w id st) in
  map sp_id (supplierProducts (db st')) = map sp_id (supplierProducts (db st))
  /\ map sp_supplierId (supplierProducts (db st'))
     = map sp_supplierId (supplierProducts (db st))
  /\ map supplierSku (supplierProducts (db st')) = map supplierSku (supplierProducts (db st))
  /\ (List.NoDup (map sp_id (supplierProducts (db st))) ->
      forall sp, In sp (supplierProducts (db st)) -> sp_supplierId sp <> id ->
                 lookupProduct (sp_id sp) (db st') = Some sp).
Proof.
  intros st'. subst st'. rewrite scanSupplier_replays.
  rewrite supplierProducts_replay, !map_map.
  split; [|split; [|split]].
  - apply map_ext. intros sp.
    now destruct (applyUpdates_keeps_keys (updatesOf (sp_id sp) (writesOfScan w id st)) sp)
      as (-> & _).
  - apply map_ext. intros sp.
    now destruct (applyUpdates_keeps_keys (updatesOf (sp_id sp) (writesOfScan w id st)) sp)
      as (_ & -> & _).
  - apply map_ext. intros sp.
    now destruct (applyUpdates_keeps_keys (updatesOf (sp_id sp) (writesOfScan w id st)) sp)
      as (_ & _ & ->).
  - intros Hnd sp Hin Hother.
    rewrite lookupProduct_replay, (lookupProduct_primary_key _ _ Hnd Hin).
    rewrite updatesOf_writesOfScan_other; [reflexivity|].
    intros e He Hid.
    pose proof (productsOf_supplier _ _ _ He) as Hsup.
    apply productsOf_In in He.
    assert (e = sp) by (eapply NoDup_map_inj; eassumption).
    subst e. contradiction.
Qed.


End ScanFrame.

(** X5 on the sample catalog, with the website of the supplier down. *)
Lemma scanSupplier_failed_scan_leaves_job_running_witness :
  (Scout.lookupSupplier "sup-1" (Scout.db Sample.catalog) = Some Sample.acme
   /\ Scout.adapterAnswer Fixtures.outage Sample.acme = None)
  /\ map Scout.job_status
         (Scout.scrapingJobs
            (Scout.db (snd (Scout.scanSupplier Fixtures.outage "sup-1" Sample.catalog))))
     = [Scout.running].
Proof.
  split; [split; reflexivity|].
  pose proof (scanSupplier_failed_scan_leaves_job_running Fixtures.outage "sup-1"
                Sample.catalog Sample.acme eq_refl eq_refl) as (_ & H & _).
  rewrite H. reflexivity.
Defined.


(** ** Scout: the stock check and the price comparison *)

Section StockAndPrices.

Import Scout ScoutBatch.


#[local] Instance byUnitPrice_total : Total byUnitPrice.
Proof.
  intros a b. unfold byUnitPrice.
  destruct (Qlt_le_dec (unitPrice b) (unitPrice a)) as [H|H];
    [right; now apply Qlt_le_weak|now left].
Qed.

#[local] Instance byUnitPrice_transitive : Transitive byUnitPrice.
Proof. intros a b c. unfold byUnitPrice. apply Qle_trans. Qed.

(** X9: the price comparison of a product with no offer fails; with an
    offer it lists the offers of the product, each once, cheapest first,
    and reports the first of them as the lowest price: no offer of the
    product is cheaper. *)
Theorem comparePrices_cheapest_first (d : Db) (productId : string) :
  let offers := filter (fun sp => sp_productId sp = productId) (supplierProducts d) in
  (offers = [] -> exists message, comparePrices d productId = Failure message)
  /\ (offers <> [] ->
      exists c,
        comparePrices d productId = Success c
        /\ pc_suppliers c ≡ₚ map quoteOf offers
        /\ StronglySorted (fun a b => pq_price a <= pq_price b) (pc_suppliers c)
        /\ In (pc_lowestPrice c) (pc_suppliers c)
        /\ List.Forall (fun q => pq_price (pc_lowestPrice c) <= pq_price q)
                       (pc_suppliers c)).
Proof.
  intros offers.
  assert (Hperm : offersFor d productId ≡ₚ offers) by apply merge_sort_Permutation.
  assert (Hsorted : StronglySorted byUnitPrice (offersFor d productId))
    by apply (StronglySorted_merge_sort byUnitPrice).
  unfold comparePrices.
  destruct (offersFor d productId) as [|lowest rest] eqn:Hoffers.
  - split; [intros _; now eexists|].
    intros Hne. exfalso. apply Hne. now apply Permutation_nil in Hperm.
  - split.
    { intros Hnone. rewrite Hnone in Hperm. symmetry in Hperm.
      apply Permutation_nil in Hperm. discriminate. }
    intros _. eexists. split; [reflexivity|].
    cbn [pc_suppliers pc_lowestPrice].
    assert (Hall : List.Forall (fun q => pq_price (quoteOf lowest) <= pq_price q)
                               (map quoteOf (lowest :: rest))).
    { apply StronglySorted_inv in Hsorted as [_ Hrest].
      cbn [map]. constructor; [apply Qle_refl|].
      apply Forall_map. eapply List.Forall_impl; [|exact Hrest]. intros x Hx. exact Hx. }
    split; [now rewrite Hperm|]. split; [|split; [now left|exact Hall]].
    change (map quoteOf (lowest :: rest)) with (quoteOf <$> (lowest :: rest)).
    clear -Hsorted. induction Hsorted as [|a l Hl IH Ha]; [constructor|].
    cbn. constructor; [exact IH|]. apply Forall_map.
    eapply List.Forall_impl; [|exact Ha]. intros x Hx. exact Hx.
Qed.

End StockAndPrices.

(** ** Scout: the batch scan *)

Section BatchScan.

Import Scout ScoutBatch.

Lemma scanSupplier_returns w id st :
  exists result, fst (scanSupplier w id st) = Eff.Returned result.
Proof.
  destruct (lookupSupplier id (db st)) as [supplier|] eqn:Hs.
  - destruct (adapterAnswer w supplier) as [scraped|] eqn:Ha.
    + rewrite (scanSupplier_completes _ _ _ _ _ Hs Ha). now eexists.
    + rewrite (scanSupplier_adapter_throws _ _ _ _ Hs Ha). now eexists.
  - rewrite (scanSupplier_unknown_supplier _ _ _ Hs). now eexists.
Qed.

(** The outcome the batch records for a supplier: a success when its
    adapter answers, the failure of the adapter otherwise. *)
Lemma scanSupplier_outcome w id st current supplier :
  lookupSupplier id (db st) = Some current ->
  apiEndpoint current = apiEndpoint supplier ->
  portalUrl current = portalUrl supplier ->
  website current = website supplier ->
  exists result,
    fst (scanSupplier w id st) = Eff.Returned result
    /\ outcomeOf id result
       = {| so_supplierId := id;
            so_success := bool_decide (is_Some (adapterAnswer w supplier));
            so_error := match adapterAnswer w supplier with
                        | Some _ => None
                        | None => Some "adapter failed"
                        end |}.
Proof.
  intros Hs H1 H2 H3.
  rewrite <- (adapterAnswer_same_config w current supplier H1 H2 H3).
  destruct (adapterAnswer w current) as [scraped|] eqn:Ha.
  - rewrite (scanSupplier_completes _ _ _ _ _ Hs Ha). eexists. split; reflexivity.
  - rewrite (scanSupplier_adapter_throws _ _ _ _ Hs Ha). eexists. split; reflexivity.
Qed.

Lemma scanEach_outcomes answers (l : list Supplier) results st :
  (forall s, In s l ->
     exists current,
       lookupSupplier (sup_id s) (db st) = Some current
       /\ apiEndpoint current = apiEndpoint s
       /\ portalUrl current = portalUrl s
       /\ website current = website s) ->
  fst (scanEach answers l results st)
  = Eff.Returned
      (results
       ++ map (fun s =>
                 {| so_supplierId := sup_id s;
                    so_success :=
                      bool_decide (is_Some (adapterAnswer (answers (sup_id s)) s));
                    so_error := match adapterAnswer (answers (sup_id s)) s with
                                | Some _ => None
                                | None => Some "adapter failed"
                                end |}) l)%list.
Proof.
  revert results st. induction l as [|s rest IH]; intros results st Hinv.
  - cbn. now rewrite app_nil_r.
  - cbn [scanEach map]. unfold Eff.bind.
    destruct (Hinv s (or_introl eq_refl)) as (current & Hs & H1 & H2 & H3).
    destruct (scanSupplier_outcome (answers (sup_id s)) (sup_id s) st current s
                Hs H1 H2 H3) as (result & Hres & Hout).
    pose proof (scanSupplier_replays (answers (sup_id s)) (sup_id s) st) as Hst.
    destruct (scanSupplier (answers (sup_id s)) (sup_id s) st) as [o st'].
    cbn [fst snd] in Hres, Hst. subst o st'.
    rewrite IH.
    + rewrite Hout, <- app_assoc. reflexivity.
    + intros s' Hs'.
      destruct (Hinv s' (or_intror Hs')) as (cur & Hc & G1 & G2 & G3).
      destruct (lookupSupplier_replay
                  (writesOfScan (answers (sup_id s)) (sup_id s) st) st (sup_id s') cur Hc)
        as (cur' & Hc' & _ & K1 & K2 & K3).
      exists cur'. split; [exact Hc'|]. repeat split; congruence.
Qed.

Lemma lookupSupplier_primary_key d s :
  List.NoDup (map sup_id (suppliers d)) ->
  In s (suppliers d) ->
  lookupSupplier (sup_id s) d = Some s.
Proof.
  intros Hnd Hin. unfold lookupSupplier.
  destruct (List.find _ (suppliers d)) as [x|] eqn:E.
  - apply find_some in E as [Hx E]. apply String.eqb_eq in E.
    f_equal. eapply NoDup_map_inj; eassumption.
  - exfalso. apply (find_none _ _ E) in Hin. now rewrite String.eqb_refl in Hin.
Qed.

Lemma filter_partition_length {A} (p : A -> bool) (l : list A) :
  (length (List.filter p l) + length (List.filter (fun x => negb (p x)) l) = length l)%nat.
Proof.
  induction l as [|x l IH]; [reflexivity|].
  cbn. destruct (p x); cbn; lia.
Qed.

(** X10: the batch scan never aborts: with distinct supplier ids it
    succeeds and reports every active supplier once, in table order, as
    scanned when its own adapter answered and as failed when its own
    adapter threw, whatever happened to the suppliers before it; the counts
    of successes and failures add up to the number of active suppliers. *)
Theorem scanAllSuppliers_never_aborts
  (isActive : string -> bool) (answers : string -> ScanWorld) (st : Store) :
  List.NoDup (map sup_id (suppliers (db st))) ->
  let active := List.filter (fun s => isActive (sup_id s)) (suppliers (db st)) in
  exists summary,
    fst (scanAllSuppliers isActive answers st) = Eff.Returned (Success summary)
    /\ results summary
       = map (fun s =>
                {| so_supplierId := sup_id s;
                   so_success :=
                     bool_decide (is_Some (adapterAnswer (answers (sup_id s)) s));
                   so_error := match adapterAnswer (answers (sup_id s)) s with
                               | Some _ => None
                               | None => Some "adapter failed"
                               end |}) active
    /\ totalSuppliers summary = length active
    /\ (successful summary + failed summary = totalSuppliers summary)%nat.
Proof.
  intros Hnd active.
  assert (Hrun : fst (scanEach answers active [] st)
                 = Eff.Returned
                     (map (fun s =>
                             {| so_supplierId := sup_id s;
                                so_success :=
                                  bool_decide
                                    (is_Some (adapterAnswer (answers (sup_id s)) s));
                                so_error := match adapterAnswer (answers (sup_id s)) s with
                                            | Some _ => None
                                            | None => Some "adapter failed"
                                            end |}) active)).
  { rewrite scanEach_outcomes; [reflexivity|].
    intros s Hs. exists s. split; [|now repeat split].
    apply lookupSupplier_primary_key; [exact Hnd|].
    subst active. now apply filter_In in Hs as [Hs _]. }
  unfold scanAllSuppliers, Eff.try_catch, Eff.bind at 1. cbn [Eff.get].
  fold active. unfold Eff.bind.
  destruct (scanEach answers active [] st) as [o st'].
  cbn [fst] in Hrun. subst o. cbn [Eff.ret fst].
  eexists. split; [reflexivity|].
  cbn [results totalSuppliers successful failed].
  split; [reflexivity|]. split; [reflexivity|].
  rewrite filter_partition_length. now rewrite length_map.
Qed.

End BatchScan.

(** X10 on the sample market: the website of the first supplier is down,
    the API of the second answers; the batch succeeds and reports one
    failure and one success. *)
Lemma scanAllSuppliers_never_aborts_witness :
  List.NoDup (map Scout.sup_id (Scout.suppliers (Scout.db Fixtures.market)))
  /\ exists summary,
       fst (ScoutBatch.scanAllSuppliers BatchFixtures.allActive BatchFixtures.batchAnswers
              Fixtures.market)
       = Eff.Returned (Success summary)
       /\ map ScoutBatch.so_success (ScoutBatch.results summary) = [false; true].
Proof.
  assert (Hnd : List.NoDup (map Scout.sup_id (Scout.suppliers (Scout.db Fixtures.market)))).
  { repeat constructor; cbn; intuition discriminate. }
  split; [exact Hnd|].
  destruct (scanAllSuppliers_never_aborts BatchFixtures.allActive BatchFixtures.batchAnswers
              Fixtures.market Hnd) as (summary & Hrun & Hres & _).
  exists summary. split; [exact Hrun|]. rewrite Hres. reflexivity.
Defined.

(** ** Diplomat: what a call leaves behind *)

Section NegotiationFrame.

Import Diplomat.

Variable cfg : Config.

(** What the next action writes besides the negotiation: at most one
    email, an outbound message only with an email, and an email only in
    answer to a counter-offer while rounds remain. *)
Lemma nextAction_frame w id ctx n a round st :
  let st' := snd (nextAction cfg w id ctx n a round st) in
  organizations (db st') = organizations (db st)
  /\ suppliers (db st') = suppliers (db st)
  /\ purchaseOrders (db st') = purchaseOrders (db st)
  /\ exists sent logged,
       outbox st' = (outbox st ++ sent)%list
       /\ messages (db st') = (messages (db st) ++ logged)%list
       /\ (length sent <= 1)%nat
       /\ (length logged <= length sent)%nat
       /\ List.Forall (fun m => msg_negotiationId m = id /\ direction m = outbound) logged
       /\ (sent <> [] ->
           an_accepted a = false /\ an_rejected a = false
           /\ is_Some (an_counterOffer a) /\ roundsRemain cfg round = true).
Proof.
  assert (Hnone : forall st' : Store,
            organizations (db st') = organizations (db st) ->
            suppliers (db st') = suppliers (db st) ->
            purchaseOrders (db st') = purchaseOrders (db st) ->
            outbox st' = outbox st -> messages (db st') = messages (db st) ->
            organizations (db st') = organizations (db st)
            /\ suppliers (db st') = suppliers (db st)
            /\ purchaseOrders (db st') = purchaseOrders (db st)
            /\ exists sent logged,
                 outbox st' = (outbox st ++ sent)%list
                 /\ messages (db st') = (messages (db st) ++ logged)%list
                 /\ (length sent <= 1)%nat
                 /\ (length logged <= length sent)%nat
                 /\ List.Forall (fun m => msg_negotiationId m = id /\ direction m = outbound)
                                logged
                 /\ (sent <> [] ->
                     an_accepted a = false /\ an_rejected a = false
                     /\ is_Some (an_counterOffer a) /\ roundsRemain cfg round = true)).
  { intros st' H1 H2 H3 Ho Hm.
    split; [exact H1|]. split; [exact H2|]. split; [exact H3|].
    exists [], []. rewrite !app_nil_r.
    split; [exact Ho|]. split; [exact Hm|]. split; [cbn; lia|]. split; [cbn; lia|].
    split; [constructor|]. intros Hne. now contradiction Hne. }
  cbv zeta. unfold nextAction.
  destruct (an_accepted a) eqn:Ha; [now apply Hnone|].
  destruct (an_rejected a) eqn:Hr; [now apply Hnone|].
  destruct (roundsRemain cfg round) eqn:Hround;
    [destruct (an_counterOffer a) as [c|] eqn:Hc|].
  - unfold answerCounterOffer.
    destruct (acceptable (evaluateCounterOffer c _ _)).
    + unfold Eff.bind. cbn [updateNegotiation Eff.modify].
      destruct (mailAccepted w); cbn [sendEmail Eff.modify Eff.throw Eff.ret snd];
        [|now apply Hnone].
      split; [reflexivity|]. split; [reflexivity|]. split; [reflexivity|].
      eexists [_], []. cbn. rewrite app_nil_r.
      split; [reflexivity|]. split; [reflexivity|]. split; [lia|]. split; [lia|].
      split; [constructor|]. intros _. repeat split. now eexists.
    + destruct (counterDraft w) as [d|]; [|now apply Hnone].
      destruct (mailAccepted w); [|now apply Hnone].
      split; [reflexivity|]. split; [reflexivity|]. split; [reflexivity|].
      eexists [_], [_]. cbn.
      split; [reflexivity|]. split; [reflexivity|]. split; [lia|]. split; [lia|].
      split; [repeat constructor|]. intros _. repeat split. now eexists.
  - rewrite decideFinally_run.
    destruct (acceptable (finalDecision cfg n a)); now apply Hnone.
  - rewrite decideFinally_run.
    destruct (acceptable (finalDecision cfg n a)); now apply Hnone.
Qed.

(** X11: a reply to a negotiation that exists is always recorded as an
    inbound message, also when the classification or the counter-email
    fails afterwards; the call sends at most one email, logs an outbound
    message only for an email it sent, and sends an email only while
    rounds remain (a final decision, acceptance included, is not mailed);
    organizations, suppliers and purchase orders are never written, and a
    reply to an unknown negotiation writes nothing at all. *)
Theorem processNegotiationResponse_records_reply
  (w : ReplyWorld) (id content : string) (st : Store) :
  let run := processNegotiationResponse cfg w id content st in
  organizations (db (snd run)) = organizations (db st)
  /\ suppliers (db (snd run)) = suppliers (db st)
  /\ purchaseOrders (db (snd run)) = purchaseOrders (db st)
  /\ (negotiations (db st) !! id = None ->
      run = (Eff.Returned (Failure "Negotiation not found"), st))
  /\ (is_Some (negotiations (db st) !! id) ->
      exists sent logged,
        outbox (snd run) = (outbox st ++ sent)%list
        /\ messages (db (snd run))
           = (messages (db st) ++ inboundMessage id content :: logged)%list
        /\ (length sent <= 1)%nat
        /\ (length logged <= length sent)%nat
        /\ List.Forall (fun m => msg_negotiationId m = id /\ direction m = outbound) logged
        /\ (sent <> [] -> roundsRemain cfg (roundOf (db st) id) = true)).
Proof.
  intros run. subst run.
  destruct (negotiations (db st) !! id) as [n|] eqn:Hn.
  - set (st1 := snd (createMessage (inboundMessage id content) st)).
    assert (Hgoal : forall a,
              processNegotiationResponse cfg w id content st
              = Eff.try_catch
                  (nextAction cfg w id (storedContext (db st) n) n a (roundOf (db st) id))
                  (fun message => Eff.ret (Failure message)) st1 ->
              organizations (db (snd (processNegotiationResponse cfg w id content st)))
              = organizations (db st)
              /\ suppliers (db (snd (processNegotiationResponse cfg w id content st)))
                 = suppliers (db st)
              /\ purchaseOrders (db (snd (processNegotiationResponse cfg w id content st)))
                 = purchaseOrders (db st)
              /\ (Some n = None ->
                  processNegotiationResponse cfg w id content st
                  = (Eff.Returned (Failure "Negotiation not found"), st))
              /\ (is_Some (Some n) ->
                  exists sent logged,
                    outbox (snd (processNegotiationResponse cfg w id content st))
                    = (outbox st ++ sent)%list
                    /\ messages (db (snd (processNegotiationResponse cfg w id content st)))
                       = (messages (db st) ++ inboundMessage id content :: logged)%list
                    /\ (length sent <= 1)%nat
                    /\ (length logged <= length sent)%nat
                    /\ List.Forall
                         (fun m => msg_negotiationId m = id /\ direction m = outbound) logged
                    /\ (sent <> [] -> roundsRemain cfg (roundOf (db st) id) = true))).
    { intros a Hrun. rewrite Hrun, snd_try_catch_failure.
      destruct (nextAction_frame w id (storedContext (db st) n) n a (roundOf (db st) id) st1)
        as (Ho & Hs & Hp & sent & logged & Hout & Hmsg & Hlen & Hlog & Hall & Hsent).
      split; [exact Ho|]. split; [exact Hs|]. split; [exact Hp|].
      split; [discriminate|]. intros _. exists sent, logged.
      split; [exact Hout|]. split.
      { rewrite Hmsg. subst st1. cbn [createMessage Eff.modify snd setDb db messages].
        now rewrite <- app_assoc. }
      split; [exact Hlen|]. split; [exact Hlog|]. split; [exact Hall|].
      intros Hne. now apply Hsent in Hne as (_ & _ & _ & H). }
    destruct (classification w) as [| |a] eqn:Hw.
    + rewrite (process_model_fails cfg _ _ _ _ _ Hn Hw). cbn [snd].
      split; [reflexivity|]. split; [reflexivity|]. split; [reflexivity|].
      split; [discriminate|]. intros _. exists [], [].
      rewrite app_nil_r.
      split; [reflexivity|]. split; [reflexivity|]. split; [cbn; lia|]. split; [cbn; lia|].
      split; [constructor|]. intros Hne. now contradiction Hne.
    + eapply Hgoal. eapply process_next_action; [exact Hn|].
      rewrite Hw. apply analyzeResponse_unparseable.
    + destruct (analyzeResponse_parsed a n st1) as (a' & Ha' & _).
      apply (Hgoal a'). eapply process_next_action; [exact Hn|]. rewrite Hw. exact Ha'.
  - rewrite (process_unknown_negotiation cfg _ _ _ _ Hn). cbn [snd].
    split; [reflexivity|]. split; [reflexivity|]. split; [reflexivity|].
    split; [reflexivity|]. intros [x Hx]. discriminate.
Qed.

End NegotiationFrame.

(** ** Diplomat: the opening of a negotiation *)

Section Opening.

Import Diplomat.

Variable cfg : Config.

(** The run of [initiateNegotiation] once the organization and the
    supplier are found, the supplier has a contact address, the opening
    email is drafted and the id is new: the negotiation is created first,
    then the email is sent and logged. *)
Lemma initiateNegotiation_run w organizationId supplierId requested st
  organization supplier d :
  organizations (db st) !! organizationId = Some organization ->
  suppliers (db st) !! supplierId = Some supplier ->
  Scout.present (contactEmail supplier) = true ->
  openingDraft w = Some d ->
  negotiations (db st) !! newId w = None ->
  let products := map (contextProduct cfg supplier) requested in
  let historicalOrders :=
    firstn 12 (List.filter (fun o => String.eqb (po_organizationId o) organizationId
                                    && String.eqb (po_supplierId o) supplierId
                                    && countsAsVolume (po_status o))
                           (purchaseOrders (db st))) in
  let context :=
    {| ctx_supplierId := supplierId;
       supplierName := sup_name supplier;
       supplierEmail := default "" (contactEmail supplier);
       organizationName := org_name organization;
       products := products;
       historicalVolume := Some (Number.sum totalAmount historicalOrders) |} in
  let strategy := determineStrategy cfg context in
  let email :=
    {| to := supplierEmail context;
       subject := default ("Pricing Discussion - " ++ organizationName context)
                          (subjectLine d);
       body := Generated (draftBody d) |} in
  let created :=
    {| neg_organizationId := organizationId;
       neg_supplierId := supplierId;
       status := in_progress;
       initialOffer := {| offer_products := products;
                          targetSavings := targetImprovement cfg;
                          offer_strategy := approach strategy |};
       counterOffers := [];
       finalTerms := None;
       savings := None;
       expiresAt := (init_now w + 7 * 24 * 60 * 60 * 1000)%Z;
       completedAt := None;
       metadata := Some strategy |} in
  let opened :=
    {| organizations := organizations (db st); suppliers := suppliers (db st);
       purchaseOrders := purchaseOrders (db st);
       negotiations := <[newId w := created]> (negotiations (db st));
       messages := messages (db st) |} in
  initiateNegotiation cfg w organizationId supplierId requested st
  = if init_mailAccepted w
    then (Eff.Returned (Success {| negotiationId := newId w;
                                   strategy := approach strategy;
                                   emailSent := true |}),
          {| db := {| organizations := organizations (db st);
                      suppliers := suppliers (db st);
                      purchaseOrders := purchaseOrders (db st);
                      negotiations := <[newId w := created]> (negotiations (db st));
                      messages :=
                        (messages (db st)
                         ++ [{| msg_negotiationId := newId w; direction := outbound;
                                msg_subject := Some (subject email);
                                content := body email;
                                sentAt := Some (init_now w) |}])%list |};
             outbox := (outbox st ++ [email])%list |})
    else (Eff.Returned (Failure "sendMail failed"),
          {| db := opened; outbox := outbox st |}).
Proof.
  intros Horg Hsup Hmail Hd Hfresh. cbv zeta.
  unfold initiateNegotiation, Eff.try_catch, Eff.bind at 1. cbn [Eff.get].
  rewrite Horg, Hsup, Hmail, Hd.
  unfold Eff.bind at 1. cbn [generateNegotiationEmail Eff.ret].
  unfold Eff.bind at 1. unfold createNegotiation at 1.
  unfold Eff.bind at 1. cbn [Eff.get]. rewrite Hfresh.
  cbn [Eff.modify]. unfold Eff.bind.
  destruct (init_mailAccepted w); reflexivity.
Qed.

(** X12: [initiateNegotiation] writes nothing when the organization or
    the supplier is unknown, when the supplier has no contact email and
    when the opening email cannot be drafted, and it says which.  When the
    mail transport refuses the email the call fails as well, but the
    negotiation has been created before: it stays in the table, in
    progress, with no message logged and no email sent. *)
Theorem initiateNegotiation_failure_modes
  (w : InitWorld) (organizationId supplierId : string)
  (requested : list RequestedProduct) (st : Store) :
  let run := initiateNegotiation cfg w organizationId supplierId requested st in
  (organizations (db st) !! organizationId = None
   \/ suppliers (db st) !! supplierId = None ->
   run = (Eff.Returned (Failure "Organization or supplier not found"), st))
  /\ (forall organization supplier,
        organizations (db st) !! organizationId = Some organization ->
        suppliers (db st) !! supplierId = Some supplier ->
        (Scout.present (contactEmail supplier) = false ->
         run = (Eff.Returned (Failure "Supplier has no contact email"), st))
        /\ (Scout.present (contactEmail supplier) = true ->
            openingDraft w = None ->
            run = (Eff.Returned (Failure "generateContent failed"), st))
        /\ (Scout.present (contactEmail supplier) = true ->
            is_Some (openingDraft w) ->
            negotiations (db st) !! newId w = None ->
            init_mailAccepted w = false ->
            fst run = Eff.Returned (Failure "sendMail failed")
            /\ statusOf (newId w) (snd run) = Some in_progress
            /\ messages (db (snd run)) = messages (db st)
            /\ outbox (snd run) = outbox st)).
Proof.
  intros run. subst run. split.
  - intros Hmissing.
    unfold initiateNegotiation, Eff.try_catch, Eff.bind at 1. cbn [Eff.get].
    destruct Hmissing as [H|H]; rewrite H; [reflexivity|].
    now destruct (organizations (db st) !! organizationId).
  - intros organization supplier Horg Hsup. split; [|split].
    + intros Hmail.
      unfold initiateNegotiation, Eff.try_catch, Eff.bind at 1. cbn [Eff.get].
      now rewrite Horg, Hsup, Hmail.
    + intros Hmail Hd.
      unfold initiateNegotiation, Eff.try_catch, Eff.bind at 1. cbn [Eff.get].
      rewrite Horg, Hsup, Hmail, Hd. reflexivity.
    + intros Hmail [d Hd] Hfresh Hrefused.
      rewrite (initiateNegotiation_run w organizationId supplierId requested st
                 organization supplier d Horg Hsup Hmail Hd Hfresh).
      rewrite Hrefused. cbn [fst snd db messages outbox].
      split; [reflexivity|]. split; [|split; reflexivity].
      unfold statusOf. cbn [db negotiations]. now rewrite lookup_insert_eq.
Qed.

Lemma existsb_no_competitor (ps : list Product) :
  List.Forall (fun p => competitorPrice p = None) ps ->
  existsb (fun p => match competitorPrice p with
                    | Some c => Number.truthy c | None => false end) ps = false.
Proof.
  induction 1 as [|p ps Hp _ IH]; [reflexivity|].
  cbn [existsb]. now rewrite Hp, IH.
Qed.

(** Without a competitor price the strategy is decided by the historical
    volume alone. *)
Lemma determineStrategy_no_competitor ctx :
  List.Forall (fun p => competitorPrice p = None) (products ctx) ->
  approach (determineStrategy cfg ctx)
  = match historicalVolume ctx with
    | Some v => if Number.truthy v && Number.gt v 50000%float
                then volume_leverage else collaborative
    | None => collaborative
    end.
Proof.
  intros Hps. unfold determineStrategy. rewrite (existsb_no_competitor _ Hps).
  destruct (historicalVolume ctx) as [v|]; [|reflexivity].
  now destruct (Number.truthy v && Number.gt v 50000%float).
Qed.

Lemma contextProduct_no_competitor supplier requested :
  List.Forall (fun p => competitorPrice p = None)
              (map (contextProduct cfg supplier) requested).
Proof. apply List.Forall_forall. intros p Hp. apply in_map_iff in Hp as (r & <- & _). reflexivity. Qed.

(** X13: a negotiation that [initiateNegotiation] opens: the email goes
    to the contact address of the supplier and is logged as the one
    outbound message the call adds; the strategy is 'volume_leverage' when
    the total of the (at most twelve, newest) confirmed, shipped or
    received orders with the supplier is above 50000 and 'collaborative'
    otherwise, never 'competitive' or 'urgency', since the products of the
    context carry no competitor price; the strategy is stored with the
    negotiation; and when no outbound message was stored under the new id,
    the first reply is processed as round 2. *)
Theorem initiateNegotiation_opens_round_one
  (w : InitWorld) (organizationId supplierId : string)
  (requested : list RequestedProduct) (st : Store) (data : InitData) :
  fst (initiateNegotiation cfg w organizationId supplierId requested st)
  = Eff.Returned (Success data) ->
  let st' := snd (initiateNegotiation cfg w organizationId supplierId requested st) in
  let volume :=
    Number.sum totalAmount
      (firstn 12 (List.filter (fun o => String.eqb (po_organizationId o) organizationId
                                      && String.eqb (po_supplierId o) supplierId
                                      && countsAsVolume (po_status o))
                             (purchaseOrders (db st)))) in
  negotiationId data = newId w
  /\ strategy data = (if Number.truthy volume && Number.gt volume 50000%float
                      then volume_leverage else collaborative)
  /\ (exists created,
        negotiations (db st') = <[newId w := created]> (negotiations (db st))
        /\ negotiations (db st) !! newId w = None
        /\ status created = in_progress
        /\ offer_strategy (initialOffer created) = strategy data
        /\ option_map approach (metadata created) = Some (strategy data)
        /\ List.Forall (fun p => competitorPrice p = None)
                       (offer_products (initialOffer created))
        /\ expiresAt created = (init_now w + 604800000)%Z)
  /\ (exists email supplier,
        suppliers (db st) !! supplierId = Some supplier
        /\ contactEmail supplier = Some (to email)
        /\ outbox st' = (outbox st ++ [email])%list
        /\ messages (db st')
           = (messages (db st)
              ++ [{| msg_negotiationId := newId w; direction := outbound;
                     msg_subject := Some (subject email); content := body email;
                     sentAt := Some (init_now w) |}])%list)
  /\ (outboundCount (db st) (newId w) = 0%nat -> roundOf (db st') (newId w) = 2%nat).
Proof.
  intros Hok st' volume. subst st'.
  destruct (organizations (db st) !! organizationId) as [organization|] eqn:Horg;
    [|exfalso; revert Hok;
      unfold initiateNegotiation, Eff.try_catch, Eff.bind at 1; cbn [Eff.get];
      rewrite Horg; discriminate].
  destruct (suppliers (db st) !! supplierId) as [supplier|] eqn:Hsup;
    [|exfalso; revert Hok;
      unfold initiateNegotiation, Eff.try_catch, Eff.bind at 1; cbn [Eff.get];
      rewrite Horg, Hsup; discriminate].
  destruct (Scout.present (contactEmail supplier)) eqn:Hmail;
    [|exfalso; revert Hok;
      unfold initiateNegotiation, Eff.try_catch, Eff.bind at 1; cbn [Eff.get];
      rewrite Horg, Hsup, Hmail; discriminate].
  destruct (openingDraft w) as [d|] eqn:Hd;
    [|exfalso; revert Hok;
      unfold initiateNegotiation, Eff.try_catch, Eff.bind at 1; cbn [Eff.get];
      rewrite Horg, Hsup, Hmail, Hd; discriminate].
  destruct (initiateNegotiation_success cfg _ _ _ _ _ _ Hok) as (Hid & Hfresh & _).
  revert Hok.
  rewrite (initiateNegotiation_run w organizationId supplierId requested st
             organization supplier d Horg Hsup Hmail Hd Hfresh).
  destruct (init_mailAccepted w); [|discriminate].
  cbn [fst snd db negotiations messages outbox]. intros Hok. injection Hok as <-.
  cbn [negotiationId strategy].
  assert (Hstrategy :
            approach (determineStrategy cfg
              {| ctx_supplierId := supplierId;
                 supplierName := sup_name supplier;
                 supplierEmail := default "" (contactEmail supplier);
                 organizationName := org_name organization;
                 products := map (contextProduct cfg supplier) requested;
                 historicalVolume := Some volume |})
            = (if Number.truthy volume && Number.gt volume 50000%float
               then volume_leverage else collaborative)).
  { rewrite determineStrategy_no_competitor; [reflexivity|].
    apply contextProduct_no_competitor. }
  split; [reflexivity|]. split; [exact Hstrategy|]. split; [|split].
  - eexists. split; [reflexivity|]. split; [exact Hfresh|].
    cbn [status initialOffer offer_strategy metadata offer_products expiresAt option_map].
    split; [reflexivity|]. split; [reflexivity|]. split; [reflexivity|].
    split; [apply contextProduct_no_competitor|reflexivity].
  - eexists _, supplier. split; [reflexivity|]. split; [|split; reflexivity].
    cbn [to supplierEmail].
    destruct (contactEmail supplier) as [address|]; [reflexivity|discriminate].
  - intros Hnone. unfold roundOf, outboundCount in *. cbn [db messages].
    rewrite !List.filter_app, length_app.
    cbn [List.filter msg_negotiationId]. rewrite String.eqb_refl.
    cbn [List.filter direction length]. rewrite Hnone. reflexivity.
Qed.

End Opening.

(** X13 on the sample desk: the organization has no order with the
    supplier, the strategy is 'collaborative', and the next reply is round
    2. *)
Lemma initiateNegotiation_opens_round_one_witness :
  fst (Diplomat.initiateNegotiation defaultConfig (DiplomatFixtures.opening true)
         "org-1" "sup-1" DiplomatFixtures.request (Sample.desk Diplomat.in_progress 0))
  = Eff.Returned (Success {| Diplomat.negotiationId := "neg-9";
                             Diplomat.strategy := Diplomat.collaborative;
                             Diplomat.emailSent := true |})
  /\ Diplomat.roundOf
       (Diplomat.db
          (snd (Diplomat.initiateNegotiation defaultConfig (DiplomatFixtures.opening true)
                  "org-1" "sup-1" DiplomatFixtures.request
                  (Sample.desk Diplomat.in_progress 0)))) "neg-9"
     = 2%nat.
Proof.
  assert (Hok : fst (Diplomat.initiateNegotiation defaultConfig
                       (DiplomatFixtures.opening true)
                       "org-1" "sup-1" DiplomatFixtures.request
                       (Sample.desk Diplomat.in_progress 0))
                = Eff.Returned (Success {| Diplomat.negotiationId := "neg-9";
                                           Diplomat.strategy := Diplomat.collaborative;
                                           Diplomat.emailSent := true |})).
  { vm_compute. reflexivity. }
  split; [exact Hok|].
  apply (initiateNegotiation_opens_round_one defaultConfig (DiplomatFixtures.opening true)
           "org-1" "sup-1" DiplomatFixtures.request (Sample.desk Diplomat.in_progress 0)
           _ Hok).
  reflexivity.
Defined.

(** ** Diplomat: the follow-up route and the sweep *)

Section FollowUpAndSweep.

Import Diplomat.

(** X14: a follow-up posted through the API for a negotiation that
    exists is logged as an outbound message and therefore counts as a
    round of that negotiation, although the route sends no email; the
    rounds and the statuses of the other negotiations are as they were.
    For an unknown negotiation the route throws and writes nothing. *)
Theorem sendFollowUp_counts_as_round (id message : string) (t : Z) (st : Store) :
  let run := sendFollowUp id message t st in
  (negotiations (db st) !! id = None ->
   run = (Eff.Threw "Foreign key constraint failed", st))
  /\ (is_Some (negotiations (db st) !! id) ->
      fst run = Eff.Returned tt
      /\ roundOf (db (snd run)) id = S (roundOf (db st) id)
      /\ outbox (snd run) = outbox st
      /\ forall id', id' <> id ->
           roundOf (db (snd run)) id' = roundOf (db st) id'
           /\ statusOf id' (snd run) = statusOf id' st).
Proof.
  intros run. subst run. split.
  - intros Hn. unfold sendFollowUp, Eff.bind at 1. cbn [Eff.get]. now rewrite Hn.
  - intros [n Hn].
    assert (Hrun : sendFollowUp id message t st
                   = (Eff.Returned tt,
                      snd (updateNegotiation id (withStatus in_progress)
                             (snd (createMessage
                                     {| msg_negotiationId := id; direction := outbound;
                                        msg_subject := Some "Follow-up";
                                        content := Generated message;
                                        sentAt := Some t |} st))))).
    { unfold sendFollowUp, Eff.bind at 1. cbn [Eff.get]. now rewrite Hn. }
    rewrite Hrun.
    cbn [createMessage updateNegotiation Eff.modify fst snd setDb db outbox].
    split; [reflexivity|]. split; [|split; [reflexivity|]].
    + unfold roundOf, outboundCount. cbn [messages].
      rewrite !List.filter_app, length_app.
      cbn [List.filter msg_negotiationId]. rewrite String.eqb_refl.
      cbn [List.filter direction length]. lia.
    + intros id' Hne. split.
      * unfold roundOf, outboundCount. cbn [messages].
        rewrite !List.filter_app, length_app.
        cbn [List.filter msg_negotiationId].
        destruct (String.eqb id id') eqn:E;
          [apply String.eqb_eq in E; congruence|].
        cbn [List.filter length]. lia.
      * unfold statusOf, setDb. cbn [db negotiations].
        rewrite lookup_alter_ne by congruence. reflexivity.
Qed.

(** X15: the sweep of the runner writes the table of negotiations only;
    a negotiation it changes was in progress with its expiry before the
    time of the sweep, and becomes expired and completed at that time;
    running the sweep again at the same time changes nothing. *)
Theorem expireStale_idempotent (t : Z) (st : Store) :
  let st' := snd (expireStale t st) in
  snd (expireStale t st') = st'
  /\ organizations (db st') = organizations (db st)
  /\ suppliers (db st') = suppliers (db st)
  /\ purchaseOrders (db st') = purchaseOrders (db st)
  /\ messages (db st') = messages (db st)
  /\ outbox st' = outbox st
  /\ (forall id n,
        negotiations (db st) !! id = Some n ->
        exists n',
          negotiations (db st') !! id = Some n'
          /\ (n' = n
              \/ (status n = in_progress /\ (expiresAt n < t)%Z
                  /\ status n' = expired /\ completedAt n' = Some t
                  /\ initialOffer n' = initialOffer n
                  /\ counterOffers n' = counterOffers n)))
  /\ (forall id, negotiations (db st) !! id = None -> negotiations (db st') !! id = None).
Proof.
  intros st'. subst st'.
  unfold expireStale, setDb. cbn [Eff.modify snd db negotiations organizations suppliers
    purchaseOrders messages outbox].
  split; [|split; [reflexivity|split; [reflexivity|split; [reflexivity|
           split; [reflexivity|split; [reflexivity|split]]]]]].
  - f_equal. f_equal. rewrite <- map_fmap_compose. apply map_fmap_ext.
    intros id n _. cbn.
    destruct (status n) eqn:Hs; try (now rewrite Hs).
    destruct (expiresAt n <? t)%Z eqn:Ht; cbn; [reflexivity|].
    now rewrite Hs, Ht.
  - intros id n Hn. rewrite lookup_fmap, Hn. cbn. eexists. split; [reflexivity|].
    destruct (status n) eqn:Hs; try (now left).
    destruct (expiresAt n <? t)%Z eqn:Ht; [|now left].
    right. apply Z.ltb_lt in Ht. cbn. rewrite app_nil_r. repeat split; assumption.
  - intros id Hn. now rewrite lookup_fmap, Hn.
Qed.

End FollowUpAndSweep.

(** After the opening email and one follow-up through the API, the round
    of the sample negotiation is 3 of 3: a counter-offer of 9.90 is decided
    finally, and no counter-email is sent. *)
Example follow_up_uses_up_a_round :
  let st := snd (Diplomat.sendFollowUp "neg-1" "Any news?" 1700050000000
                   (Sample.desk Diplomat.in_progress 1)) in
  Diplomat.roundOf (Diplomat.db (Sample.desk Diplomat.in_progress 1)) "neg-1" = 2%nat
  /\ Diplomat.roundOf (Diplomat.db st) "neg-1" = 3%nat
  /\ fst (Diplomat.processNegotiationResponse defaultConfig
            (Sample.replying (Diplomat.Parsed (Sample.counters 9.9%float)))
            "neg-1" "Our best price" st)
     = Eff.Returned (Success Diplomat.DataNoAgreement)
  /\ Diplomat.outbox
       (snd (Diplomat.processNegotiationResponse defaultConfig
               (Sample.replying (Diplomat.Parsed (Sample.counters 9.9%float)))
               "neg-1" "Our best price" st))
     = [].
Proof. vm_compute. repeat split. Qed.
